(** * Fintracker: budget reconciliation and spend aggregation

    A shallow embedding of the server routes that keep a budget's cached
    [spentAmount] in step with the expense ledger
    ([server/routes/budget.js], the expense and income routes) and of the
    dashboard and report aggregations, followed by the properties that
    hold of them.

    Modelling conventions.
    - Amounts are exact integers counting hundredths of the currency unit
      ([0.01] is [1]).  The code holds them as doubles: what is stated
      below never needs two sums that the code adds up in different
      orders to agree, nor an amount added and taken off again to leave
      what was there.  A request amount is a whole number of hundredths:
      an amount strictly between 0 and 0.01, which the validation
      middleware lets through and the schema's [min: 0.01] refuses (the
      handler's [catch] answers 500 and nothing is written), is outside
      the embedding, and no property below says that a handler never
      answers 500.
    - A JavaScript [Date] is held by its fields in the server's local
      time (what [getFullYear], [getMonth], [getDate] and the time of day
      return).  The server's zone is taken to have a fixed offset, so the
      order of instants is the lexicographic order of these fields.
    - [toLocaleString('default', ...)] is taken in an English locale.
    - Request fields are taken after [parseFloat], [parseInt] and
      [new Date(...)]; category strings carry no surrounding blanks, so the
      schema's [trim] setter is the identity on them.
    - A collection is the list of its documents in natural order; a
      handler runs alone from its first storage call to its last.
    - [req.userId] is the session's string, the 24 hex digits of an
      [ObjectId]; the parameter [uid] of a route is the id it spells.  A
      query ([find], [findOne], [findOneAndUpdate], [findOneAndDelete])
      casts the string to the schema's [ObjectId]; an aggregation pipeline
      takes it as it is given ([Filter]).
    - A route parameter [:id] either spells an [ObjectId] or is malformed
      ([Route.Param]); a malformed one makes the first storage call of
      the handler throw, before any write.  The writing routes are given
      on the id that a well-formed parameter spells.
    - The mongoose timestamps ([createdAt], [updatedAt]) are left out. *)

From Stdlib Require Import ZArith List String Ascii Bool Lia DecimalString.
From Stdlib Require Import Sorted Permutation.
Import ListNotations.
Open Scope string_scope.
Open Scope list_scope.
Open Scope Z_scope.

(** ** Dates *)

Module Date.

Record t : Type := mk
  { getFullYear : Z;   (* calendar year *)
    getMonth : Z;      (* 0 = January ... 11 = December *)
    getDate : Z;       (* day of the month, from 1 *)
    timeOfDay : Z }.   (* milliseconds since local midnight *)

(** [h:m:s.ms] as milliseconds since midnight. *)
Definition hms (h m s ms : Z) : Z := ((h * 60 + m) * 60 + s) * 1000 + ms.

Definition isLeap (y : Z) : bool :=
  ((y mod 4 =? 0) && negb (y mod 100 =? 0)) || (y mod 400 =? 0).

Definition daysInMonth (y m : Z) : Z :=
  if m =? 1 then (if isLeap y then 29 else 28)
  else if (m =? 3) || (m =? 5) || (m =? 8) || (m =? 10) then 30
  else 31.

(** [new Date(year, monthIndex, day, h, m, s, ms)], with the time of day
    already folded into [tod].  The month index is brought into
    [0..11] by carrying into the year; a day below 1 counts back from
    the end of the month before (day [0] is its last day).  The routes
    only pass days between [-5] and the length of the month. *)
Definition make (y m d tod : Z) : t :=
  let y1 := y + m / 12 in
  let m1 := m mod 12 in
  if 1 <=? d then mk y1 m1 d tod
  else
    let y0 := y1 + (m1 - 1) / 12 in
    let m0 := (m1 - 1) mod 12 in
    mk y0 m0 (daysInMonth y0 m0 + d) tod.

(** Days since 1970-01-01 of a civil date (month index from 0). *)
Definition dayNumber (y m d : Z) : Z :=
  let y' := if m <=? 1 then y - 1 else y in
  let era := y' / 400 in
  let yoe := y' - era * 400 in
  let mp := (m + 10) mod 12 in
  let doy := (153 * mp + 2) / 5 + d - 1 in
  let doe := yoe * 365 + yoe / 4 - yoe / 100 + doy in
  era * 146097 + doe - 719468.

(** [getDay()]: 0 = Sunday ... 6 = Saturday. *)
Definition getDay (d : t) : Z :=
  (dayNumber (getFullYear d) (getMonth d) (getDate d) + 4) mod 7.

(** [d.setDate(n)]: the date object after the call. *)
Definition setDate (d : t) (n : Z) : t :=
  make (getFullYear d) (getMonth d) n (timeOfDay d).

(** [d.setHours(h, m, s, ms)]: the date object after the call. *)
Definition setHours (d : t) (h m s ms : Z) : t :=
  mk (getFullYear d) (getMonth d) (getDate d) (hms h m s ms).

Definition compare (a b : t) : comparison :=
  match getFullYear a ?= getFullYear b with
  | Eq =>
      match getMonth a ?= getMonth b with
      | Eq =>
          match getDate a ?= getDate b with
          | Eq => timeOfDay a ?= timeOfDay b
          | c => c
          end
      | c => c
      end
  | c => c
  end.

(** [a <= b] on instants, the order of [$gte] and [$lte]. *)
Definition leb (a b : t) : bool :=
  match compare a b with Gt => false | _ => true end.

(** [a > b] on instants. *)
Definition gtb (a b : t) : bool := negb (leb a b).

(** The filter [{ $gte: lo, $lte: hi }]. *)
Definition between (lo hi d : t) : bool := leb lo d && leb d hi.

Definition months : list string :=
  [ "January"; "February"; "March"; "April"; "May"; "June";
    "July"; "August"; "September"; "October"; "November"; "December" ].

Definition shortMonths : list string :=
  [ "Jan"; "Feb"; "Mar"; "Apr"; "May"; "Jun";
    "Jul"; "Aug"; "Sep"; "Oct"; "Nov"; "Dec" ].

(** [d.toLocaleString('default', { month: 'long' })]. *)
Definition monthLong (d : t) : string :=
  nth (Z.to_nat (getMonth d)) months "".

(** [d.toLocaleString('default', { month: 'short' })]. *)
Definition monthShort (d : t) : string :=
  nth (Z.to_nat (getMonth d)) shortMonths "".

(** [d.toLocaleString('default', { month: 'short', year: 'numeric' })]. *)
Definition monthShortYear (d : t) : string :=
  (monthShort d ++ " " ++ NilZero.string_of_int (Z.to_int (getFullYear d)))%string.

(** The first and the last instant of the calendar month [m] of [y]
    (the clock has millisecond resolution). *)
Definition firstInstant (y m : Z) : t := mk y m 1 0.
Definition lastInstant (y m : Z) : t :=
  mk y m (daysInMonth y m) (hms 23 59 59 999).

End Date.

(** ** Storage primitives *)

Module Mongo.

Section Collection.
Context {A : Type}.

(** [Model.find(q)]. *)
Definition find (q : A -> bool) (c : list A) : list A := filter q c.

(** [Model.findOne(q)]: the first match in natural order. *)
Definition findOne (q : A -> bool) (c : list A) : option A := List.find q c.

(** The write of [findOneAndUpdate(q, u)] and of an [updateOne]: the
    first match is replaced by its image under [u]. *)
Fixpoint updateOne (q : A -> bool) (u : A -> A) (c : list A) : list A :=
  match c with
  | [] => []
  | x :: rest => if q x then u x :: rest else x :: updateOne q u rest
  end.

(** The write of [findOneAndDelete(q)]: the first match is removed. *)
Fixpoint deleteOne (q : A -> bool) (c : list A) : list A :=
  match c with
  | [] => []
  | x :: rest => if q x then rest else x :: deleteOne q rest
  end.

(** [aggregate([{ $match }, { $group: { _id: null, total: { $sum } } }])]
    on the matched documents: no group at all when nothing matched. *)
Definition groupTotal (amount : A -> Z) (matched : list A) : list Z :=
  match matched with
  | [] => []
  | _ => [fold_left (fun acc x => acc + amount x) matched 0]
  end.

(** The same with [count: { $sum: 1 }] next to the total. *)
Definition groupTotalCount (amount : A -> Z) (matched : list A)
  : list (Z * Z) :=
  match matched with
  | [] => []
  | _ => [(fold_left (fun acc x => acc + amount x) matched 0,
           Z.of_nat (List.length matched))]
  end.

End Collection.

(** [r[0]?.total || 0]: a missing group and a zero total both give 0. *)
Definition totalOrZero (r : list Z) : Z :=
  match r with
  | [] => 0
  | total :: _ => if total =? 0 then 0 else total
  end.

(** What a storage call can throw. *)
Inductive error : Type :=
| DuplicateKey      (* error.code === 11000 *)
| ValidationError.  (* a schema validator failed *)

End Mongo.

(** ** Documents and the database *)

Definition ObjectId : Type := nat.
Bind Scope nat_scope with ObjectId.

(** ** Ids in filters *)

Module Filter.

(** The value a handler gives for an [ObjectId] path of a filter: the
    session's string as it is ([userId: req.userId]), or the [ObjectId]
    made of it ([new mongoose.Types.ObjectId(req.userId)]). *)
Inductive id : Type :=
| Str (spells : ObjectId)
| Oid (i : ObjectId).

(** A stage of an aggregation pipeline is sent as it is given: mongoose
    casts no pipeline, and a string equals no [ObjectId]. *)
Definition inPipeline (given : id) (stored : ObjectId) : bool :=
  match given with
  | Oid i => (stored =? i)%nat
  | Str _ => false
  end.

End Filter.

(** ** Route parameters *)

Module Route.

(** [req.params.id] as it arrives: a string that spells an [ObjectId], or
    one that does not.  The first storage call of a [/:id] handler has
    the parameter in its filter; casting a malformed one throws, and the
    handler's [catch] answers 500. *)
Inductive Param : Type :=
| Spells (i : ObjectId)
| Malformed.

End Route.

(** The Budget model: one document per schema field of [budgetSchema]. *)
Module Budget.

Record t : Type := mk
  { _id : ObjectId;
    userId : ObjectId;
    category : string;
    budgetAmount : Z;
    spentAmount : Z;
    month : string;
    year : Z }.

Definition setSpentAmount (v : Z) (b : t) : t :=
  mk (_id b) (userId b) (category b) (budgetAmount b) v (month b) (year b).

(** The update [{ $inc: { spentAmount: delta } }]; the sum is exact here
    and rounded to a double in the code. *)
Definition incSpentAmount (delta : Z) (b : t) : t :=
  setSpentAmount (spentAmount b + delta) b.

(** The update [{ category, budgetAmount, month, year }]. *)
Definition setFields (c : string) (a : Z) (m : string) (y : Z) (b : t) : t :=
  mk (_id b) (userId b) c a (spentAmount b) m y.

(** The schema's validators, field by field. *)
Definition validCategory (c : string) : bool := negb (c =? "")%string.
Definition validBudgetAmount (a : Z) : bool := 1 <=? a.   (* min 0.01 *)
Definition validSpentAmount (a : Z) : bool := 0 <=? a.    (* min 0 *)
Definition validMonth (m : string) : bool := existsb (String.eqb m) Date.months.
Definition validYear (y : Z) : bool := (2020 <=? y) && (y <=? 2030).

(** The validators of the fields other than [spentAmount]. *)
Definition validFields (b : t) : bool :=
  validCategory (category b) && validBudgetAmount (budgetAmount b)
  && validMonth (month b) && validYear (year b).

(** What [save()] checks: every validator of the schema. *)
Definition validate (b : t) : bool :=
  validFields b && validSpentAmount (spentAmount b).

(** The filter [{ userId, category, month, year }], which is also the key
    of the unique compound index. *)
Definition sameKey (u : ObjectId) (c m : string) (y : Z) (b : t) : bool :=
  (userId b =? u)%nat && (category b =? c)%string
  && (month b =? m)%string && (year b =? y).

Definition hasId (i : ObjectId) (b : t) : bool := (_id b =? i)%nat.

Definition ownedBy (u : ObjectId) (b : t) : bool := (userId b =? u)%nat.

End Budget.

(** Expense and Income documents have one shape: the fields the routes
    pass to [new Expense({...})] and [new Income({...})].  [userId] is an
    [ObjectId] path: the Income schema declares it so, and the dashboard
    and the reports cast the session's string before they match it in
    either collection. *)
Module Transaction.

Record t : Type := mk
  { _id : ObjectId;
    userId : ObjectId;
    description : string;
    amount : Z;
    category : string;
    date : Date.t }.

(** The update [{ description, amount, category, date }]. *)
Definition setFields (d : string) (a : Z) (c : string) (w : Date.t) (x : t) : t :=
  mk (_id x) (userId x) d a c w.

(** The filter [{ _id, userId }]. *)
Definition isOwn (i u : ObjectId) (x : t) : bool :=
  (_id x =? i)%nat && (userId x =? u)%nat.

Definition ownedBy (u : ObjectId) (x : t) : bool := (userId x =? u)%nat.

End Transaction.

Record Db : Type := mkDb
  { incomeDocs : list Transaction.t;
    expenseDocs : list Transaction.t;
    budgetDocs : list Budget.t;
    nextId : ObjectId }.   (* the next fresh [_id] *)

Definition withBudgets (bs : list Budget.t) (db : Db) : Db :=
  mkDb (incomeDocs db) (expenseDocs db) bs (nextId db).

Definition withExpenses (es : list Transaction.t) (db : Db) : Db :=
  mkDb (incomeDocs db) es (budgetDocs db) (nextId db).

Definition withIncomes (xs : list Transaction.t) (db : Db) : Db :=
  mkDb xs (expenseDocs db) (budgetDocs db) (nextId db).

Definition tick (db : Db) : Db :=
  mkDb (incomeDocs db) (expenseDocs db) (budgetDocs db) (S (nextId db)).

(** No two documents of a collection share an [_id]. *)
Fixpoint distinct (ids : list ObjectId) : bool :=
  match ids with
  | [] => true
  | i :: rest => negb (existsb (Nat.eqb i) rest) && distinct rest
  end.

(** What the routes keep true of the store: budget ids are distinct, every
    budget passes the validators of its fields other than the cached
    [spentAmount] (which may have drifted, below zero too), and every
    expense has the positive amount that [validateTransaction] asks for. *)
Definition wellFormed (db : Db) : bool :=
  distinct (map Budget._id (budgetDocs db))
  && forallb Budget.validFields (budgetDocs db)
  && forallb (fun e => 0 <? Transaction.amount e) (expenseDocs db).

(** ** Replies *)

(** [res.status(s).json(b)]: a body is either a document or an object
    [{ message }], with the [errors] array that validation adds. *)
Inductive Body (A : Type) : Type :=
| Doc (a : A)
| Message (message : string) (errors : option (list string)).
Arguments Doc {A} a.
Arguments Message {A} message errors.

Record Reply (A : Type) : Type := mkReply
  { status : Z;
    body : Body A }.
Arguments mkReply {A} status body.
Arguments status {A} r.
Arguments body {A} r.

Definition json {A : Type} (s : Z) (a : A) : Reply A := mkReply s (Doc a).

Definition message {A : Type} (s : Z) (m : string) : Reply A :=
  mkReply s (Message m None).

(** A request is rejected when it is answered with a client-error
    status (4xx). *)
Definition isRejected {A : Type} (r : Reply A) : bool :=
  (400 <=? status r) && (status r <? 500).

(** ** Validation middleware ([server/middleware/validation.js]) *)

Record BudgetReq : Type := mkBudgetReq
  { reqCategory : string;
    reqBudgetAmount : Z;
    reqMonth : string;
    reqYear : Z }.

Record TransactionReq : Type := mkTransactionReq
  { reqDescription : string;
    reqAmount : Z;
    reqTxCategory : string;
    reqDate : Date.t }.

Definition unless (ok : bool) (msg : string) : list string :=
  if ok then [] else [msg].

(** The checks on the raw text of a field ([isNumeric], [isISO8601],
    [isInt]) are passed by every request written here, whose fields are
    already numbers and dates. *)
Definition validateTransaction (r : TransactionReq) : list string :=
  unless (negb (reqDescription r =? "")%string) "Description is required"
  ++ unless (Nat.leb (String.length (reqDescription r)) 200)
       "Description must be less than 200 characters"
  ++ unless (negb (reqAmount r <=? 0)) "Amount must be greater than 0"
  ++ unless (negb (reqTxCategory r =? "")%string) "Category is required".

Definition validateBudget (r : BudgetReq) : list string :=
  unless (negb (reqCategory r =? "")%string) "Category is required"
  ++ unless (negb (reqBudgetAmount r <=? 0)) "Budget amount must be greater than 0"
  ++ unless (existsb (String.eqb (reqMonth r)) Date.months) "Invalid month"
  ++ unless ((2020 <=? reqYear r) && (reqYear r <=? 2030))
       "Year must be between 2020 and 2030".

(** [handleValidationErrors]: answer 400 with the errors, or go on. *)
Definition handleValidationErrors {A : Type} (errors : list string)
  (next : Db -> Reply A * Db) (db : Db) : Reply A * Db :=
  match errors with
  | [] => next db
  | _ => (mkReply 400 (Message "Validation failed" (Some errors)), db)
  end.

(** ** Budget routes ([server/routes/budget.js]) *)

Module BudgetRoutes.

(** [months.indexOf(name)], [-1] when absent. *)
Fixpoint indexOf (name : string) (l : list string) : Z :=
  match l with
  | [] => -1
  | x :: rest =>
      if (name =? x)%string then 0
      else let i := indexOf name rest in if i <? 0 then -1 else 1 + i
  end.

Definition getMonthIndex (monthName : string) : Z :=
  indexOf monthName Date.months.

(** [new Date(year, getMonthIndex(month), 1)] and
    [new Date(year, getMonthIndex(month) + 1, 0)]: the two lines that open
    the scan in the create, the update and the refresh handler. *)
Definition startDate (month : string) (year : Z) : Date.t :=
  Date.make year (getMonthIndex month) 1 0.

Definition endDate (month : string) (year : Z) : Date.t :=
  Date.make year (getMonthIndex month + 1) 0 0.

(** The [$match] stage [{ userId, category, date: { $gte, $lte } }] of
    an aggregation pipeline. *)
Definition matchExpense (userId : Filter.id) (category : string)
  (lo hi : Date.t) (e : Transaction.t) : bool :=
  Filter.inPipeline userId (Transaction.userId e)
  && (Transaction.category e =? category)%string
  && Date.between lo hi (Transaction.date e).

(** [Expense.aggregate([{ $match: { userId: req.userId, ... } },
    { $group }])] followed by [spentAmount[0]?.total || 0]: the three
    handlers put the session's string into the pipeline. *)
Definition spentAmount (uid : ObjectId) (category month : string) (year : Z)
  (expenses : list Transaction.t) : Z :=
  Mongo.totalOrZero
    (Mongo.groupTotal Transaction.amount
       (Mongo.find
          (matchExpense (Filter.Str uid) category (startDate month year)
             (endDate month year))
          expenses)).

(** [budget.save()] of a new document: the validators, then the insert
    under the unique index. *)
Definition insert (b : Budget.t) (bs : list Budget.t)
  : Mongo.error + list Budget.t :=
  if negb (Budget.validate b) then inl Mongo.ValidationError
  else if existsb (Budget.sameKey (Budget.userId b) (Budget.category b)
                     (Budget.month b) (Budget.year b)) bs
  then inl Mongo.DuplicateKey
  else inr (bs ++ [b])%list.

(** [budget.save()] of a loaded document whose [spentAmount] was set: the
    validators, then the write of that field to the document of this
    [_id]. *)
Definition save (b : Budget.t) (bs : list Budget.t)
  : Mongo.error + list Budget.t :=
  if negb (Budget.validate b) then inl Mongo.ValidationError
  else inr (Mongo.updateOne (Budget.hasId (Budget._id b))
              (Budget.setSpentAmount (Budget.spentAmount b)) bs).

(** The [catch] block of the create and update handlers. *)
Definition caught {A : Type} (e : Mongo.error) (failed : string) : Reply A :=
  match e with
  | Mongo.DuplicateKey =>
      message 400 "Budget already exists for this category and period"
  | Mongo.ValidationError => message 500 failed
  end.

Definition showYear (y : Z) : string := NilZero.string_of_int (Z.to_int y).

(** [POST /]: create a budget. *)
Definition postBudget (uid : ObjectId) (req : BudgetReq)
  : Db -> Reply Budget.t * Db :=
  handleValidationErrors (validateBudget req) (fun db =>
    let category := reqCategory req in
    let month := reqMonth req in
    let year := reqYear req in
    match Mongo.findOne (Budget.sameKey uid category month year) (budgetDocs db) with
    | Some existingBudget =>
        (message 400
           ("Budget already exists for " ++ category ++ " in " ++ month
            ++ " " ++ showYear year)%string, db)
    | None =>
        let budget :=
          Budget.mk (nextId db) uid category (reqBudgetAmount req)
            (spentAmount uid category month year (expenseDocs db)) month year in
        match insert budget (budgetDocs db) with
        | inr bs => (json 201 budget, tick (withBudgets bs db))
        | inl e => (caught e "Failed to create budget", db)
        end
    end).

(** [PUT /:id]: update a budget.  [findOneAndUpdate] runs the validators
    of the fields it sets and writes under the unique index; the cached
    amount is then recomputed and saved. *)
Definition putBudget (uid id : ObjectId) (req : BudgetReq)
  : Db -> Reply Budget.t * Db :=
  handleValidationErrors (validateBudget req) (fun db =>
    let category := reqCategory req in
    let month := reqMonth req in
    let year := reqYear req in
    let own := fun b => Budget.hasId id b && Budget.ownedBy uid b in
    let set := Budget.setFields category (reqBudgetAmount req) month year in
    match Mongo.findOne own (budgetDocs db) with
    | None => (message 404 "Budget not found", db)
    | Some found =>
        if negb (Budget.validFields (set found))
        then (caught Mongo.ValidationError "Failed to update budget", db)
        else if existsb (fun b => Budget.sameKey uid category month year b
                                  && negb (Budget.hasId id b)) (budgetDocs db)
        then (caught Mongo.DuplicateKey "Failed to update budget", db)
        else
          let db1 := withBudgets (Mongo.updateOne own set (budgetDocs db)) db in
          let budget :=
            Budget.setSpentAmount
              (spentAmount uid category month year (expenseDocs db1)) (set found) in
          match save budget (budgetDocs db1) with
          | inr bs => (json 200 budget, withBudgets bs db1)
          | inl e => (caught e "Failed to update budget", db1)
          end
    end).

(** One round of [for (const budget of budgets)] in the refresh handler
    up to the save: the scan for this budget and the assignment
    [budget.spentAmount = spentAmount[0]?.total || 0]. *)
Definition recompute (uid : ObjectId) (expenses : list Transaction.t)
  (budget : Budget.t) : Budget.t :=
  Budget.setSpentAmount
    (spentAmount uid (Budget.category budget) (Budget.month budget)
       (Budget.year budget) expenses) budget.

(** The loop, run over the documents that [Budget.find] returned.  A
    throwing [save()] leaves the loop; the writes made so far stay. *)
Fixpoint refreshLoop (uid : ObjectId) (expenses : list Transaction.t)
  (found : list Budget.t) (bs : list Budget.t)
  : option Mongo.error * list Budget.t :=
  match found with
  | [] => (None, bs)
  | budget :: rest =>
      match save (recompute uid expenses budget) bs with
      | inr bs' => refreshLoop uid expenses rest bs'
      | inl e => (Some e, bs)
      end
  end.

(** [POST /refresh]: recompute every budget of the user. *)
Definition postRefresh (uid : ObjectId) (db : Db) : Reply unit * Db :=
  let found := Mongo.find (Budget.ownedBy uid) (budgetDocs db) in
  match refreshLoop uid (expenseDocs db) found (budgetDocs db) with
  | (None, bs) =>
      (message 200 "Budget amounts refreshed successfully", withBudgets bs db)
  | (Some _, bs) =>
      (message 500 "Failed to refresh budget amounts", withBudgets bs db)
  end.

(** [DELETE /:id]: delete a budget. *)
Definition deleteBudget (uid id : ObjectId) (db : Db) : Reply unit * Db :=
  let own := fun b => Budget.hasId id b && Budget.ownedBy uid b in
  match Mongo.findOne own (budgetDocs db) with
  | None => (message 404 "Budget not found", db)
  | Some _ =>
      (message 200 "Budget deleted successfully",
       withBudgets (Mongo.deleteOne own (budgetDocs db)) db)
  end.

End BudgetRoutes.

(** ** Expense routes *)

Module ExpenseRoutes.

(** [Budget.findOneAndUpdate({ userId, category, month, year },
    { $inc: { spentAmount: delta } })]: no option is passed, so no
    validator runs on the write. *)
Definition incBudget (uid : ObjectId) (category month : string) (year delta : Z)
  (bs : list Budget.t) : list Budget.t :=
  Mongo.updateOne (Budget.sameKey uid category month year)
    (Budget.incSpentAmount delta) bs.

(** [POST /]: create an expense. *)
Definition postExpense (uid : ObjectId) (req : TransactionReq)
  : Db -> Reply Transaction.t * Db :=
  handleValidationErrors (validateTransaction req) (fun db =>
    let expenseAmount := reqAmount req in
    let expenseDate := reqDate req in
    let category := reqTxCategory req in
    let expense :=
      Transaction.mk (nextId db) uid (reqDescription req) expenseAmount
        category expenseDate in
    let db1 := tick (withExpenses (expenseDocs db ++ [expense])%list db) in
    let expenseMonth := Date.monthLong expenseDate in
    let expenseYear := Date.getFullYear expenseDate in
    (json 201 expense,
     withBudgets
       (incBudget uid category expenseMonth expenseYear expenseAmount
          (budgetDocs db1)) db1)).

(** [PUT /:id]: update an expense. *)
Definition putExpense (uid id : ObjectId) (req : TransactionReq)
  : Db -> Reply Transaction.t * Db :=
  handleValidationErrors (validateTransaction req) (fun db =>
    let newAmount := reqAmount req in
    let newDate := reqDate req in
    let category := reqTxCategory req in
    match Mongo.findOne (Transaction.isOwn id uid) (expenseDocs db) with
    | None => (message 404 "Expense not found", db)
    | Some oldExpense =>
        let set :=
          Transaction.setFields (reqDescription req) newAmount category newDate in
        let expense := set oldExpense in
        let db1 :=
          withExpenses
            (Mongo.updateOne (Transaction.isOwn id uid) set (expenseDocs db)) db in
        if (Transaction.category oldExpense =? category)%string then
          let amountDifference := newAmount - Transaction.amount oldExpense in
          let expenseMonth := Date.monthLong newDate in
          let expenseYear := Date.getFullYear newDate in
          (json 200 expense,
           withBudgets
             (incBudget uid category expenseMonth expenseYear amountDifference
                (budgetDocs db1)) db1)
        else
          let oldMonth := Date.monthLong (Transaction.date oldExpense) in
          let oldYear := Date.getFullYear (Transaction.date oldExpense) in
          let newMonth := Date.monthLong newDate in
          let newYear := Date.getFullYear newDate in
          let bs1 :=
            incBudget uid (Transaction.category oldExpense) oldMonth oldYear
              (- Transaction.amount oldExpense) (budgetDocs db1) in
          let bs2 := incBudget uid category newMonth newYear newAmount bs1 in
          (json 200 expense, withBudgets bs2 db1)
    end).

(** [DELETE /:id]: delete an expense. *)
Definition deleteExpense (uid id : ObjectId) (db : Db) : Reply unit * Db :=
  match Mongo.findOne (Transaction.isOwn id uid) (expenseDocs db) with
  | None => (message 404 "Expense not found", db)
  | Some expense =>
      let db1 :=
        withExpenses
          (Mongo.deleteOne (Transaction.isOwn id uid) (expenseDocs db)) db in
      let expenseMonth := Date.monthLong (Transaction.date expense) in
      let expenseYear := Date.getFullYear (Transaction.date expense) in
      (message 200 "Expense deleted successfully",
       withBudgets
         (incBudget uid (Transaction.category expense) expenseMonth expenseYear
            (- Transaction.amount expense) (budgetDocs db1)) db1)
  end.

(** The three mutations as one request type, and a run of them in
    order. *)
Inductive request : Type :=
| Create (req : TransactionReq)
| Update (id : ObjectId) (req : TransactionReq)
| Delete (id : ObjectId).

Definition run (uid : ObjectId) (db : Db) (r : request) : Db :=
  match r with
  | Create req => snd (postExpense uid req db)
  | Update id req => snd (putExpense uid id req db)
  | Delete id => snd (deleteExpense uid id db)
  end.

Definition runAll (uid : ObjectId) (rs : list request) (db : Db) : Db :=
  fold_left (run uid) rs db.

End ExpenseRoutes.

(** ** Aggregation stages shared by the statistics, dashboard and report
    routes *)

Module Aggregate.

Record CategoryStat : Type := mkCategoryStat
  { name : string;    (* the group's [_id] *)
    total : Z;
    count : Z }.

(** One document more in [$group: { _id: '$category', total: { $sum },
    count: { $sum: 1 } }].  Groups are kept in the order in which their
    first document is met (MongoDB leaves the order open; the [$sort]
    stage that follows fixes it up to ties). *)
Fixpoint addToGroup (c : string) (a : Z) (gs : list CategoryStat)
  : list CategoryStat :=
  match gs with
  | [] => [mkCategoryStat c a 1]
  | g :: rest =>
      if (name g =? c)%string
      then mkCategoryStat c (total g + a) (count g + 1) :: rest
      else g :: addToGroup c a rest
  end.

Definition groupByCategory (docs : list Transaction.t) : list CategoryStat :=
  fold_left
    (fun gs e => addToGroup (Transaction.category e) (Transaction.amount e) gs)
    docs [].

Fixpoint insertDesc (g : CategoryStat) (sorted : list CategoryStat)
  : list CategoryStat :=
  match sorted with
  | [] => [g]
  | h :: rest =>
      if total h <? total g then g :: sorted else h :: insertDesc g rest
  end.

(** [{ $sort: { total: -1 } }]. *)
Definition sortDesc (gs : list CategoryStat) : list CategoryStat :=
  fold_right insertDesc [] gs.

(** The [$match] stage [{ userId, date: { $gte: lo, $lte: hi } }] of the
    dashboard and the reports, whose [userId] is
    [new mongoose.Types.ObjectId(req.userId)]: [Filter.inPipeline] on
    [Filter.Oid uid]. *)
Definition inRange (uid : ObjectId) (lo hi : Date.t) (x : Transaction.t)
  : bool :=
  Transaction.ownedBy uid x && Date.between lo hi (Transaction.date x).

(** [aggregate([{ $match }, { $group: { _id: null, total } }])] and
    [r[0]?.total || 0]. *)
Definition totalIn (uid : ObjectId) (lo hi : Date.t)
  (docs : list Transaction.t) : Z :=
  Mongo.totalOrZero
    (Mongo.groupTotal Transaction.amount (Mongo.find (inRange uid lo hi) docs)).

(** One round of the loop [for (let i = 5; i >= 0; i--)] of the dashboard
    and report handlers: the start of the month [i] months before [now]
    and the two totals over [monthStart, monthEnd]. *)
Definition monthTotals (uid : ObjectId) (db : Db) (now : Date.t) (i : Z)
  : Date.t * Z * Z :=
  let monthStart :=
    Date.make (Date.getFullYear now) (Date.getMonth now - i) 1 0 in
  let monthEnd :=
    Date.make (Date.getFullYear now) (Date.getMonth now - i + 1) 0
      (Date.hms 23 59 59 0) in
  (monthStart,
   totalIn uid monthStart monthEnd (incomeDocs db),
   totalIn uid monthStart monthEnd (expenseDocs db)).

(** The loop, from [i = n - 1] down to [i = 0], pushing one entry a
    round. *)
Fixpoint monthlyLoop (uid : ObjectId) (db : Db) (now : Date.t) (n : nat)
  : list (Date.t * Z * Z) :=
  match n with
  | O => []
  | S i => monthTotals uid db now (Z.of_nat i) :: monthlyLoop uid db now i
  end.

End Aggregate.

(** ** Expense statistics ([GET /stats/summary] of the expense routes) *)

Module ExpenseStats.

(** [averageExpense] is carried as the fraction [total / count]. *)
Record Summary : Type := mkSummary
  { totalExpenses : Z;
    count : Z;
    averageExpense : Z * Z }.

Record Stats : Type := mkStats
  { summary : Summary;
    byCategory : list Aggregate.CategoryStat }.

(** [matchStage]: the owner, and the date bounds when both query
    parameters are given; it is the [$match] of two pipelines. *)
Definition matchStage (userId : Filter.id) (startDate endDate : option Date.t)
  (e : Transaction.t) : bool :=
  Filter.inPipeline userId (Transaction.userId e)
  && match startDate, endDate with
     | Some lo, Some hi => Date.between lo hi (Transaction.date e)
     | _, _ => true
     end.

(** The handler starts from [{ userId: req.userId }], the session's
    string. *)
Definition getStatsSummary (uid : ObjectId) (startDate endDate : option Date.t)
  (db : Db) : Reply Stats * Db :=
  let matched :=
    Mongo.find (matchStage (Filter.Str uid) startDate endDate)
      (expenseDocs db) in
  let stats := Mongo.groupTotalCount Transaction.amount matched in
  let categoryStats := Aggregate.sortDesc (Aggregate.groupByCategory matched) in
  (json 200
     (mkStats
        match stats with
        | (t, n) :: _ => mkSummary t n (t, n)
        | [] => mkSummary 0 0 (0, 1)
        end
        categoryStats), db).

End ExpenseStats.

(** ** Income routes *)

Module IncomeRoutes.

(** [POST /]: create an income. *)
Definition postIncome (uid : ObjectId) (req : TransactionReq)
  : Db -> Reply Transaction.t * Db :=
  handleValidationErrors (validateTransaction req) (fun db =>
    let income :=
      Transaction.mk (nextId db) uid (reqDescription req) (reqAmount req)
        (reqTxCategory req) (reqDate req) in
    (json 201 income, tick (withIncomes (incomeDocs db ++ [income])%list db))).

(** [PUT /:id]: update an income. *)
Definition putIncome (uid id : ObjectId) (req : TransactionReq)
  : Db -> Reply Transaction.t * Db :=
  handleValidationErrors (validateTransaction req) (fun db =>
    let set :=
      Transaction.setFields (reqDescription req) (reqAmount req)
        (reqTxCategory req) (reqDate req) in
    match Mongo.findOne (Transaction.isOwn id uid) (incomeDocs db) with
    | None => (message 404 "Income not found", db)
    | Some found =>
        (json 200 (set found),
         withIncomes
           (Mongo.updateOne (Transaction.isOwn id uid) set (incomeDocs db)) db)
    end).

(** [DELETE /:id]: delete an income. *)
Definition deleteIncome (uid id : ObjectId) (db : Db) : Reply unit * Db :=
  match Mongo.findOne (Transaction.isOwn id uid) (incomeDocs db) with
  | None => (message 404 "Income not found", db)
  | Some _ =>
      (message 200 "Income deleted successfully",
       withIncomes (Mongo.deleteOne (Transaction.isOwn id uid) (incomeDocs db)) db)
  end.

(** The three mutations as one request type. *)
Inductive request : Type :=
| Create (req : TransactionReq)
| Update (id : ObjectId) (req : TransactionReq)
| Delete (id : ObjectId).

Definition run (uid : ObjectId) (r : request) (db : Db) : Db :=
  match r with
  | Create req => snd (postIncome uid req db)
  | Update id req => snd (putIncome uid id req db)
  | Delete id => snd (deleteIncome uid id db)
  end.

End IncomeRoutes.

(** ** Dashboard ([GET /] of the dashboard routes) *)

Module Dashboard.

Record MonthTuple : Type := mkMonthTuple
  { month : string;
    income : Z;
    expenses : Z }.

(** The reply, without [recentTransactions]. *)
Record Data : Type := mkData
  { totalIncome : Z;
    totalExpenses : Z;
    totalBudget : Z;
    balance : Z;
    categoryData : list Aggregate.CategoryStat;
    monthlyData : list MonthTuple;
    period : string;
    dateRange : Date.t * Date.t }.

(** The [switch (period)]: the object [now] as the switch leaves it, and
    the range.  The [week] case calls [now.setDate(...)], which moves
    [now] itself to the Sunday of the week; [endDate] is a fresh
    [new Date()]. *)
Definition periodRange (period : string) (clock : Date.t)
  : Date.t * (Date.t * Date.t) :=
  if (period =? "week")%string then
    let now := Date.setDate clock (Date.getDate clock - Date.getDay clock) in
    (now, (Date.setHours now 0 0 0 0, Date.setHours clock 23 59 59 999))
  else if (period =? "year")%string then
    (clock,
     (Date.make (Date.getFullYear clock) 0 1 0,
      Date.make (Date.getFullYear clock) 11 31 (Date.hms 23 59 59 0)))
  else
    (clock,
     (Date.make (Date.getFullYear clock) (Date.getMonth clock) 1 0,
      Date.make (Date.getFullYear clock) (Date.getMonth clock + 1) 0
        (Date.hms 23 59 59 0))).

(** The [Budget.aggregate] over the budgets of the current month and
    [budgetResult[0]?.totalBudget || 0]. *)
Definition totalBudgetOf (uid : ObjectId) (clock : Date.t)
  (bs : list Budget.t) : Z :=
  Mongo.totalOrZero
    (Mongo.groupTotal Budget.budgetAmount
       (Mongo.find
          (fun b => Budget.ownedBy uid b
                    && (Budget.month b =? Date.monthLong clock)%string
                    && (Budget.year b =? Date.getFullYear clock))
          bs)).

Definition tuple (r : Date.t * Z * Z) : MonthTuple :=
  let '(monthStart, i, e) := r in mkMonthTuple (Date.monthShort monthStart) i e.

(** The handler; [clock] is what [new Date()] returns while it runs. *)
Definition getDashboard (uid : ObjectId) (period : string) (clock : Date.t)
  (db : Db) : Reply Data * Db :=
  let '(now, (startDate, endDate)) := periodRange period clock in
  let totalIncome := Aggregate.totalIn uid startDate endDate (incomeDocs db) in
  let totalExpenses := Aggregate.totalIn uid startDate endDate (expenseDocs db) in
  let categoryData :=
    firstn 10
      (Aggregate.sortDesc
         (Aggregate.groupByCategory
            (Mongo.find (Aggregate.inRange uid startDate endDate)
               (expenseDocs db)))) in
  let monthlyData := map tuple (Aggregate.monthlyLoop uid db now 6) in
  (json 200
     (mkData totalIncome totalExpenses
        (totalBudgetOf uid clock (budgetDocs db))
        (totalIncome - totalExpenses) categoryData monthlyData period
        (startDate, endDate)), db).

End Dashboard.

(** ** Reports ([GET /] of the report routes) *)

Module Reports.

Record Summary : Type := mkSummary
  { totalIncome : Z;
    totalExpenses : Z;
    netBalance : Z;
    incomeCount : Z;
    expenseCount : Z;
    totalTransactions : Z }.

Record MonthTuple : Type := mkMonthTuple
  { month : string;
    income : Z;
    expenses : Z;
    balance : Z }.

(** The reply, without the daily trend, the transaction list, the budget
    comparison and the [toFixed] percentage strings. *)
Record Data : Type := mkData
  { period : Date.t * Date.t;
    summary : Summary;
    categoryData : list Aggregate.CategoryStat;
    monthlyData : list MonthTuple }.

(** [r[0]?.total || 0] and [r[0]?.count || 0] on a total-and-count group. *)
Definition totalOf (r : list (Z * Z)) : Z := Mongo.totalOrZero (map fst r).
Definition countOf (r : list (Z * Z)) : Z := Mongo.totalOrZero (map snd r).

Definition tuple (r : Date.t * Z * Z) : MonthTuple :=
  let '(monthStart, i, e) := r in
  mkMonthTuple (Date.monthShortYear monthStart) i e (i - e).

(** The handler; [clock] is what [new Date()] returns while it runs. *)
Definition getReports (uid : ObjectId) (startDate endDate : option Date.t)
  (clock : Date.t) (db : Db) : Reply Data * Db :=
  let start :=
    match startDate with
    | Some d => d
    | None => Date.make (Date.getFullYear clock) (Date.getMonth clock) 1 0
    end in
  let end0 := match endDate with Some d => d | None => clock end in
  let end_ := Date.setHours end0 23 59 59 999 in
  let totalIncomeResult :=
    Mongo.groupTotalCount Transaction.amount
      (Mongo.find (Aggregate.inRange uid start end_) (incomeDocs db)) in
  let totalExpensesResult :=
    Mongo.groupTotalCount Transaction.amount
      (Mongo.find (Aggregate.inRange uid start end_) (expenseDocs db)) in
  let categoryData :=
    Aggregate.sortDesc
      (Aggregate.groupByCategory
         (Mongo.find (Aggregate.inRange uid start end_) (expenseDocs db))) in
  let now := clock in
  let monthlyData := map tuple (Aggregate.monthlyLoop uid db now 6) in
  let totalIncome := totalOf totalIncomeResult in
  let totalExpenses := totalOf totalExpensesResult in
  (json 200
     (mkData (start, end_)
        (mkSummary totalIncome totalExpenses (totalIncome - totalExpenses)
           (countOf totalIncomeResult) (countOf totalExpensesResult)
           (countOf totalIncomeResult + countOf totalExpensesResult))
        categoryData monthlyData), db).

End Reports.

(** ** The writing routes as one transition system *)

Module Server.

Inductive request : Type :=
| CreateBudget (req : BudgetReq)
| UpdateBudget (id : ObjectId) (req : BudgetReq)
| DeleteBudget (id : ObjectId)
| RefreshBudgets
| OnExpense (r : ExpenseRoutes.request)
| OnIncome (r : IncomeRoutes.request).

(** The store after the request of the signed-in user. *)
Definition step (db : Db) (call : ObjectId * request) : Db :=
  let (uid, r) := call in
  match r with
  | CreateBudget req => snd (BudgetRoutes.postBudget uid req db)
  | UpdateBudget id req => snd (BudgetRoutes.putBudget uid id req db)
  | DeleteBudget id => snd (BudgetRoutes.deleteBudget uid id db)
  | RefreshBudgets => snd (BudgetRoutes.postRefresh uid db)
  | OnExpense e => ExpenseRoutes.run uid db e
  | OnIncome i => IncomeRoutes.run uid i db
  end.

Definition empty : Db := mkDb [] [] [] 0.

Definition run (calls : list (ObjectId * request)) : Db :=
  fold_left step calls empty.

(** Every budget id was handed out before [nextId]. *)
Definition idsBelowNext (db : Db) : bool :=
  forallb (fun b => (Budget._id b <? nextId db)%nat) (budgetDocs db).

Definition invariant (db : Db) : bool := wellFormed db && idsBelowNext db.

End Server.

(** ** The ledger's own view of a budget *)

Module Ledger.

(** The sum of the amounts of a list of transactions. *)
Definition sumOfAmounts (l : list Transaction.t) : Z :=
  fold_right (fun e acc => Transaction.amount e + acc) 0 l.

(** The expenses of [uid] in [category] dated within [lo, hi], both ends
    included. *)
Definition matching (uid : ObjectId) (category : string) (lo hi : Date.t)
  (es : list Transaction.t) : list Transaction.t :=
  filter
    (fun e =>
       (Transaction.userId e =? uid)%nat
       && (Transaction.category e =? category)%string
       && Date.leb lo (Transaction.date e)
       && Date.leb (Transaction.date e) hi)
    es.

(** The month range of a budget as the claims word it: from the first
    instant of the calendar month to its last instant. *)
Definition monthStart (month : string) (year : Z) : Date.t :=
  Date.firstInstant year (BudgetRoutes.getMonthIndex month).

Definition monthEnd (month : string) (year : Z) : Date.t :=
  Date.lastInstant year (BudgetRoutes.getMonthIndex month).

(** The amount the claims ask a bucket to show: the sum of the amounts
    of the owner's expenses of the category dated within the month
    range.  It is written from the claims' words and uses no scan of the
    routes. *)
Definition spendIn (uid : ObjectId) (category month : string) (year : Z)
  (es : list Transaction.t) : Z :=
  sumOfAmounts
    (matching uid category (monthStart month year) (monthEnd month year) es).

Definition spendOf (b : Budget.t) (es : list Transaction.t) : Z :=
  spendIn (Budget.userId b) (Budget.category b) (Budget.month b)
    (Budget.year b) es.

(** Every cached amount agrees with the ledger. *)
Definition consistent (db : Db) : bool :=
  forallb (fun b => Budget.spentAmount b =? spendOf b (expenseDocs db))
    (budgetDocs db).

(** The calendar bucket the expense routes file a date under. *)
Definition bucketOf (d : Date.t) : string * Z :=
  (Date.monthLong d, Date.getFullYear d).

End Ledger.

(** ** Sample data *)

Module Sample.

Definition owner : ObjectId := 1.
Definition other : ObjectId := 2.

(** A local date and time of day. *)
Definition at_ (y m d : Z) (tod : Z) : Date.t := Date.mk y (m - 1) d tod.
Definition noon : Z := Date.hms 12 0 0 0.

Definition food (id : ObjectId) (spent : Z) (month : string) : Budget.t :=
  Budget.mk id owner "Food" 500000 spent month 2024.

Definition foodMarch (spent : Z) : Budget.t := food 10 spent "March".
Definition foodApril (spent : Z) : Budget.t := food 11 spent "April".

Definition expense (id : ObjectId) (amount : Z) (category : string)
  (date : Date.t) : Transaction.t :=
  Transaction.mk id owner "groceries" amount category date.

Definition spend (amount : Z) (category : string) (date : Date.t)
  : TransactionReq :=
  mkTransactionReq "groceries" amount category date.

(** Two Food budgets, March and April 2024, and an empty ledger. *)
Definition twoBudgets : Db :=
  mkDb [] [] [foodMarch 0; foodApril 0] 100.

(** Create a Food expense of 100.00 on 10 March, then move it to
    10 April at 80.00, category unchanged. *)
Definition createMarch : ExpenseRoutes.request :=
  ExpenseRoutes.Create (spend 10000 "Food" (at_ 2024 3 10 noon)).
Definition moveToApril : ExpenseRoutes.request :=
  ExpenseRoutes.Update 100 (spend 8000 "Food" (at_ 2024 4 10 noon)).

Definition afterCreate : Db := ExpenseRoutes.run owner twoBudgets createMarch.
Definition afterMove : Db :=
  ExpenseRoutes.runAll owner [createMarch; moveToApril] twoBudgets.

(** The first and the last instant of March 2024. *)
Definition marchFirst : Date.t := Date.firstInstant 2024 2.
Definition marchLast : Date.t := Date.lastInstant 2024 2.

(** One Food budget for March 2024 and an empty ledger. *)
Definition oneBudget : Db := mkDb [] [] [foodMarch 0] 100.

(** A ledger with one Food expense of 50.00 at [date], and no budget. *)
Definition oneExpense (date : Date.t) : Db :=
  mkDb [] [expense 50 5000 "Food" date] [] 100.

Definition foodMarchReq : BudgetReq := mkBudgetReq "Food" 500000 "March" 2024.

(** Wednesday 1 May 2024, 10:00, and an owner whose only transaction is
    an income of 500.00 earlier that day. *)
Definition mayFirst : Date.t := at_ 2024 5 1 (Date.hms 10 0 0 0).
Definition onlyMay : Db :=
  mkDb [Transaction.mk 7 owner "salary" 50000 "Salary"
          (at_ 2024 5 1 (Date.hms 9 0 0 0))] [] [] 100.

(** A ledger with four expenses in March 2024 and two budgets whose
    cached amounts have drifted; a third budget belongs to someone
    else. *)
Definition drifted : Db :=
  mkDb []
    [ expense 50 5000 "Food" (at_ 2024 3 1 0);
      expense 51 1200 "Food" (at_ 2024 3 10 noon);
      expense 52 700 "Travel" (at_ 2024 3 12 noon);
      Transaction.mk 53 other "lunch" 900 "Food" (at_ 2024 3 12 noon);
      expense 54 4300 "Fuel" (at_ 2024 3 20 noon) ]
    [ foodMarch (-300);
      Budget.mk 12 owner "Travel" 100000 99999 "March" 2024;
      Budget.mk 13 other "Food" 100000 1 "March" 2024 ]
    100.

(** A Food budget for March 2024 that shows 10.00 spent, and the Food
    expense of 25.00 on 10 March that is about to be deleted. *)
Definition underCounted : Db :=
  mkDb [] [expense 50 2500 "Food" (at_ 2024 3 10 noon)] [foodMarch 1000] 100.

(** Turn the March Food budget of [drifted] into a Fuel budget. *)
Definition toFuel : BudgetReq := mkBudgetReq "Fuel" 200000 "March" 2024.

(** A range given backwards: from 31 March back to 1 March 2024. *)
Definition march31 : Date.t := at_ 2024 3 31 0.
Definition march1 : Date.t := at_ 2024 3 1 0.

End Sample.

(** ** Sorting and reading routes *)

Module Query.

Section Sort.
Context {A : Type} (before : A -> A -> bool).

(** One more document into a list kept in the order [before]: it goes in
    front of the first document it may precede. *)
Fixpoint insertSorted (x : A) (sorted : list A) : list A :=
  match sorted with
  | [] => [x]
  | y :: rest => if before x y then x :: sorted else y :: insertSorted x rest
  end.

(** [.sort({...})] on a query: the documents in the order [before]
    (MongoDB leaves the order of ties open; here they keep their natural
    order). *)
Definition sort (c : list A) : list A := fold_right insertSorted [] c.

End Sort.

End Query.

Module BudgetReads.

(** [{ year: -1, month: 1 }]: later years first, then the month names in
    string order. *)
Definition before (a b : Budget.t) : bool :=
  (Budget.year b <? Budget.year a)
  || ((Budget.year a =? Budget.year b)
      && String.leb (Budget.month a) (Budget.month b)).

(** [GET /]: all budgets of the user. *)
Definition getBudgets (uid : ObjectId) (db : Db)
  : Reply (list Budget.t) * Db :=
  (json 200
     (Query.sort before (Mongo.find (Budget.ownedBy uid) (budgetDocs db))),
   db).

(** [GET /:id]: one budget of the user. *)
Definition getBudget (uid : ObjectId) (id : Route.Param) (db : Db)
  : Reply Budget.t * Db :=
  match id with
  | Route.Malformed => (message 500 "Failed to fetch budget", db)
  | Route.Spells i =>
      match Mongo.findOne (fun b => Budget.hasId i b && Budget.ownedBy uid b)
              (budgetDocs db) with
      | None => (message 404 "Budget not found", db)
      | Some budget => (json 200 budget, db)
      end
  end.

End BudgetReads.

(** ** The budget update on the parameter as it arrives *)

Module BudgetById.

(** [PUT /:id]: the validation middleware runs first; then
    [findOneAndUpdate] casts the parameter. *)
Definition putBudget (uid : ObjectId) (id : Route.Param) (req : BudgetReq)
  : Db -> Reply Budget.t * Db :=
  match id with
  | Route.Spells i => BudgetRoutes.putBudget uid i req
  | Route.Malformed =>
      handleValidationErrors (validateBudget req)
        (fun db => (message 500 "Failed to update budget", db))
  end.

End BudgetById.

Module TransactionReads.

(** [{ date: -1 }]: latest first. *)
Definition before (a b : Transaction.t) : bool :=
  Date.leb (Transaction.date b) (Transaction.date a).

(** [GET /] of the expense routes. *)
Definition getExpenses (uid : ObjectId) (db : Db)
  : Reply (list Transaction.t) * Db :=
  (json 200
     (Query.sort before (Mongo.find (Transaction.ownedBy uid) (expenseDocs db))),
   db).

(** [GET /:id] of the expense routes. *)
Definition getExpense (uid : ObjectId) (id : Route.Param) (db : Db)
  : Reply Transaction.t * Db :=
  match id with
  | Route.Malformed => (message 500 "Failed to fetch expense", db)
  | Route.Spells i =>
      match Mongo.findOne (Transaction.isOwn i uid) (expenseDocs db) with
      | None => (message 404 "Expense not found", db)
      | Some expense => (json 200 expense, db)
      end
  end.

(** [GET /] of the income routes. *)
Definition getIncomes (uid : ObjectId) (db : Db)
  : Reply (list Transaction.t) * Db :=
  (json 200
     (Query.sort before (Mongo.find (Transaction.ownedBy uid) (incomeDocs db))),
   db).

(** [GET /:id] of the income routes. *)
Definition getIncome (uid : ObjectId) (id : Route.Param) (db : Db)
  : Reply Transaction.t * Db :=
  match id with
  | Route.Malformed => (message 500 "Failed to fetch income", db)
  | Route.Spells i =>
      match Mongo.findOne (Transaction.isOwn i uid) (incomeDocs db) with
      | None => (message 404 "Income not found", db)
      | Some income => (json 200 income, db)
      end
  end.

End TransactionReads.

(** ** Income statistics ([GET /stats/summary] of the income routes) *)

Module IncomeStats.

(** [averageIncome] is carried as the fraction [total / count]. *)
Record Summary : Type := mkSummary
  { totalIncome : Z;
    count : Z;
    averageIncome : Z * Z }.

Record Stats : Type := mkStats
  { summary : Summary;
    byCategory : list Aggregate.CategoryStat }.

Definition getStatsSummary (uid : ObjectId) (startDate endDate : option Date.t)
  (db : Db) : Reply Stats * Db :=
  let matched :=
    Mongo.find (ExpenseStats.matchStage (Filter.Str uid) startDate endDate)
      (incomeDocs db) in
  let stats := Mongo.groupTotalCount Transaction.amount matched in
  let categoryStats := Aggregate.sortDesc (Aggregate.groupByCategory matched) in
  (json 200
     (mkStats
        match stats with
        | (t, n) :: _ => mkSummary t n (t, n)
        | [] => mkSummary 0 0 (0, 1)
        end
        categoryStats), db).

End IncomeStats.

(** ** Dashboard summary ([GET /summary] of the dashboard routes) *)

Module DashboardSummary.

Record Month : Type := mkMonth
  { income : Z;
    expenses : Z;
    balance : Z }.

(** The reply, without the rounded percentage [changes]. *)
Record Data : Type := mkData
  { currentMonth : Month;
    previousMonth : Month }.

Definition monthOf (uid : ObjectId) (db : Db) (lo hi : Date.t) : Month :=
  let i := Aggregate.totalIn uid lo hi (incomeDocs db) in
  let e := Aggregate.totalIn uid lo hi (expenseDocs db) in
  mkMonth i e (i - e).

(** The handler; [clock] is what [new Date()] returns while it runs. *)
Definition getSummary (uid : ObjectId) (clock : Date.t) (db : Db)
  : Reply Data * Db :=
  let now := clock in
  let currentMonthStart :=
    Date.make (Date.getFullYear now) (Date.getMonth now) 1 0 in
  let currentMonthEnd :=
    Date.make (Date.getFullYear now) (Date.getMonth now + 1) 0
      (Date.hms 23 59 59 0) in
  let previousMonthStart :=
    Date.make (Date.getFullYear now) (Date.getMonth now - 1) 1 0 in
  let previousMonthEnd :=
    Date.make (Date.getFullYear now) (Date.getMonth now) 0
      (Date.hms 23 59 59 0) in
  (json 200
     (mkData (monthOf uid db currentMonthStart currentMonthEnd)
        (monthOf uid db previousMonthStart previousMonthEnd)), db).

End DashboardSummary.

(** ** Trend and category performance ([GET /trend] and
    [GET /categories/:type] of the report routes) *)

Module Trend.

Record Tuple : Type := mkTuple
  { month : string;
    income : Z;
    expenses : Z;
    savings : Z }.

Definition tuple (r : Date.t * Z * Z) : Tuple :=
  let '(monthStart, i, e) := r in
  mkTuple (Date.monthShortYear monthStart) i e (i - e).


End Trend.

Module Performance.

(** One group of [$group: { _id: '$category', total, count, maxAmount,
    minAmount }]; the rounded [avgAmount] and the [toFixed] percentage are
    left out. *)
Record Category : Type := mkCategory
  { category : string;
    total : Z;
    count : Z;
    maxAmount : Z;
    minAmount : Z }.

Fixpoint addToGroup (c : string) (a : Z) (gs : list Category) : list Category :=
  match gs with
  | [] => [mkCategory c a 1 a a]
  | g :: rest =>
      if (category g =? c)%string
      then mkCategory c (total g + a) (count g + 1) (Z.max (maxAmount g) a)
             (Z.min (minAmount g) a) :: rest
      else g :: addToGroup c a rest
  end.

Definition groupByCategory (docs : list Transaction.t) : list Category :=
  fold_left
    (fun gs e => addToGroup (Transaction.category e) (Transaction.amount e) gs)
    docs [].

(** [{ $sort: { total: -1 } }]. *)
Definition sortDesc (gs : list Category) : list Category :=
  Query.sort (fun a b => total b <=? total a) gs.

Record Data : Type := mkData
  { type : string;
    period : Date.t * Date.t;
    totalAmount : Z;
    categories : list Category }.

(** The handler; [clock] is what [new Date()] returns while it runs. *)
Definition getCategoryPerformance (uid : ObjectId) (type_ : string)
  (startDate endDate : option Date.t) (clock : Date.t) (db : Db)
  : Reply Data * Db :=
  if negb (existsb (String.eqb type_) ["income"; "expense"]) then
    (message 400 "Invalid type. Use income or expense.", db)
  else
    let start :=
      match startDate with
      | Some d => d
      | None => Date.make (Date.getFullYear clock) (Date.getMonth clock) 1 0
      end in
    let end0 := match endDate with Some d => d | None => clock end in
    let end_ := Date.setHours end0 23 59 59 999 in
    let model :=
      if (type_ =? "income")%string then incomeDocs db else expenseDocs db in
    let categoryPerformance :=
      sortDesc
        (groupByCategory (Mongo.find (Aggregate.inRange uid start end_) model)) in
    let totalAmount :=
      fold_left (fun sum cat => sum + total cat) categoryPerformance 0 in
    (json 200 (mkData type_ (start, end_) totalAmount categoryPerformance), db).

End Performance.

(** ** Categories by type ([GET /type/:type] of the category routes) *)

Module Category.

(** A Category document; a default category has no [userId]. *)
Record t : Type := mk
  { _id : ObjectId;
    userId : option ObjectId;
    name : string;
    type : string;
    color : string;
    isDefault : bool }.

(** [{ ...defaultCat.toObject(), isDefault: true }]. *)
Definition asDefault (c : t) : t :=
  mk (_id c) (userId c) (name c) (type c) (color c) true.

(** [{ userId: req.userId, type }]. *)
Definition ofUser (uid : ObjectId) (type_ : string) (c : t) : bool :=
  match userId c with
  | Some u => (u =? uid)%nat && (type c =? type_)%string
  | None => false
  end.

(** [{ $or: [{ userId: { $exists: false } }, { userId: null }], type }]. *)
Definition isShared (type_ : string) (c : t) : bool :=
  match userId c with
  | Some _ => false
  | None => (type c =? type_)%string
  end.

(** [{ name: 1 }]. *)
Definition byName (a b : t) : bool := String.leb (name a) (name b).

(** The [forEach] over the default categories: a default is pushed unless
    a category of the user has its name. *)
Fixpoint pushDefaults (userCategories defaults acc : list t) : list t :=
  match defaults with
  | [] => acc
  | defaultCat :: rest =>
      let hasUserOverride :=
        existsb (fun userCat => (name userCat =? name defaultCat)%string)
          userCategories in
      pushDefaults userCategories rest
        (if hasUserOverride then acc else acc ++ [asDefault defaultCat])
  end.

(** The handler, over the category collection. *)
Definition getByType (uid : ObjectId) (type_ : string) (categories : list t)
  : Reply (list t) :=
  if negb (existsb (String.eqb type_) ["income"; "expense"]) then
    message 400 "Invalid category type"
  else
    let userCategories :=
      Query.sort byName (Mongo.find (ofUser uid type_) categories) in
    let defaultCategories :=
      Query.sort byName (Mongo.find (isShared type_) categories) in
    json 200 (pushDefaults userCategories defaultCategories userCategories).

End Category.

(** ** One budget a key, and the dates of the calendar *)

Module Reconcile.

(** No two budgets of the list share a key (owner, category, month,
    year): what the unique compound index asks of the collection. *)
Fixpoint keysUnique (bs : list Budget.t) : bool :=
  match bs with
  | [] => true
  | b :: rest =>
      negb (existsb
              (Budget.sameKey (Budget.userId b) (Budget.category b)
                 (Budget.month b) (Budget.year b)) rest)
      && keysUnique rest
  end.

(** A date the calendar has: month index in [0..11], day within the
    month, time within the day. *)
Definition validDate (d : Date.t) : bool :=
  (0 <=? Date.getMonth d) && (Date.getMonth d <? 12)
  && (1 <=? Date.getDate d)
  && (Date.getDate d <=? Date.daysInMonth (Date.getFullYear d) (Date.getMonth d))
  && (0 <=? Date.timeOfDay d) && (Date.timeOfDay d <? 86400000).

End Reconcile.

(** ** Sums over groups *)

Module Totals.

(** The counts of a list of category groups, added up. *)
Definition countOfStats (gs : list Aggregate.CategoryStat) : Z :=
  fold_right (fun g acc => Aggregate.count g + acc) 0 gs.

(** Months counted from year 0: [12 * year + month index]. *)
Definition monthNumber (d : Date.t) : Z :=
  12 * Date.getFullYear d + Date.getMonth d.

(** The extremes of a group of a category performance against the
    documents it was built from: the group counts at least one document,
    its [minAmount] and [maxAmount] are amounts of documents of its
    category, and every document of its category lies between them. *)
Definition extremesOf (docs : list Transaction.t) (g : Performance.Category)
  : Prop :=
  1 <= Performance.count g
  /\ (exists e, In e docs
                /\ Transaction.category e = Performance.category g
                /\ Transaction.amount e = Performance.minAmount g)
  /\ (exists e, In e docs
                /\ Transaction.category e = Performance.category g
                /\ Transaction.amount e = Performance.maxAmount g)
  /\ (forall e, In e docs ->
                Transaction.category e = Performance.category g ->
                Performance.minAmount g <= Transaction.amount e
                <= Performance.maxAmount g).

End Totals.

(** ** More sample data *)

Module Fixture.

(** Food budgets for March and April 2024 and a Travel budget for March
    whose cached amounts agree with the two expenses of the ledger, a
    budget of someone else, and one income. *)
Definition settled : Db :=
  mkDb
    [ Transaction.mk 7 Sample.owner "salary" 300000 "Salary"
        (Sample.at_ 2024 3 1 Sample.noon) ]
    [ Sample.expense 50 5000 "Food" (Sample.at_ 2024 3 1 0);
      Sample.expense 52 700 "Travel" (Sample.at_ 2024 3 12 Sample.noon) ]
    [ Sample.foodMarch 5000;
      Sample.foodApril 0;
      Budget.mk 12 Sample.owner "Travel" 100000 700 "March" 2024;
      Budget.mk 13 Sample.other "Food" 100000 0 "March" 2024 ]
    100.

Definition shared (id : ObjectId) (name : string) : Category.t :=
  Category.mk id None name "expense" "#3b82f6" true.

Definition own (id : ObjectId) (name : string) : Category.t :=
  Category.mk id (Some Sample.owner) name "expense" "#ff0000" false.

Definition categories : list Category.t :=
  [ shared 1 "Food"; shared 2 "Travel"; shared 3 "Rent";
    own 4 "Travel"; own 5 "Books";
    Category.mk 6 None "Salary" "income" "#00ff00" true ].

End Fixture.

(** * Properties *)

(** ** Sums and storage writes *)

Section Storage.
Context {A : Type}.

Lemma fold_left_total (f : A -> Z) (l : list A) (a : Z) :
  fold_left (fun acc x => acc + f x) l a
  = a + fold_right (fun x acc => f x + acc) 0 l.
Proof.
  revert a. induction l as [|x l IH]; intros a; simpl.
  - lia.
  - rewrite IH. lia.
Qed.

Lemma updateOne_absent (q : A -> bool) (u : A -> A) (c : list A) :
  forallb (fun x => negb (q x)) c = true -> Mongo.updateOne q u c = c.
Proof.
  induction c as [|x c IH]; simpl; intros H; [reflexivity|].
  apply andb_true_iff in H as [Hx Hc].
  destruct (q x); [discriminate|]. now rewrite IH.
Qed.

Lemma updateOne_split (q : A -> bool) (u : A -> A) (pre post : list A) (x : A) :
  forallb (fun y => negb (q y)) pre = true -> q x = true ->
  Mongo.updateOne q u (pre ++ x :: post) = pre ++ u x :: post.
Proof.
  intros Hpre Hx. induction pre as [|y pre IH]; simpl in *.
  - now rewrite Hx.
  - apply andb_true_iff in Hpre as [Hy Hpre].
    destruct (q y); [discriminate|]. now rewrite IH.
Qed.

Lemma findOne_present (q : A -> bool) (c : list A) (x : A) :
  In x c -> q x = true -> exists y, Mongo.findOne q c = Some y.
Proof.
  intros Hin Hq. unfold Mongo.findOne.
  destruct (List.find q c) as [y|] eqn:E; [now exists y|].
  pose proof (find_none _ _ E x Hin). congruence.
Qed.

End Storage.

Lemma totalOrZero_groupTotal (l : list Transaction.t) :
  Mongo.totalOrZero (Mongo.groupTotal Transaction.amount l)
  = Ledger.sumOfAmounts l.
Proof.
  unfold Mongo.groupTotal, Ledger.sumOfAmounts.
  destruct l as [|x l]; [reflexivity|].
  unfold Mongo.totalOrZero. rewrite fold_left_total.
  destruct (Z.eqb_spec (0 + fold_right (fun x0 acc => Transaction.amount x0 + acc) 0 (x :: l)) 0)
    as [E|E]; lia.
Qed.

(** The [$match] of the budget routes holds the session's string where
    the documents hold an [ObjectId]: it picks no expense, whatever the
    category and the dates. *)
Lemma matchExpense_uncast (uid : ObjectId) (category : string)
  (lo hi : Date.t) (e : Transaction.t) :
  BudgetRoutes.matchExpense (Filter.Str uid) category lo hi e = false.
Proof. reflexivity. Qed.

(** So the scan of the create, the update and the refresh handler finds
    no group, and [spentAmount[0]?.total || 0] is 0. *)
Lemma spentAmount_zero (uid : ObjectId) (category month : string) (year : Z)
  (es : list Transaction.t) :
  BudgetRoutes.spentAmount uid category month year es = 0.
Proof.
  unfold BudgetRoutes.spentAmount, Mongo.find.
  assert (filter
            (BudgetRoutes.matchExpense (Filter.Str uid) category
               (BudgetRoutes.startDate month year)
               (BudgetRoutes.endDate month year)) es = []) as ->;
    [|reflexivity].
  induction es as [|e es IH]; [reflexivity|].
  cbn [filter]. rewrite matchExpense_uncast. exact IH.
Qed.

(** ** Income routes *)

(** C9: no income mutation (create, update, delete) touches a Budget
    record: the budget collection after the request is the budget
    collection before it, field for field; the expense ledger is left
    alone as well. *)
Theorem income_mutations_leave_budgets (uid : ObjectId)
  (r : IncomeRoutes.request) (db : Db) :
  budgetDocs (IncomeRoutes.run uid r db) = budgetDocs db
  /\ expenseDocs (IncomeRoutes.run uid r db) = expenseDocs db.
Proof.
  destruct r as [req|id req|id]; simpl;
    unfold IncomeRoutes.postIncome, IncomeRoutes.putIncome,
      IncomeRoutes.deleteIncome, handleValidationErrors.
  - destruct (validateTransaction req); auto.
  - destruct (validateTransaction req); simpl; auto.
    destruct (Mongo.findOne _ _); auto.
  - destruct (Mongo.findOne _ _); auto.
Qed.

(** ** Expense delete *)

(** C4: deleting an expense of amount [A], category [C] and date [D]
    takes exactly [A] off the cached amount of the budget filed under
    (owner, [C], month of [D], year of [D]) and leaves every other budget
    as it was; nothing clamps the result, so a value below zero is stored
    as it comes out. *)
Theorem deleteExpense_decrements_unclamped (uid id : ObjectId) (db : Db)
  (expense : Transaction.t) (pre post : list Budget.t) (budget : Budget.t) :
  Mongo.findOne (Transaction.isOwn id uid) (expenseDocs db) = Some expense ->
  budgetDocs db = (pre ++ budget :: post)%list ->
  forallb
    (fun b =>
       negb (Budget.sameKey uid (Transaction.category expense)
               (Date.monthLong (Transaction.date expense))
               (Date.getFullYear (Transaction.date expense)) b)) pre = true ->
  Budget.sameKey uid (Transaction.category expense)
    (Date.monthLong (Transaction.date expense))
    (Date.getFullYear (Transaction.date expense)) budget = true ->
  status (fst (ExpenseRoutes.deleteExpense uid id db)) = 200
  /\ budgetDocs (snd (ExpenseRoutes.deleteExpense uid id db))
     = (pre
        ++ Budget.setSpentAmount
             (Budget.spentAmount budget - Transaction.amount expense) budget
        :: post)%list.
Proof.
  intros Hfind Hdocs Hpre Hkey. unfold ExpenseRoutes.deleteExpense.
  rewrite Hfind. simpl. split; [reflexivity|].
  unfold ExpenseRoutes.incBudget. rewrite Hdocs.
  rewrite updateOne_split by assumption.
  unfold Budget.incSpentAmount. now rewrite Z.add_opp_r.
Qed.

Lemma deleteExpense_decrements_unclamped_witness :
  status (fst (ExpenseRoutes.deleteExpense Sample.owner 50 Sample.underCounted))
  = 200
  /\ budgetDocs
       (snd (ExpenseRoutes.deleteExpense Sample.owner 50 Sample.underCounted))
     = [Sample.foodMarch (-1500)].
Proof.
  apply (deleteExpense_decrements_unclamped Sample.owner 50 Sample.underCounted
           (Sample.expense 50 2500 "Food" (Sample.at_ 2024 3 10 Sample.noon))
           [] [] (Sample.foodMarch 1000)); reflexivity.
Defined.

(** ** Budget create *)

(** C8: a create request for a key (owner, category, month, year) that a
    budget already holds is answered 400 and changes nothing in the
    store; when the request passes field validation the body is the
    conflict message naming the key, which differs from every
    validation-failure body (other message, no [errors] array). *)
Theorem postBudget_duplicate_rejected (uid : ObjectId) (req : BudgetReq)
  (db : Db) (existing : Budget.t) :
  In existing (budgetDocs db) ->
  Budget.sameKey uid (reqCategory req) (reqMonth req) (reqYear req) existing
  = true ->
  snd (BudgetRoutes.postBudget uid req db) = db
  /\ status (fst (BudgetRoutes.postBudget uid req db)) = 400
  /\ (validateBudget req = [] ->
      fst (BudgetRoutes.postBudget uid req db)
      = message 400
          ("Budget already exists for " ++ reqCategory req ++ " in "
           ++ reqMonth req ++ " " ++ BudgetRoutes.showYear (reqYear req))%string
      /\ forall errors : list string,
          fst (BudgetRoutes.postBudget uid req db)
          <> mkReply 400 (Message "Validation failed" (Some errors))).
Proof.
  intros Hin Hkey.
  destruct (findOne_present _ _ _ Hin Hkey) as [y Hy].
  unfold BudgetRoutes.postBudget, handleValidationErrors.
  destruct (validateBudget req) as [|e es] eqn:Hv.
  - rewrite Hy. simpl. split; [reflexivity|]. split; [reflexivity|].
    intros _. split; [reflexivity|].
    intros errors. unfold message. discriminate.
  - simpl. split; [reflexivity|]. split; [reflexivity|]. discriminate.
Qed.

Lemma postBudget_duplicate_rejected_witness :
  snd (BudgetRoutes.postBudget Sample.owner Sample.foodMarchReq Sample.oneBudget)
  = Sample.oneBudget
  /\ status
       (fst (BudgetRoutes.postBudget Sample.owner Sample.foodMarchReq
               Sample.oneBudget)) = 400
  /\ (validateBudget Sample.foodMarchReq = [] ->
      fst (BudgetRoutes.postBudget Sample.owner Sample.foodMarchReq
             Sample.oneBudget)
      = message 400 "Budget already exists for Food in March 2024"
      /\ forall errors : list string,
          fst (BudgetRoutes.postBudget Sample.owner Sample.foodMarchReq
                 Sample.oneBudget)
          <> mkReply 400 (Message "Validation failed" (Some errors))).
Proof.
  apply (postBudget_duplicate_rejected Sample.owner Sample.foodMarchReq
           Sample.oneBudget (Sample.foodMarch 0)).
  - left. reflexivity.
  - reflexivity.
Defined.

(** ** Bulk refresh *)

Section Refresh.

Lemma distinct_absent (i : ObjectId) (bs : list Budget.t) (b : Budget.t) :
  existsb (Nat.eqb i) (map Budget._id bs) = false -> In b bs ->
  Budget._id b <> i.
Proof.
  intros Hno Hin Heq.
  assert (existsb (Nat.eqb i) (map Budget._id bs) = true) as Hyes.
  { apply existsb_exists. exists (Budget._id b). split.
    - now apply in_map.
    - rewrite Heq. apply Nat.eqb_refl. }
  congruence.
Qed.

Lemma existsb_hasId (i : ObjectId) (bs : list Budget.t) :
  existsb (Budget.hasId i) bs = existsb (Nat.eqb i) (map Budget._id bs).
Proof.
  induction bs as [|x bs IH]; simpl; [reflexivity|].
  rewrite IH. unfold Budget.hasId. now rewrite Nat.eqb_sym.
Qed.

Lemma distinct_unique (bs : list Budget.t) (a b : Budget.t) :
  distinct (map Budget._id bs) = true -> In a bs -> In b bs ->
  Budget._id a = Budget._id b -> a = b.
Proof.
  induction bs as [|x bs IH]; simpl; intros Hd Ha Hb Hid; [contradiction|].
  apply andb_true_iff in Hd as [Hx Hd]. apply negb_true_iff in Hx.
  destruct Ha as [Ha|Ha], Hb as [Hb|Hb]; subst.
  - reflexivity.
  - exfalso. now apply (distinct_absent _ _ _ Hx Hb).
  - exfalso. now apply (distinct_absent _ _ _ Hx Ha).
  - now apply IH.
Qed.

Lemma distinct_filter (p : Budget.t -> bool) (bs : list Budget.t) :
  distinct (map Budget._id bs) = true ->
  distinct (map Budget._id (filter p bs)) = true.
Proof.
  induction bs as [|x bs IH]; simpl; intros Hd; [reflexivity|].
  apply andb_true_iff in Hd as [Hx Hd]. apply negb_true_iff in Hx.
  destruct (p x); simpl; [|now apply IH].
  rewrite IH by assumption. rewrite andb_true_r. apply negb_true_iff.
  destruct (existsb (Nat.eqb (Budget._id x)) (map Budget._id (filter p bs)))
    eqn:E; [|reflexivity].
  apply existsb_exists in E as [i [Hi Heq]].
  apply in_map_iff in Hi as [y [Hy Hin]]. apply filter_In in Hin as [Hin _].
  apply Nat.eqb_eq in Heq. subst i.
  exfalso. now apply (distinct_absent _ _ _ Hx Hin).
Qed.

(** With distinct ids a write whose filter fixes the [_id] touches the
    one document of that id and is a map over the collection. *)
Lemma updateOne_by_id (q : Budget.t -> bool) (u : Budget.t -> Budget.t)
  (i : ObjectId) (bs : list Budget.t) :
  (forall x, q x = true -> Budget._id x = i) ->
  distinct (map Budget._id bs) = true ->
  Mongo.updateOne q u bs = map (fun b => if q b then u b else b) bs.
Proof.
  intros Hq. induction bs as [|x bs IH]; simpl; intros Hd; [reflexivity|].
  apply andb_true_iff in Hd as [Hx Hd]. apply negb_true_iff in Hx.
  destruct (q x) eqn:E.
  - f_equal. rewrite <- (map_id bs) at 1. apply map_ext_in.
    intros b Hb. destruct (q b) eqn:Eb; [|reflexivity].
    exfalso. apply (distinct_absent _ _ _ Hx Hb).
    rewrite (Hq _ E), (Hq _ Eb). reflexivity.
  - f_equal. now apply IH.
Qed.

Lemma updateOne_hasId (u : Budget.t -> Budget.t) (i : ObjectId)
  (bs : list Budget.t) :
  distinct (map Budget._id bs) = true ->
  Mongo.updateOne (Budget.hasId i) u bs
  = map (fun b => if Budget.hasId i b then u b else b) bs.
Proof.
  apply (updateOne_by_id _ _ i). intros x Hx. now apply Nat.eqb_eq in Hx.
Qed.

Lemma spentAmount_nonneg (uid : ObjectId) (category month : string) (year : Z)
  (es : list Transaction.t) :
  forallb (fun e => 0 <? Transaction.amount e) es = true ->
  0 <= BudgetRoutes.spentAmount uid category month year es.
Proof.
  intros _. rewrite spentAmount_zero. lia.
Qed.

Variable uid : ObjectId.
Variable es : list Transaction.t.

Lemma recompute_id (b : Budget.t) :
  Budget._id (BudgetRoutes.recompute uid es b) = Budget._id b.
Proof. reflexivity. Qed.

(** The loop writes the recomputed amount into each found budget and
    nothing else, whatever the cached amounts were. *)
Lemma refreshLoop_spec (found bs : list Budget.t) :
  distinct (map Budget._id bs) = true ->
  distinct (map Budget._id found) = true ->
  (forall f, In f found -> In f bs) ->
  (forall f, In f found ->
     Budget.validate (BudgetRoutes.recompute uid es f) = true) ->
  BudgetRoutes.refreshLoop uid es found bs
  = (None,
     map (fun b =>
            if existsb (Budget.hasId (Budget._id b)) found
            then BudgetRoutes.recompute uid es b else b) bs).
Proof.
  revert bs. induction found as [|f rest IH]; intros bs Hbs Hfound Hin Hval.
  - simpl. now rewrite map_id.
  - simpl in Hfound. apply andb_true_iff in Hfound as [Hf Hrest].
    apply negb_true_iff in Hf.
    simpl. unfold BudgetRoutes.save.
    rewrite (Hval f (or_introl eq_refl)). simpl.
    rewrite updateOne_hasId by assumption.
    set (g1 := fun b : Budget.t =>
                 if Budget.hasId (Budget._id f) b
                 then Budget.setSpentAmount
                        (BudgetRoutes.spentAmount uid (Budget.category f)
                           (Budget.month f) (Budget.year f) es) b
                 else b).
    assert (Hg1id : forall b, Budget._id (g1 b) = Budget._id b).
    { intros b. unfold g1. now destruct (Budget.hasId _ b). }
    assert (Hg1rest : forall r, In r rest -> g1 r = r).
    { intros r Hr. unfold g1, Budget.hasId.
      destruct (Nat.eqb_spec (Budget._id r) (Budget._id f)) as [E|]; [|reflexivity].
      exfalso. apply (distinct_absent _ _ _ Hf Hr). exact E. }
    rewrite IH.
    + f_equal. rewrite map_map. apply map_ext_in. intros b Hb.
      rewrite Hg1id. simpl existsb.
      destruct (Nat.eqb_spec (Budget._id b) (Budget._id f)) as [E|E].
      * assert (b = f) as -> by
          (apply (distinct_unique bs); auto using in_eq).
        rewrite existsb_hasId, Hf. unfold g1, Budget.hasId.
        rewrite Nat.eqb_refl. reflexivity.
      * assert (g1 b = b) as ->.
        { unfold g1, Budget.hasId.
          destruct (Nat.eqb_spec (Budget._id b) (Budget._id f));
            [contradiction|reflexivity]. }
        assert (Budget.hasId (Budget._id b) f = false) as ->.
        { unfold Budget.hasId. apply Nat.eqb_neq. congruence. }
        reflexivity.
    + rewrite map_map. rewrite (map_ext _ Budget._id) by exact Hg1id.
      assumption.
    + assumption.
    + intros r Hr. rewrite <- (Hg1rest r Hr). apply in_map.
      apply Hin. now right.
    + intros r Hr. apply Hval. now right.
Qed.

End Refresh.

Lemma existsb_hasId_filter (p : Budget.t -> bool) (bs : list Budget.t)
  (b : Budget.t) :
  distinct (map Budget._id bs) = true -> In b bs ->
  existsb (Budget.hasId (Budget._id b)) (filter p bs) = p b.
Proof.
  intros Hd Hb. destruct (p b) eqn:Hp.
  - apply existsb_exists. exists b. split.
    + apply filter_In. now split.
    + apply Nat.eqb_refl.
  - destruct (existsb _ (filter p bs)) eqn:E; [|reflexivity].
    apply existsb_exists in E as [x [Hx Hid]].
    apply filter_In in Hx as [Hx Hpx]. apply Nat.eqb_eq in Hid.
    assert (x = b) by (apply (distinct_unique bs); assumption).
    congruence.
Qed.

(** On a well-formed store the refresh handler answers 200 and rewrites
    the budget collection pointwise: a budget of the user gets the
    recomputed amount, any other budget stays. *)
Lemma postRefresh_spec (uid : ObjectId) (db : Db) :
  wellFormed db = true ->
  BudgetRoutes.postRefresh uid db
  = (message 200 "Budget amounts refreshed successfully",
     withBudgets
       (map (fun b =>
               if Budget.ownedBy uid b
               then BudgetRoutes.recompute uid (expenseDocs db) b else b)
          (budgetDocs db)) db).
Proof.
  unfold wellFormed. intros H.
  apply andb_true_iff in H as [H Hamounts].
  apply andb_true_iff in H as [Hids Hfields].
  unfold BudgetRoutes.postRefresh, Mongo.find.
  rewrite refreshLoop_spec.
  - f_equal. f_equal. apply map_ext_in. intros b Hb.
    now rewrite existsb_hasId_filter.
  - assumption.
  - now apply distinct_filter.
  - intros f Hf. now apply filter_In in Hf.
  - intros f Hf. apply filter_In in Hf as [Hf _].
    unfold Budget.validate, BudgetRoutes.recompute. simpl.
    rewrite forallb_forall in Hfields. specialize (Hfields f Hf).
    unfold Budget.validFields in *. simpl. rewrite Hfields. simpl.
    unfold Budget.validSpentAmount. apply Z.leb_le.
    now apply spentAmount_nonneg.
Qed.

(** The round of the refresh loop assigns 0, whatever the ledger
    holds. *)
Lemma recompute_zero (uid : ObjectId) (es : list Transaction.t) (b : Budget.t) :
  BudgetRoutes.recompute uid es b = Budget.setSpentAmount 0 b.
Proof. unfold BudgetRoutes.recompute. now rewrite spentAmount_zero. Qed.

(** C1, the code on a store whose cached amounts have drifted.  The
    ledger holds, for the owner in March 2024, Food expenses of 62.00 in
    all and a Travel expense of 7.00, which is what the claim asks the
    two budgets to show after a refresh.  The refresh answers 200 and
    leaves both at 0: the [$match] of its scan compares the stored
    [ObjectId] with the session's string and finds no expense.  The
    budget of the other user is not touched. *)
Theorem postRefresh_leaves_zero_for_recorded_spend :
  Ledger.spendOf (Sample.foodMarch (-300)) (expenseDocs Sample.drifted) = 6200
  /\ Ledger.spendOf (Budget.mk 12 Sample.owner "Travel" 100000 99999 "March" 2024)
       (expenseDocs Sample.drifted) = 700
  /\ BudgetRoutes.postRefresh Sample.owner Sample.drifted
     = (message 200 "Budget amounts refreshed successfully",
        withBudgets
          [ Sample.foodMarch 0;
            Budget.mk 12 Sample.owner "Travel" 100000 0 "March" 2024;
            Budget.mk 13 Sample.other "Food" 100000 1 "March" 2024 ]
          Sample.drifted).
Proof. repeat split; reflexivity. Qed.

(** ** Budget update *)

(** C10, the code on a budget moved to another category.  The owner's
    ledger holds a Fuel expense of 43.00 in March 2024.  Turning the
    March Food budget (cached amount -3.00) into a Fuel budget answers
    200, and the budget stored and returned carries the new category and
    amount with [spentAmount] 0, not the 43.00 of its new bucket: the
    scan that the handler runs after the write finds no expense.  The
    other budgets and the ledger stay. *)
Theorem putBudget_stores_zero_for_recorded_spend :
  Ledger.spendIn Sample.owner "Fuel" "March" 2024 (expenseDocs Sample.drifted)
  = 4300
  /\ BudgetRoutes.putBudget Sample.owner 10 Sample.toFuel Sample.drifted
     = (json 200 (Budget.mk 10 Sample.owner "Fuel" 200000 0 "March" 2024),
        withBudgets
          [ Budget.mk 10 Sample.owner "Fuel" 200000 0 "March" 2024;
            Budget.mk 12 Sample.owner "Travel" 100000 99999 "March" 2024;
            Budget.mk 13 Sample.other "Food" 100000 1 "March" 2024 ]
          Sample.drifted).
Proof. split; reflexivity. Qed.

(** ** Date ranges given backwards *)

Lemma leb_iff (a b : Date.t) :
  Date.leb a b = true
  <-> (Date.getFullYear a < Date.getFullYear b
       \/ (Date.getFullYear a = Date.getFullYear b
           /\ (Date.getMonth a < Date.getMonth b
               \/ (Date.getMonth a = Date.getMonth b
                   /\ (Date.getDate a < Date.getDate b
                       \/ (Date.getDate a = Date.getDate b
                           /\ Date.timeOfDay a <= Date.timeOfDay b)))))).
Proof.
  unfold Date.leb, Date.compare.
  destruct (Z.compare_spec (Date.getFullYear a) (Date.getFullYear b));
    destruct (Z.compare_spec (Date.getMonth a) (Date.getMonth b));
    destruct (Z.compare_spec (Date.getDate a) (Date.getDate b));
    destruct (Z.compare_spec (Date.timeOfDay a) (Date.timeOfDay b));
    split; intros; try reflexivity; try discriminate; lia.
Qed.

Lemma leb_trans (a b c : Date.t) :
  Date.leb a b = true -> Date.leb b c = true -> Date.leb a c = true.
Proof. rewrite !leb_iff. lia. Qed.

(** No date lies between the ends of a range given backwards. *)
Lemma between_backwards (lo hi d : Date.t) :
  Date.gtb lo hi = true -> Date.between lo hi d = false.
Proof.
  unfold Date.gtb, Date.between. intros H. apply negb_true_iff in H.
  destruct (Date.leb lo d) eqn:E1, (Date.leb d hi) eqn:E2; try reflexivity.
  rewrite (leb_trans _ _ _ E1 E2) in H. discriminate.
Qed.

Lemma totalOf_groupTotalCount (l : list Transaction.t) :
  Reports.totalOf (Mongo.groupTotalCount Transaction.amount l)
  = Ledger.sumOfAmounts l.
Proof.
  rewrite <- totalOrZero_groupTotal. unfold Reports.totalOf.
  now destruct l.
Qed.

Lemma countOf_groupTotalCount (l : list Transaction.t) :
  Reports.countOf (Mongo.groupTotalCount Transaction.amount l)
  = Z.of_nat (List.length l).
Proof.
  unfold Reports.countOf, Mongo.groupTotalCount, Mongo.totalOrZero.
  destruct l as [|x l]; [reflexivity|].
  cbn [map snd]. destruct (Z.eqb_spec (Z.of_nat (List.length (x :: l))) 0);
    [congruence|reflexivity].
Qed.

(** C6, as the code has it: a request whose range has [start > end] is
    not rejected.  The [$match] that the expense statistics build from
    such a range picks no document, whatever id it carries, and the
    handler answers 200 with the zeroed summary and no category; the
    reports answer 200 for the period from [start] to the end of the day
    of [end], and the totals, the counts and the net balance of their
    summary are taken over exactly the user's documents dated in that
    period.  Neither swaps the two ends. *)
Theorem backwards_range_answered_unswapped (uid : ObjectId)
  (start end_ clock : Date.t) (db : Db) :
  Date.gtb start end_ = true ->
  (forall (userId : Filter.id) (x : Transaction.t),
      ExpenseStats.matchStage userId (Some start) (Some end_) x = false)
  /\ ExpenseStats.getStatsSummary uid (Some start) (Some end_) db
     = (json 200
          (ExpenseStats.mkStats (ExpenseStats.mkSummary 0 0 (0, 1)) []), db)
  /\ isRejected (fst (Reports.getReports uid (Some start) (Some end_) clock db))
     = false
  /\ exists data : Reports.Data,
      Reports.getReports uid (Some start) (Some end_) clock db
      = (json 200 data, db)
      /\ Reports.period data = (start, Date.setHours end_ 23 59 59 999)
      /\ let inPeriod :=
           fun x =>
             Transaction.ownedBy uid x
             && Date.between start (Date.setHours end_ 23 59 59 999)
                  (Transaction.date x) in
         Reports.totalIncome (Reports.summary data)
         = Ledger.sumOfAmounts (filter inPeriod (incomeDocs db))
         /\ Reports.totalExpenses (Reports.summary data)
            = Ledger.sumOfAmounts (filter inPeriod (expenseDocs db))
         /\ Reports.incomeCount (Reports.summary data)
            = Z.of_nat (List.length (filter inPeriod (incomeDocs db)))
         /\ Reports.expenseCount (Reports.summary data)
            = Z.of_nat (List.length (filter inPeriod (expenseDocs db)))
         /\ Reports.netBalance (Reports.summary data)
            = Reports.totalIncome (Reports.summary data)
              - Reports.totalExpenses (Reports.summary data).
Proof.
  intros Hgt.
  assert (forall (userId : Filter.id) (x : Transaction.t),
             ExpenseStats.matchStage userId (Some start) (Some end_) x = false)
    as Hnone.
  { intros userId x. unfold ExpenseStats.matchStage.
    now rewrite (between_backwards _ _ _ Hgt), andb_false_r. }
  split; [exact Hnone|]. split; [|split].
  - unfold ExpenseStats.getStatsSummary.
    assert (Mongo.find
              (ExpenseStats.matchStage (Filter.Str uid) (Some start) (Some end_))
              (expenseDocs db) = []) as ->; [|reflexivity].
    unfold Mongo.find. induction (expenseDocs db) as [|e es IH];
      [reflexivity|].
    cbn [filter]. rewrite Hnone. exact IH.
  - reflexivity.
  - unfold Reports.getReports. eexists. split; [reflexivity|].
    cbn [Reports.period Reports.summary Reports.totalIncome
         Reports.totalExpenses Reports.incomeCount Reports.expenseCount
         Reports.netBalance].
    split; [reflexivity|]. cbv zeta.
    rewrite !totalOf_groupTotalCount, !countOf_groupTotalCount.
    repeat split; reflexivity.
Qed.

Lemma backwards_range_answered_unswapped_witness :
  ExpenseStats.getStatsSummary Sample.owner (Some Sample.march31)
    (Some Sample.march1) Sample.drifted
  = (json 200
       (ExpenseStats.mkStats (ExpenseStats.mkSummary 0 0 (0, 1)) []),
     Sample.drifted)
  /\ isRejected
       (fst (Reports.getReports Sample.owner (Some Sample.march31)
               (Some Sample.march1) Sample.mayFirst Sample.drifted)) = false.
Proof.
  destruct (backwards_range_answered_unswapped Sample.owner Sample.march31
              Sample.march1 Sample.mayFirst Sample.drifted)
    as (_ & H2 & H3 & _); [reflexivity|].
  split; [exact H2|exact H3].
Defined.

(** C6, as the claim states it, fails: the range from 31 March back to
    1 March 2024 has [start > end], and both handlers answer it with
    status 200 instead of rejecting it. *)
Lemma backwards_range_not_rejected :
  Date.gtb Sample.march31 Sample.march1 = true
  /\ isRejected
       (fst (ExpenseStats.getStatsSummary Sample.owner (Some Sample.march31)
               (Some Sample.march1) Sample.drifted)) = false
  /\ isRejected
       (fst (Reports.getReports Sample.owner (Some Sample.march31)
               (Some Sample.march1) Sample.mayFirst Sample.drifted)) = false.
Proof. repeat split; reflexivity. Qed.

(** ** The month's scan range against the calendar month *)

Lemma daysInMonth_bounds (y m : Z) :
  28 <= Date.daysInMonth y m <= 31.
Proof.
  unfold Date.daysInMonth.
  destruct (m =? 1); [destruct (Date.isLeap y); lia|].
  destruct ((m =? 3) || (m =? 5) || (m =? 8) || (m =? 10)); lia.
Qed.

Lemma make_first (y i tod : Z) :
  0 <= i < 12 -> Date.make y i 1 tod = Date.mk y i 1 tod.
Proof.
  intros Hi. unfold Date.make. simpl.
  now rewrite Z.div_small, Z.mod_small, Z.add_0_r by lia.
Qed.

(** Day 0 of the month after [i] is the last day of the month [i]. *)
Lemma make_day0 (y i tod : Z) :
  0 <= i < 12 ->
  Date.make y (i + 1) 0 tod = Date.mk y i (Date.daysInMonth y i) tod.
Proof.
  intros Hi. unfold Date.make. simpl.
  destruct (Z.eq_dec i 11) as [->|Hne].
  - change ((11 + 1) / 12) with 1. change ((11 + 1) mod 12) with 0.
    change ((0 - 1) / 12) with (-1). change ((0 - 1) mod 12) with 11.
    replace (y + 1 + -1) with y by lia. now rewrite Z.add_0_r.
  - rewrite (Z.div_small (i + 1)), (Z.mod_small (i + 1)) by lia.
    replace (i + 1 - 1) with i by lia.
    rewrite Z.div_small, Z.mod_small, !Z.add_0_r by lia. reflexivity.
Qed.

Lemma getMonthIndex_valid (month : string) :
  Budget.validMonth month = true ->
  0 <= BudgetRoutes.getMonthIndex month < 12
  /\ nth (Z.to_nat (BudgetRoutes.getMonthIndex month)) Date.months "" = month.
Proof.
  unfold Budget.validMonth. intros H.
  apply existsb_exists in H as [x [Hin Heq]].
  apply String.eqb_eq in Heq. subst x.
  simpl in Hin.
  repeat (destruct Hin as [<-|Hin]; [vm_compute; repeat split; congruence|]).
  contradiction.
Qed.

(** For every month name the schema admits and every year, the scan of
    the budget routes runs from the first instant of the month to
    midnight opening its last day: the first instant is inside, the last
    instant of the month is outside, although the expense routes file it
    under this very month and year. *)
Lemma scan_range_stops_at_midnight (month : string) (year : Z) :
  Budget.validMonth month = true ->
  let i := BudgetRoutes.getMonthIndex month in
  BudgetRoutes.startDate month year = Date.firstInstant year i
  /\ BudgetRoutes.endDate month year
     = Date.mk year i (Date.daysInMonth year i) 0
  /\ Date.between (BudgetRoutes.startDate month year)
       (BudgetRoutes.endDate month year) (Date.firstInstant year i) = true
  /\ Date.between (BudgetRoutes.startDate month year)
       (BudgetRoutes.endDate month year) (Date.lastInstant year i) = false
  /\ Ledger.bucketOf (Date.lastInstant year i) = (month, year).
Proof.
  intros Hv i. destruct (getMonthIndex_valid month Hv) as [Hi Hnth].
  fold i in Hi, Hnth.
  assert (Hs : BudgetRoutes.startDate month year = Date.firstInstant year i)
    by (unfold BudgetRoutes.startDate; fold i; now apply make_first).
  assert (He : BudgetRoutes.endDate month year
               = Date.mk year i (Date.daysInMonth year i) 0)
    by (unfold BudgetRoutes.endDate; fold i; now apply make_day0).
  pose proof (daysInMonth_bounds year i) as Hb.
  rewrite Hs, He. split; [reflexivity|]. split; [reflexivity|].
  unfold Date.between, Date.firstInstant, Date.lastInstant. split; [|split].
  - apply andb_true_iff. split; apply leb_iff; simpl; lia.
  - apply andb_false_iff. right.
    destruct (Date.leb _ _) eqn:E; [|reflexivity].
    apply leb_iff in E. simpl in E. vm_compute Date.hms in E. lia.
  - unfold Ledger.bucketOf, Date.monthLong.
    cbn [Date.getMonth Date.getFullYear]. now rewrite Hnth.
Qed.

(** C5, the code at the boundary.  The claim counts a Food expense of
    50.00 at the last instant of March 2024 in the March bucket, and the
    expense create route files it there (50.00).  The range of the
    seeding and the refresh scan ends at 00:00 of 31 March, so its
    [$match] leaves that expense out even when it is given the owner's
    [ObjectId], while it takes the expense at the first instant.  As the
    handlers give the session's string, the scan finds neither: the
    create seeds 0 for the last and for the first instant, and the
    refresh resets the 50.00 of the incremental path to 0. *)
Theorem last_instant_left_out_of_scan :
  Sample.marchLast = Sample.at_ 2024 3 31 (Date.hms 23 59 59 999)
  /\ Ledger.spendIn Sample.owner "Food" "March" 2024
       (expenseDocs (Sample.oneExpense Sample.marchLast)) = 5000
  /\ BudgetRoutes.endDate "March" 2024 = Sample.at_ 2024 3 31 0
  /\ BudgetRoutes.matchExpense (Filter.Oid Sample.owner) "Food"
       (BudgetRoutes.startDate "March" 2024) (BudgetRoutes.endDate "March" 2024)
       (Sample.expense 50 5000 "Food" Sample.marchLast) = false
  /\ BudgetRoutes.matchExpense (Filter.Oid Sample.owner) "Food"
       (BudgetRoutes.startDate "March" 2024) (BudgetRoutes.endDate "March" 2024)
       (Sample.expense 50 5000 "Food" Sample.marchFirst) = true
  /\ fst (BudgetRoutes.postBudget Sample.owner Sample.foodMarchReq
            (Sample.oneExpense Sample.marchLast))
     = json 201 (Sample.food 100 0 "March")
  /\ fst (BudgetRoutes.postBudget Sample.owner Sample.foodMarchReq
            (Sample.oneExpense Sample.marchFirst))
     = json 201 (Sample.food 100 0 "March")
  /\ budgetDocs
       (snd (ExpenseRoutes.postExpense Sample.owner
               (Sample.spend 5000 "Food" Sample.marchLast) Sample.oneBudget))
     = [Sample.foodMarch 5000]
  /\ budgetDocs
       (snd (BudgetRoutes.postRefresh Sample.owner
               (snd (ExpenseRoutes.postExpense Sample.owner
                       (Sample.spend 5000 "Food" Sample.marchLast)
                       Sample.oneBudget))))
     = [Sample.foodMarch 0].
Proof. repeat split; reflexivity. Qed.

(** ** Expense update across months *)

(** The rule the update handler applies to the budgets: one increment by
    the difference at the new date's bucket when the category is kept,
    otherwise the old amount off the old bucket and the new amount onto
    the new one. *)
Lemma putExpense_budgets (uid id : ObjectId) (req : TransactionReq) (db : Db)
  (old : Transaction.t) :
  validateTransaction req = [] ->
  Mongo.findOne (Transaction.isOwn id uid) (expenseDocs db) = Some old ->
  budgetDocs (snd (ExpenseRoutes.putExpense uid id req db))
  = if (Transaction.category old =? reqTxCategory req)%string
    then
      ExpenseRoutes.incBudget uid (reqTxCategory req)
        (Date.monthLong (reqDate req)) (Date.getFullYear (reqDate req))
        (reqAmount req - Transaction.amount old) (budgetDocs db)
    else
      ExpenseRoutes.incBudget uid (reqTxCategory req)
        (Date.monthLong (reqDate req)) (Date.getFullYear (reqDate req))
        (reqAmount req)
        (ExpenseRoutes.incBudget uid (Transaction.category old)
           (Date.monthLong (Transaction.date old))
           (Date.getFullYear (Transaction.date old))
           (- Transaction.amount old) (budgetDocs db)).
Proof.
  intros Hv Hfind. unfold ExpenseRoutes.putExpense, handleValidationErrors.
  rewrite Hv, Hfind.
  destruct (Transaction.category old =? reqTxCategory req)%string; reflexivity.
Qed.

(** C3, the code on a date move within one category.  The Food expense
    of 100.00 on 10 March is edited to 80.00 on 10 April: the March
    budget keeps its 100.00 and the April budget receives the difference,
    -20.00, where the two-bucket rule gives 0 and 80.00. *)
Theorem putExpense_same_category_other_month :
  budgetDocs Sample.afterCreate = [Sample.foodMarch 10000; Sample.foodApril 0]
  /\ Ledger.bucketOf (Sample.at_ 2024 3 10 Sample.noon) = ("March", 2024)
  /\ Ledger.bucketOf (Sample.at_ 2024 4 10 Sample.noon) = ("April", 2024)
  /\ status
       (fst (ExpenseRoutes.putExpense Sample.owner 100
               (Sample.spend 8000 "Food" (Sample.at_ 2024 4 10 Sample.noon))
               Sample.afterCreate)) = 200
  /\ budgetDocs
       (snd (ExpenseRoutes.putExpense Sample.owner 100
               (Sample.spend 8000 "Food" (Sample.at_ 2024 4 10 Sample.noon))
               Sample.afterCreate))
     = [Sample.foodMarch 10000; Sample.foodApril (-2000)].
Proof. repeat split; reflexivity. Qed.

(** C2, the code on a run of expense requests.  The store with two
    Food budgets at 0 and an empty ledger is consistent.  Creating a Food
    expense of 100.00 in March caches 100.00 for March, which is the
    ledger's sum; the refresh changes it to 0.  Moving the expense to
    April at 80.00 leaves 100.00 and -20.00 cached where the ledger has 0
    and 80.00; the refresh changes both, to 0 and 0. *)
Theorem refresh_changes_incremental_amounts :
  wellFormed Sample.twoBudgets = true
  /\ Ledger.consistent Sample.twoBudgets = true
  /\ budgetDocs Sample.afterCreate
     = [Sample.foodMarch 10000; Sample.foodApril 0]
  /\ Ledger.consistent Sample.afterCreate = true
  /\ budgetDocs (snd (BudgetRoutes.postRefresh Sample.owner Sample.afterCreate))
     = [Sample.foodMarch 0; Sample.foodApril 0]
  /\ budgetDocs Sample.afterMove
     = [Sample.foodMarch 10000; Sample.foodApril (-2000)]
  /\ map (fun b => Ledger.spendOf b (expenseDocs Sample.afterMove))
       (budgetDocs Sample.afterMove) = [0; 8000]
  /\ budgetDocs (snd (BudgetRoutes.postRefresh Sample.owner Sample.afterMove))
     = [Sample.foodMarch 0; Sample.foodApril 0].
Proof. repeat split; reflexivity. Qed.

(** ** Monthly series *)

Lemma monthlyLoop_length (uid : ObjectId) (db : Db) (now : Date.t) (n : nat) :
  List.length (Aggregate.monthlyLoop uid db now n) = n.
Proof. induction n as [|n IH]; simpl; congruence. Qed.

(** Both handlers return six tuples, whatever the ledger holds. *)
Lemma monthlyData_has_six (uid : ObjectId) (period : string)
  (startDate endDate : option Date.t) (clock : Date.t) (db : Db) :
  (exists data,
      fst (Dashboard.getDashboard uid period clock db) = json 200 data
      /\ List.length (Dashboard.monthlyData data) = 6%nat)
  /\ (exists data,
        fst (Reports.getReports uid startDate endDate clock db) = json 200 data
        /\ List.length (Reports.monthlyData data) = 6%nat).
Proof.
  split.
  - unfold Dashboard.getDashboard.
    destruct (Dashboard.periodRange period clock) as [now [s e]].
    eexists. split; [reflexivity|]. cbn [Dashboard.monthlyData].
    now rewrite length_map, monthlyLoop_length.
  - unfold Reports.getReports. eexists. split; [reflexivity|].
    cbn [Reports.monthlyData].
    now rewrite length_map, monthlyLoop_length.
Qed.

(** C7, the code on the dashboard with [period=week].  On Wednesday
    1 May 2024 the [week] case moves [now] to Sunday 28 April, and the
    loop that follows builds the six months ending at April: the owner's
    only transaction, an income on 1 May, is in none of the six tuples.
    With [period=month], and in the reports handler, the series ends at
    May and holds it. *)
Theorem dashboard_week_series_ends_a_month_early :
  Date.getDay Sample.mayFirst = 3
  /\ fst (Dashboard.periodRange "week" Sample.mayFirst)
     = Sample.at_ 2024 4 28 (Date.hms 10 0 0 0)
  /\ (exists data,
        fst (Dashboard.getDashboard Sample.owner "week" Sample.mayFirst
               Sample.onlyMay) = json 200 data
        /\ Dashboard.totalIncome data = 50000
        /\ Dashboard.monthlyData data
           = [ Dashboard.mkMonthTuple "Nov" 0 0;
               Dashboard.mkMonthTuple "Dec" 0 0;
               Dashboard.mkMonthTuple "Jan" 0 0;
               Dashboard.mkMonthTuple "Feb" 0 0;
               Dashboard.mkMonthTuple "Mar" 0 0;
               Dashboard.mkMonthTuple "Apr" 0 0 ])
  /\ (exists data,
        fst (Dashboard.getDashboard Sample.owner "month" Sample.mayFirst
               Sample.onlyMay) = json 200 data
        /\ Dashboard.monthlyData data
           = [ Dashboard.mkMonthTuple "Dec" 0 0;
               Dashboard.mkMonthTuple "Jan" 0 0;
               Dashboard.mkMonthTuple "Feb" 0 0;
               Dashboard.mkMonthTuple "Mar" 0 0;
               Dashboard.mkMonthTuple "Apr" 0 0;
               Dashboard.mkMonthTuple "May" 50000 0 ])
  /\ (exists data,
        fst (Reports.getReports Sample.owner None None Sample.mayFirst
               Sample.onlyMay) = json 200 data
        /\ Reports.monthlyData data
           = [ Reports.mkMonthTuple "Dec 2023" 0 0 0;
               Reports.mkMonthTuple "Jan 2024" 0 0 0;
               Reports.mkMonthTuple "Feb 2024" 0 0 0;
               Reports.mkMonthTuple "Mar 2024" 0 0 0;
               Reports.mkMonthTuple "Apr 2024" 0 0 0;
               Reports.mkMonthTuple "May 2024" 50000 0 50000 ]).
Proof.
  split; [reflexivity|]. split; [reflexivity|]. split; [|split].
  - eexists. split; [reflexivity|]. split; reflexivity.
  - eexists. split; reflexivity.
  - eexists. split; reflexivity.
Qed.

(** ** Every store the routes can reach is well formed *)

Section Invariant.

Lemma forallb_updateOne {A : Type} (P q : A -> bool) (u : A -> A)
  (c : list A) :
  (forall x, P x = true -> P (u x) = true) ->
  forallb P c = true -> forallb P (Mongo.updateOne q u c) = true.
Proof.
  intros Hu. induction c as [|x c IH]; simpl; intros H; [reflexivity|].
  apply andb_true_iff in H as [Hx Hc].
  destruct (q x); simpl; apply andb_true_iff; auto.
Qed.

Lemma map_updateOne {A B : Type} (f : A -> B) (q : A -> bool) (u : A -> A)
  (c : list A) :
  (forall x, f (u x) = f x) -> map f (Mongo.updateOne q u c) = map f c.
Proof.
  intros Hu. induction c as [|x c IH]; simpl; [reflexivity|].
  destruct (q x); simpl; congruence.
Qed.

Lemma forallb_deleteOne {A : Type} (P q : A -> bool) (c : list A) :
  forallb P c = true -> forallb P (Mongo.deleteOne q c) = true.
Proof.
  induction c as [|x c IH]; simpl; intros H; [reflexivity|].
  apply andb_true_iff in H as [Hx Hc].
  destruct (q x); simpl; [assumption|]. apply andb_true_iff; auto.
Qed.

Lemma existsb_deleteOne (f : ObjectId -> bool) (q : Budget.t -> bool)
  (bs : list Budget.t) :
  existsb f (map Budget._id bs) = false ->
  existsb f (map Budget._id (Mongo.deleteOne q bs)) = false.
Proof.
  induction bs as [|x bs IH]; simpl; intros H; [reflexivity|].
  apply orb_false_iff in H as [Hx Hbs].
  destruct (q x); simpl; [assumption|]. apply orb_false_iff; auto.
Qed.

Lemma distinct_deleteOne (q : Budget.t -> bool) (bs : list Budget.t) :
  distinct (map Budget._id bs) = true ->
  distinct (map Budget._id (Mongo.deleteOne q bs)) = true.
Proof.
  induction bs as [|x bs IH]; simpl; intros H; [reflexivity|].
  apply andb_true_iff in H as [Hx Hbs]. apply negb_true_iff in Hx.
  destruct (q x); simpl; [assumption|].
  apply andb_true_iff. split; [|auto].
  apply negb_true_iff. now apply existsb_deleteOne.
Qed.

Lemma distinct_snoc (bs : list Budget.t) (b : Budget.t) :
  distinct (map Budget._id bs) = true ->
  existsb (Nat.eqb (Budget._id b)) (map Budget._id bs) = false ->
  distinct (map Budget._id (bs ++ [b])) = true.
Proof.
  induction bs as [|x bs IH]; simpl; intros Hd Hb; [reflexivity|].
  apply andb_true_iff in Hd as [Hx Hd]. apply negb_true_iff in Hx.
  apply orb_false_iff in Hb as [Hbx Hb].
  apply andb_true_iff. split; [|auto].
  apply negb_true_iff. rewrite map_app, existsb_app.
  apply orb_false_iff. split; [exact Hx|]. simpl.
  rewrite Nat.eqb_sym. apply orb_false_iff. split; [exact Hbx|reflexivity].
Qed.

Lemma below_is_fresh (n : ObjectId) (bs : list Budget.t) :
  forallb (fun b => (Budget._id b <? n)%nat) bs = true ->
  existsb (Nat.eqb n) (map Budget._id bs) = false.
Proof.
  induction bs as [|x bs IH]; simpl; intros H; [reflexivity|].
  apply andb_true_iff in H as [Hx Hbs]. apply Nat.ltb_lt in Hx.
  apply orb_false_iff. split; [|auto]. apply Nat.eqb_neq. lia.
Qed.

Lemma below_grows (n : ObjectId) (bs : list Budget.t) :
  forallb (fun b => (Budget._id b <? n)%nat) bs = true ->
  forallb (fun b => (Budget._id b <? S n)%nat) bs = true.
Proof.
  induction bs as [|x bs IH]; simpl; intros H; [reflexivity|].
  apply andb_true_iff in H as [Hx Hbs]. apply Nat.ltb_lt in Hx.
  apply andb_true_iff. split; [|auto]. apply Nat.ltb_lt. lia.
Qed.

Lemma unless_nil (ok : bool) (msg : string) : unless ok msg = [] -> ok = true.
Proof. destruct ok; [reflexivity|discriminate]. Qed.

(** A request that passes [validateBudget] carries fields that pass the
    schema's validators. *)
Lemma validateBudget_fields (req : BudgetReq) (i u : ObjectId) (spent : Z) :
  validateBudget req = [] ->
  Budget.validFields
    (Budget.mk i u (reqCategory req) (reqBudgetAmount req) spent
       (reqMonth req) (reqYear req)) = true.
Proof.
  unfold validateBudget. intros H.
  apply app_eq_nil in H as [H1 H]. apply app_eq_nil in H as [H2 H].
  apply app_eq_nil in H as [H3 H4].
  apply unless_nil in H1, H2, H3, H4.
  unfold Budget.validFields, Budget.validCategory, Budget.validBudgetAmount,
    Budget.validMonth, Budget.validYear.
  cbn [Budget.category Budget.budgetAmount Budget.month Budget.year].
  rewrite H1, H3, H4. rewrite !andb_true_r. simpl.
  apply negb_true_iff, Z.leb_gt in H2. apply Z.leb_le. lia.
Qed.

(** A request that passes [validateTransaction] carries a positive
    amount. *)
Lemma validateTransaction_amount (req : TransactionReq) :
  validateTransaction req = [] -> (0 <? reqAmount req) = true.
Proof.
  unfold validateTransaction. intros H.
  apply app_eq_nil in H as [_ H]. apply app_eq_nil in H as [_ H].
  apply app_eq_nil in H as [H _]. apply unless_nil in H.
  apply negb_true_iff, Z.leb_gt in H. now apply Z.ltb_lt.
Qed.

Lemma saved_keeps (P : Budget.t -> bool) (b : Budget.t) (bs bs' : list Budget.t) :
  (forall v x, P (Budget.setSpentAmount v x) = P x) ->
  BudgetRoutes.save b bs = inr bs' ->
  map Budget._id bs' = map Budget._id bs
  /\ (forallb P bs = true -> forallb P bs' = true).
Proof.
  intros HP. unfold BudgetRoutes.save.
  destruct (Budget.validate b); simpl; [|discriminate].
  intros H. injection H as <-. split.
  - now apply map_updateOne.
  - apply forallb_updateOne. intros x Hx. now rewrite HP.
Qed.

Lemma refreshLoop_keeps (P : Budget.t -> bool) (uid : ObjectId)
  (es : list Transaction.t) (found bs : list Budget.t) :
  (forall v x, P (Budget.setSpentAmount v x) = P x) ->
  map Budget._id (snd (BudgetRoutes.refreshLoop uid es found bs))
  = map Budget._id bs
  /\ (forallb P bs = true ->
      forallb P (snd (BudgetRoutes.refreshLoop uid es found bs)) = true).
Proof.
  intros HP. revert bs. induction found as [|f rest IH]; intros bs; simpl.
  - auto.
  - destruct (BudgetRoutes.save _ bs) as [e|bs'] eqn:E; simpl; [auto|].
    destruct (saved_keeps P _ _ _ HP E) as [Hids Hall].
    destruct (IH bs') as [Hids' Hall']. split.
    + congruence.
    + auto.
Qed.

Lemma invariant_iff (xs es : list Transaction.t) (bs : list Budget.t)
  (n : ObjectId) :
  Server.invariant (mkDb xs es bs n) = true
  <-> distinct (map Budget._id bs) = true
      /\ forallb Budget.validFields bs = true
      /\ forallb (fun e => 0 <? Transaction.amount e) es = true
      /\ forallb (fun b => (Budget._id b <? n)%nat) bs = true.
Proof.
  unfold Server.invariant, wellFormed, Server.idsBelowNext. simpl.
  rewrite !andb_true_iff. tauto.
Qed.

End Invariant.

Section Reachable.

Lemma below_mono (n m : ObjectId) (bs : list Budget.t) :
  (n <= m)%nat ->
  forallb (fun b => (Budget._id b <? n)%nat) bs = true ->
  forallb (fun b => (Budget._id b <? m)%nat) bs = true.
Proof.
  intros Hnm. induction bs as [|x bs IH]; simpl; intros H; [reflexivity|].
  apply andb_true_iff in H as [Hx Hbs]. apply Nat.ltb_lt in Hx.
  apply andb_true_iff. split; [|auto]. apply Nat.ltb_lt. lia.
Qed.

(** A write that keeps the ids and every property blind to
    [spentAmount] keeps the invariant, whatever it does to the cached
    amounts. *)
Lemma spent_only_invariant (xs xs' es es' : list Transaction.t)
  (bs bs' : list Budget.t) (n n' : ObjectId) :
  Server.invariant (mkDb xs es bs n) = true ->
  map Budget._id bs' = map Budget._id bs ->
  (forall P : Budget.t -> bool,
      (forall v x, P (Budget.setSpentAmount v x) = P x) ->
      forallb P bs = true -> forallb P bs' = true) ->
  forallb (fun e => 0 <? Transaction.amount e) es' = true ->
  (n <= n')%nat ->
  Server.invariant (mkDb xs' es' bs' n') = true.
Proof.
  intros Hinv Hids Hblind Hes Hn.
  apply invariant_iff in Hinv as (Hd & Hv & _ & Hb).
  apply invariant_iff. repeat split.
  - now rewrite Hids.
  - apply Hblind; [reflexivity|assumption].
  - assumption.
  - apply Hblind; [reflexivity|]. now apply (below_mono n).
Qed.

Lemma incBudget_ids (uid : ObjectId) (c m : string) (y delta : Z)
  (bs : list Budget.t) :
  map Budget._id (ExpenseRoutes.incBudget uid c m y delta bs)
  = map Budget._id bs.
Proof. now apply map_updateOne. Qed.

Lemma incBudget_blind (uid : ObjectId) (c m : string) (y delta : Z)
  (bs : list Budget.t) (P : Budget.t -> bool) :
  (forall v x, P (Budget.setSpentAmount v x) = P x) ->
  forallb P bs = true ->
  forallb P (ExpenseRoutes.incBudget uid c m y delta bs) = true.
Proof.
  intros HP. apply forallb_updateOne. intros x Hx.
  unfold Budget.incSpentAmount. now rewrite HP.
Qed.

Ltac spent_only xs es bs n :=
  apply (spent_only_invariant xs _ es _ bs _ n);
  [assumption | simpl | simpl | simpl | simpl; lia].

Lemma expense_request_invariant (uid : ObjectId) (r : ExpenseRoutes.request)
  (db : Db) :
  Server.invariant db = true ->
  Server.invariant (ExpenseRoutes.run uid db r) = true.
Proof.
  destruct db as [xs es bs n]. intros Hinv.
  pose proof (proj1 (invariant_iff _ _ _ _) Hinv) as (_ & _ & Hes & _).
  destruct r as [req|id req|id]; simpl.
  - unfold ExpenseRoutes.postExpense, handleValidationErrors.
    destruct (validateTransaction req) eqn:Hv; [|exact Hinv]. simpl.
    spent_only xs es bs n.
    + apply incBudget_ids.
    + intros P. apply incBudget_blind.
    + rewrite forallb_app, Hes. simpl.
      now rewrite (validateTransaction_amount req Hv).
  - unfold ExpenseRoutes.putExpense, handleValidationErrors.
    destruct (validateTransaction req) eqn:Hv; [|exact Hinv]. simpl.
    destruct (Mongo.findOne _ es) as [old|]; [|exact Hinv].
    assert (forallb (fun e => 0 <? Transaction.amount e)
              (Mongo.updateOne (Transaction.isOwn id uid)
                 (Transaction.setFields (reqDescription req) (reqAmount req)
                    (reqTxCategory req) (reqDate req)) es) = true) as Hes'.
    { apply forallb_updateOne; [|assumption]. intros x _. simpl.
      now apply validateTransaction_amount. }
    destruct (Transaction.category old =? reqTxCategory req)%string; simpl.
    + spent_only xs es bs n.
      * apply incBudget_ids.
      * intros P. apply incBudget_blind.
      * exact Hes'.
    + spent_only xs es bs n.
      * now rewrite !incBudget_ids.
      * intros P HP H. apply incBudget_blind; [assumption|].
        now apply incBudget_blind.
      * exact Hes'.
  - unfold ExpenseRoutes.deleteExpense. simpl.
    destruct (Mongo.findOne _ es) as [old|]; [|exact Hinv]. simpl.
    spent_only xs es bs n.
    + apply incBudget_ids.
    + intros P. apply incBudget_blind.
    + now apply forallb_deleteOne.
Qed.

Lemma income_request_invariant (uid : ObjectId) (r : IncomeRoutes.request)
  (db : Db) :
  Server.invariant db = true ->
  Server.invariant (IncomeRoutes.run uid r db) = true.
Proof.
  destruct db as [xs es bs n]. intros Hinv.
  pose proof (proj1 (invariant_iff _ _ _ _) Hinv) as (_ & _ & Hes & _).
  destruct r as [req|id req|id]; simpl;
    unfold IncomeRoutes.postIncome, IncomeRoutes.putIncome,
      IncomeRoutes.deleteIncome, handleValidationErrors.
  - destruct (validateTransaction req); [|exact Hinv]. simpl.
    spent_only xs es bs n; auto.
  - destruct (validateTransaction req); [|exact Hinv]. simpl.
    destruct (Mongo.findOne _ xs); [|exact Hinv]. simpl.
    spent_only xs es bs n; auto.
  - simpl. destruct (Mongo.findOne _ xs); [|exact Hinv]. simpl.
    spent_only xs es bs n; auto.
Qed.

Lemma refresh_invariant (uid : ObjectId) (db : Db) :
  Server.invariant db = true ->
  Server.invariant (snd (BudgetRoutes.postRefresh uid db)) = true.
Proof.
  destruct db as [xs es bs n]. intros Hinv.
  pose proof (proj1 (invariant_iff _ _ _ _) Hinv) as (_ & _ & Hes & _).
  unfold BudgetRoutes.postRefresh. simpl.
  destruct (BudgetRoutes.refreshLoop uid es (Mongo.find (Budget.ownedBy uid) bs) bs)
    as [e bs'] eqn:E.
  assert (bs' = snd (BudgetRoutes.refreshLoop uid es
                       (Mongo.find (Budget.ownedBy uid) bs) bs)) as Hbs'
    by now rewrite E.
  assert (Server.invariant (mkDb xs es bs' n) = true) as H.
  { spent_only xs es bs n; subst bs'.
    - now apply (refreshLoop_keeps (fun _ => true)).
    - intros P HP. now apply refreshLoop_keeps.
    - assumption. }
  destruct e; exact H.
Qed.

Lemma postBudget_invariant (uid : ObjectId) (req : BudgetReq) (db : Db) :
  Server.invariant db = true ->
  Server.invariant (snd (BudgetRoutes.postBudget uid req db)) = true.
Proof.
  destruct db as [xs es bs n]. intros Hinv.
  pose proof (proj1 (invariant_iff _ _ _ _) Hinv) as (Hd & Hv & Hes & Hb).
  unfold BudgetRoutes.postBudget, handleValidationErrors.
  destruct (validateBudget req) eqn:Hreq; [|exact Hinv]. simpl.
  destruct (Mongo.findOne _ bs); [exact Hinv|].
  unfold BudgetRoutes.insert.
  destruct (Budget.validate _); simpl; [|exact Hinv].
  destruct (existsb _ bs); simpl; [exact Hinv|].
  apply invariant_iff.
  cbn [budgetDocs expenseDocs nextId incomeDocs tick withBudgets].
  repeat split.
  - apply distinct_snoc; [assumption|]. simpl. now apply below_is_fresh.
  - rewrite forallb_app, Hv. simpl. rewrite andb_true_r.
    now apply validateBudget_fields.
  - assumption.
  - rewrite forallb_app, (below_mono n (S n) bs) by auto. simpl.
    rewrite andb_true_r. apply Nat.ltb_lt. lia.
Qed.

Lemma putBudget_invariant (uid id : ObjectId) (req : BudgetReq) (db : Db) :
  Server.invariant db = true ->
  Server.invariant (snd (BudgetRoutes.putBudget uid id req db)) = true.
Proof.
  destruct db as [xs es bs n]. intros Hinv.
  pose proof (proj1 (invariant_iff _ _ _ _) Hinv) as (Hd & Hv & Hes & Hb).
  unfold BudgetRoutes.putBudget, handleValidationErrors.
  destruct (validateBudget req) eqn:Hreq; [|exact Hinv]. simpl.
  destruct (Mongo.findOne _ bs) as [found|]; [|exact Hinv].
  destruct (Budget.validFields _); simpl; [|exact Hinv].
  destruct (existsb _ bs); simpl; [exact Hinv|].
  set (own := fun b : Budget.t => Budget.hasId id b && Budget.ownedBy uid b).
  set (set_ := Budget.setFields (reqCategory req) (reqBudgetAmount req)
                 (reqMonth req) (reqYear req)).
  assert (Server.invariant (mkDb xs es (Mongo.updateOne own set_ bs) n) = true)
    as Hmid.
  { apply invariant_iff. repeat split.
    - now rewrite map_updateOne.
    - apply forallb_updateOne; [|assumption]. intros x _.
      now apply validateBudget_fields.
    - assumption.
    - apply forallb_updateOne; [|assumption]. intros x Hx. exact Hx. }
  destruct (BudgetRoutes.save _ (Mongo.updateOne own set_ bs)) as [e|bs'] eqn:E.
  - destruct e; exact Hmid.
  - simpl. spent_only xs es (Mongo.updateOne own set_ bs) n.
    + now apply (saved_keeps (fun _ => true) _ _ _ (fun _ _ => eq_refl) E).
    + intros P HP. now apply (saved_keeps P _ _ _ HP E).
    + assumption.
Qed.

Lemma deleteBudget_invariant (uid id : ObjectId) (db : Db) :
  Server.invariant db = true ->
  Server.invariant (snd (BudgetRoutes.deleteBudget uid id db)) = true.
Proof.
  destruct db as [xs es bs n]. intros Hinv.
  pose proof (proj1 (invariant_iff _ _ _ _) Hinv) as (Hd & Hv & Hes & Hb).
  unfold BudgetRoutes.deleteBudget. simpl.
  destruct (Mongo.findOne _ bs); [|exact Hinv]. simpl.
  apply invariant_iff. repeat split; auto using forallb_deleteOne.
  now apply distinct_deleteOne.
Qed.

Lemma step_invariant (db : Db) (call : ObjectId * Server.request) :
  Server.invariant db = true -> Server.invariant (Server.step db call) = true.
Proof.
  destruct call as [uid r]. destruct r; simpl.
  - apply postBudget_invariant.
  - apply putBudget_invariant.
  - apply deleteBudget_invariant.
  - apply refresh_invariant.
  - apply expense_request_invariant.
  - apply income_request_invariant.
Qed.

(** Whatever requests the routes have served since the empty store, the
    store is well formed: the hypothesis of the refresh and update
    theorems holds of every store the server can be in. *)
Lemma reachable_wellFormed (calls : list (ObjectId * Server.request)) :
  wellFormed (Server.run calls) = true
  /\ distinct (map Budget._id (budgetDocs (Server.run calls))) = true.
Proof.
  assert (Server.invariant (Server.run calls) = true) as H.
  { unfold Server.run.
    assert (Server.invariant Server.empty = true) as H0 by reflexivity.
    revert H0. generalize Server.empty.
    induction calls as [|c calls IH]; simpl; intros db Hdb; [assumption|].
    apply IH. now apply step_invariant. }
  unfold Server.invariant in H. apply andb_true_iff in H as [Hwf _].
  split; [assumption|].
  unfold wellFormed in Hwf. apply andb_true_iff in Hwf as [Hwf _].
  now apply andb_true_iff in Hwf as [Hwf _].
Qed.

End Reachable.

(** ** The scan range of a month *)

Section Filing.


End Filing.

(** ** Writes by key *)

Section Steps.

Lemma sameKey_fields (u : ObjectId) (c m : string) (y : Z) (b : Budget.t) :
  Budget.sameKey u c m y b = true ->
  Budget.userId b = u /\ Budget.category b = c
  /\ Budget.month b = m /\ Budget.year b = y.
Proof.
  unfold Budget.sameKey. intros H.
  apply andb_true_iff in H as [H Hy]. apply andb_true_iff in H as [H Hm].
  apply andb_true_iff in H as [Hu Hc].
  apply Nat.eqb_eq in Hu. apply String.eqb_eq in Hc.
  apply String.eqb_eq in Hm. apply Z.eqb_eq in Hy. auto.
Qed.

(** With one budget a key, an increment by key touches the one budget of
    that key and is a map over the collection. *)
Lemma updateOne_key (u : ObjectId) (c m : string) (y : Z)
  (f : Budget.t -> Budget.t) (bs : list Budget.t) :
  Reconcile.keysUnique bs = true ->
  Mongo.updateOne (Budget.sameKey u c m y) f bs
  = map (fun b => if Budget.sameKey u c m y b then f b else b) bs.
Proof.
  induction bs as [|x bs IH]; simpl; intros H; [reflexivity|].
  apply andb_true_iff in H as [Hx Hbs]. apply negb_true_iff in Hx.
  destruct (Budget.sameKey u c m y x) eqn:E.
  - f_equal. rewrite <- (map_id bs) at 1. apply map_ext_in. intros b Hb.
    destruct (Budget.sameKey u c m y b) eqn:Eb; [|reflexivity].
    destruct (sameKey_fields _ _ _ _ _ E) as (Hu & Hc & Hm & Hy).
    assert (existsb
              (Budget.sameKey (Budget.userId x) (Budget.category x)
                 (Budget.month x) (Budget.year x)) bs = true) as Hyes.
    { apply existsb_exists. exists b. split; [assumption|].
      now rewrite Hu, Hc, Hm, Hy. }
    congruence.
  - f_equal. now apply IH.
Qed.

(** A budget with its cached amount blanked: what is left is what the
    key, the validators of the other fields and the scan look at. *)
Lemma erased_fields (b1 b2 : Budget.t) :
  Budget.setSpentAmount 0 b1 = Budget.setSpentAmount 0 b2 ->
  Budget._id b1 = Budget._id b2 /\ Budget.userId b1 = Budget.userId b2
  /\ Budget.category b1 = Budget.category b2
  /\ Budget.month b1 = Budget.month b2 /\ Budget.year b1 = Budget.year b2.
Proof.
  unfold Budget.setSpentAmount. intros H. injection H. auto.
Qed.

Lemma existsb_map_ext {A B : Type} (f : B -> bool) (h : A -> bool)
  (g : A -> B) (l : list A) :
  (forall x, f (g x) = h x) -> existsb f (map g l) = existsb h l.
Proof.
  intros H. induction l as [|x l IH]; simpl; [reflexivity|].
  now rewrite H, IH.
Qed.

Lemma keysUnique_map (g : Budget.t -> Budget.t) (bs : list Budget.t) :
  (forall b, Budget.setSpentAmount 0 (g b) = Budget.setSpentAmount 0 b) ->
  Reconcile.keysUnique (map g bs) = Reconcile.keysUnique bs.
Proof.
  intros Hg. induction bs as [|x bs IH]; simpl; [reflexivity|].
  rewrite IH. f_equal. f_equal.
  destruct (erased_fields _ _ (Hg x)) as (_ & Hu & Hc & Hm & Hy).
  rewrite Hu, Hc, Hm, Hy. apply existsb_map_ext. intros b.
  unfold Budget.sameKey.
  destruct (erased_fields _ _ (Hg b)) as (_ & Hu' & Hc' & Hm' & Hy').
  now rewrite Hu', Hc', Hm', Hy'.
Qed.

Lemma forallb_map_pred {A B : Type} (P : B -> bool) (g : A -> B) (l : list A) :
  forallb P (map g l) = forallb (fun x => P (g x)) l.
Proof. induction l as [|x l IH]; simpl; congruence. Qed.

Lemma incBudget_keysUnique (uid : ObjectId) (c m : string) (y delta : Z)
  (bs : list Budget.t) :
  Reconcile.keysUnique bs = true ->
  Reconcile.keysUnique (ExpenseRoutes.incBudget uid c m y delta bs) = true.
Proof.
  intros H. unfold ExpenseRoutes.incBudget.
  rewrite updateOne_key by assumption. rewrite keysUnique_map; [assumption|].
  intros b. now destruct (Budget.sameKey uid c m y b).
Qed.

Lemma isOwn_fields (id uid : ObjectId) (es : list Transaction.t)
  (e : Transaction.t) :
  Mongo.findOne (Transaction.isOwn id uid) es = Some e ->
  In e es /\ Transaction._id e = id /\ Transaction.userId e = uid.
Proof.
  intros H. apply find_some in H as [Hin H]. unfold Transaction.isOwn in H.
  apply andb_true_iff in H as [Hi Hu].
  apply Nat.eqb_eq in Hi. apply Nat.eqb_eq in Hu. auto.
Qed.

End Steps.

(** ** What the refresh writes *)

Section RefreshAgain.

Lemma postRefresh_wellFormed (uid : ObjectId) (db : Db) :
  wellFormed db = true -> wellFormed (snd (BudgetRoutes.postRefresh uid db)) = true.
Proof.
  intros Hwf. rewrite (postRefresh_spec uid db Hwf).
  unfold wellFormed in *. simpl.
  apply andb_true_iff in Hwf as [Hwf Hes].
  apply andb_true_iff in Hwf as [Hd Hv].
  rewrite Hes, andb_true_r. apply andb_true_iff. split.
  - rewrite map_map. rewrite (map_ext _ Budget._id); [assumption|].
    intros b. now destruct (Budget.ownedBy uid b).
  - rewrite forallb_map_pred. apply forallb_forall. intros b Hb.
    rewrite forallb_forall in Hv. specialize (Hv b Hb).
    now destruct (Budget.ownedBy uid b).
Qed.

(** X1: what the bulk refresh writes.  On a well-formed store it answers
    200 and sets the cached [spentAmount] of every budget of the user to
    0, whatever the ledger holds and whatever was cached before; the
    budgets of other users, the ledger and the incomes are left as they
    were. *)
Theorem postRefresh_zeroes_own_budgets (uid : ObjectId) (db : Db) :
  wellFormed db = true ->
  BudgetRoutes.postRefresh uid db
  = (message 200 "Budget amounts refreshed successfully",
     withBudgets
       (map (fun b =>
               if Budget.ownedBy uid b then Budget.setSpentAmount 0 b else b)
          (budgetDocs db)) db).
Proof.
  intros Hwf. rewrite (postRefresh_spec uid db Hwf). f_equal. f_equal.
  apply map_ext. intros b. now rewrite recompute_zero.
Qed.

Lemma postRefresh_zeroes_own_budgets_witness :
  BudgetRoutes.postRefresh Sample.owner Fixture.settled
  = (message 200 "Budget amounts refreshed successfully",
     withBudgets
       (map (fun b =>
               if Budget.ownedBy Sample.owner b
               then Budget.setSpentAmount 0 b else b)
          (budgetDocs Fixture.settled)) Fixture.settled).
Proof.
  apply (postRefresh_zeroes_own_budgets Sample.owner Fixture.settled).
  reflexivity.
Defined.

(** X3: the bulk refresh is idempotent: on a well-formed store, a second
    refresh by the same user right after the first answers 200 again and
    leaves the store exactly as the first one left it. *)
Theorem postRefresh_idempotent (uid : ObjectId) (db : Db) :
  wellFormed db = true ->
  BudgetRoutes.postRefresh uid (snd (BudgetRoutes.postRefresh uid db))
  = (message 200 "Budget amounts refreshed successfully",
     snd (BudgetRoutes.postRefresh uid db)).
Proof.
  intros Hwf.
  rewrite (postRefresh_spec uid _ (postRefresh_wellFormed uid db Hwf)).
  rewrite (postRefresh_spec uid db Hwf). simpl. f_equal.
  destruct db as [xs es bs n]. unfold withBudgets. simpl. f_equal.
  rewrite map_map. apply map_ext. intros b.
  destruct (Budget.ownedBy uid b) eqn:E; [|now rewrite E].
  assert (Budget.ownedBy uid (BudgetRoutes.recompute uid es b) = true) as ->
    by exact E.
  reflexivity.
Qed.

Lemma postRefresh_idempotent_witness :
  BudgetRoutes.postRefresh Sample.owner
    (snd (BudgetRoutes.postRefresh Sample.owner Sample.drifted))
  = (message 200 "Budget amounts refreshed successfully",
     snd (BudgetRoutes.postRefresh Sample.owner Sample.drifted)).
Proof.
  apply (postRefresh_idempotent Sample.owner Sample.drifted).
  vm_compute; reflexivity.
Defined.

End RefreshAgain.

(** ** One budget a key, in every reachable store *)

Section UniqueKeys.

Lemma sameKey_sym (a b : Budget.t) :
  Budget.sameKey (Budget.userId a) (Budget.category a) (Budget.month a)
    (Budget.year a) b
  = Budget.sameKey (Budget.userId b) (Budget.category b) (Budget.month b)
      (Budget.year b) a.
Proof.
  unfold Budget.sameKey.
  now rewrite Nat.eqb_sym, (String.eqb_sym (Budget.category b)),
    (String.eqb_sym (Budget.month b)), Z.eqb_sym.
Qed.

Lemma keysUnique_snoc (bs : list Budget.t) (b : Budget.t) :
  Reconcile.keysUnique bs = true ->
  existsb
    (Budget.sameKey (Budget.userId b) (Budget.category b) (Budget.month b)
       (Budget.year b)) bs = false ->
  Reconcile.keysUnique (bs ++ [b]) = true.
Proof.
  induction bs as [|x bs IH]; simpl; intros Hk Hb; [reflexivity|].
  apply andb_true_iff in Hk as [Hx Hk]. apply negb_true_iff in Hx.
  apply orb_false_iff in Hb as [Hbx Hb].
  apply andb_true_iff. split; [|auto].
  apply negb_true_iff. rewrite existsb_app, Hx. simpl.
  now rewrite sameKey_sym, Hbx.
Qed.

Lemma existsb_deleteOne_any {A : Type} (f q : A -> bool) (l : list A) :
  existsb f l = false -> existsb f (Mongo.deleteOne q l) = false.
Proof.
  induction l as [|x l IH]; simpl; intros H; [reflexivity|].
  apply orb_false_iff in H as [Hx Hl].
  destruct (q x); simpl; [assumption|]. apply orb_false_iff; auto.
Qed.

Lemma keysUnique_deleteOne (q : Budget.t -> bool) (bs : list Budget.t) :
  Reconcile.keysUnique bs = true ->
  Reconcile.keysUnique (Mongo.deleteOne q bs) = true.
Proof.
  induction bs as [|x bs IH]; simpl; intros H; [reflexivity|].
  apply andb_true_iff in H as [Hx Hk]. apply negb_true_iff in Hx.
  destruct (q x); simpl; [assumption|].
  apply andb_true_iff. split; [|auto].
  apply negb_true_iff. now apply existsb_deleteOne_any.
Qed.

Lemma in_updateOne {A : Type} (q : A -> bool) (u : A -> A) (l : list A) (y : A) :
  In y (Mongo.updateOne q u l) ->
  In y l \/ exists x, In x l /\ q x = true /\ y = u x.
Proof.
  induction l as [|x l IH]; simpl; [tauto|].
  destruct (q x) eqn:E; simpl.
  - intros [<-|H]; [right; exists x; auto|auto].
  - intros [<-|H]; [auto|].
    destruct (IH H) as [H'|(z & Hz & Hq & ->)]; [auto|].
    right. exists z. auto.
Qed.

(** The write of the budget update keeps one budget a key: the handler
    refuses a key that another budget holds. *)
Lemma keysUnique_setFields (uid id : ObjectId) (c m : string) (a y : Z)
  (bs : list Budget.t) :
  distinct (map Budget._id bs) = true ->
  Reconcile.keysUnique bs = true ->
  existsb (fun b => Budget.sameKey uid c m y b && negb (Budget.hasId id b)) bs
  = false ->
  Reconcile.keysUnique
    (Mongo.updateOne (fun b => Budget.hasId id b && Budget.ownedBy uid b)
       (Budget.setFields c a m y) bs) = true.
Proof.
  induction bs as [|x bs IH]; simpl; intros Hd Hk Hdup; [reflexivity|].
  apply andb_true_iff in Hd as [Hdx Hd]. apply negb_true_iff in Hdx.
  apply andb_true_iff in Hk as [Hkx Hk]. apply negb_true_iff in Hkx.
  apply orb_false_iff in Hdup as [Hdupx Hdup].
  destruct (Budget.hasId id x && Budget.ownedBy uid x) eqn:Eown; simpl.
  - apply andb_true_iff in Eown as [Hid Hu].
    apply Nat.eqb_eq in Hid. apply Nat.eqb_eq in Hu.
    rewrite Hk, andb_true_r. apply negb_true_iff.
    destruct (existsb (Budget.sameKey (Budget.userId x) c m y) bs) eqn:E;
      [|reflexivity].
    apply existsb_exists in E as (b & Hb & Hkey).
    rewrite Hu in Hkey.
    assert (Budget.sameKey uid c m y b && negb (Budget.hasId id b) = false)
      as Hb'.
    { destruct (Budget.sameKey uid c m y b && negb (Budget.hasId id b)) eqn:E';
        [|reflexivity].
      assert (existsb
                (fun b0 => Budget.sameKey uid c m y b0
                           && negb (Budget.hasId id b0)) bs = true)
        by (apply existsb_exists; now exists b).
      congruence. }
    rewrite Hkey in Hb'. simpl in Hb'. apply negb_false_iff in Hb'.
    apply Nat.eqb_eq in Hb'.
    exfalso. apply (distinct_absent _ _ _ Hdx Hb). congruence.
  - rewrite (IH Hd Hk Hdup), andb_true_r. apply negb_true_iff.
    match goal with
    | |- existsb ?f ?l = false => destruct (existsb f l) eqn:E; [|reflexivity]
    end.
    apply existsb_exists in E as (b' & Hb' & Hkey).
    apply in_updateOne in Hb' as [Hin|(b & Hb & Hown & ->)].
    + assert (existsb
                (Budget.sameKey (Budget.userId x) (Budget.category x)
                   (Budget.month x) (Budget.year x)) bs = true)
        by (apply existsb_exists; now exists b').
      congruence.
    + apply andb_true_iff in Hown as [Hid Hu].
      apply Nat.eqb_eq in Hid. apply Nat.eqb_eq in Hu.
      destruct (sameKey_fields _ _ _ _ _ Hkey) as (Hu' & Hc & Hm & Hy).
      simpl in Hu', Hc, Hm, Hy.
      assert (Budget.sameKey uid c m y x = true) as Hx.
      { unfold Budget.sameKey.
        rewrite <- Hu', Hu, Hc, Hm, Hy, Nat.eqb_refl, !String.eqb_refl,
          Z.eqb_refl. reflexivity. }
      rewrite Hx in Hdupx. simpl in Hdupx. apply negb_false_iff in Hdupx.
      apply Nat.eqb_eq in Hdupx.
      exfalso. apply (distinct_absent _ _ _ Hdx Hb). congruence.
Qed.

Lemma save_erased (b : Budget.t) (bs bs' : list Budget.t) :
  BudgetRoutes.save b bs = inr bs' ->
  map (Budget.setSpentAmount 0) bs' = map (Budget.setSpentAmount 0) bs.
Proof.
  unfold BudgetRoutes.save. destruct (Budget.validate b); [|discriminate].
  simpl. intros H. injection H as <-. now apply map_updateOne.
Qed.

Lemma refreshLoop_erased (uid : ObjectId) (es : list Transaction.t)
  (found bs : list Budget.t) :
  map (Budget.setSpentAmount 0) (snd (BudgetRoutes.refreshLoop uid es found bs))
  = map (Budget.setSpentAmount 0) bs.
Proof.
  revert bs. induction found as [|f rest IH]; intros bs; simpl; [reflexivity|].
  destruct (BudgetRoutes.save _ bs) as [e|bs'] eqn:E; simpl; [reflexivity|].
  rewrite IH. now apply save_erased in E.
Qed.

Lemma keysUnique_erased (bs bs' : list Budget.t) :
  map (Budget.setSpentAmount 0) bs' = map (Budget.setSpentAmount 0) bs ->
  Reconcile.keysUnique bs' = Reconcile.keysUnique bs.
Proof.
  intros H.
  rewrite <- (keysUnique_map (Budget.setSpentAmount 0) bs') by reflexivity.
  rewrite <- (keysUnique_map (Budget.setSpentAmount 0) bs) by reflexivity.
  now rewrite H.
Qed.

Lemma find_none_existsb {A : Type} (q : A -> bool) (l : list A) :
  Mongo.findOne q l = None -> existsb q l = false.
Proof.
  unfold Mongo.findOne. induction l as [|x l IH]; simpl; [reflexivity|].
  destruct (q x); [discriminate|]. exact IH.
Qed.

Lemma step_keysUnique (db : Db) (call : ObjectId * Server.request) :
  Server.invariant db = true ->
  Reconcile.keysUnique (budgetDocs db) = true ->
  Reconcile.keysUnique (budgetDocs (Server.step db call)) = true.
Proof.
  intros Hinv Hk. destruct db as [xs es bs n]. simpl in Hk.
  pose proof (proj1 (invariant_iff _ _ _ _) Hinv) as (Hd & _ & _ & _).
  destruct call as [uid r]. destruct r as [req|id req|id| |e|i]; simpl.
  - unfold BudgetRoutes.postBudget, handleValidationErrors.
    destruct (validateBudget req); [|assumption]. simpl.
    destruct (Mongo.findOne _ bs) eqn:Hf; [assumption|].
    unfold BudgetRoutes.insert.
    destruct (Budget.validate _); simpl; [|assumption].
    destruct (existsb _ bs) eqn:Hdup; simpl; [assumption|].
    now apply keysUnique_snoc.
  - unfold BudgetRoutes.putBudget, handleValidationErrors.
    destruct (validateBudget req); [|assumption]. simpl.
    destruct (Mongo.findOne _ bs) as [found|]; [|assumption].
    destruct (Budget.validFields _); simpl; [|assumption].
    destruct (existsb _ bs) eqn:Hdup; simpl; [assumption|].
    pose proof (keysUnique_setFields uid id (reqCategory req) (reqMonth req)
                  (reqBudgetAmount req) (reqYear req) bs Hd Hk Hdup) as Hk1.
    destruct (BudgetRoutes.save _ _) as [e|bs'] eqn:E.
    + destruct e; exact Hk1.
    + simpl. now rewrite (keysUnique_erased _ _ (save_erased _ _ _ E)).
  - unfold BudgetRoutes.deleteBudget. simpl.
    destruct (Mongo.findOne _ bs); [|assumption]. simpl.
    now apply keysUnique_deleteOne.
  - unfold BudgetRoutes.postRefresh. simpl.
    pose proof (refreshLoop_erased uid es (Mongo.find (Budget.ownedBy uid) bs) bs)
      as He.
    destruct (BudgetRoutes.refreshLoop uid es _ bs) as [err bs'].
    simpl in He. destruct err; simpl; now rewrite (keysUnique_erased _ _ He).
  - destruct e as [req|id req|id]; simpl.
    + unfold ExpenseRoutes.postExpense, handleValidationErrors.
      destruct (validateTransaction req); [|assumption]. simpl.
      now apply incBudget_keysUnique.
    + unfold ExpenseRoutes.putExpense, handleValidationErrors.
      destruct (validateTransaction req); [|assumption]. simpl.
      destruct (Mongo.findOne _ es); [|assumption].
      destruct (_ =? _)%string; simpl;
        repeat apply incBudget_keysUnique; assumption.
    + unfold ExpenseRoutes.deleteExpense. simpl.
      destruct (Mongo.findOne _ es); [|assumption]. simpl.
      now apply incBudget_keysUnique.
  - destruct i as [req|id req|id]; simpl;
      unfold IncomeRoutes.postIncome, IncomeRoutes.putIncome,
        IncomeRoutes.deleteIncome, handleValidationErrors.
    + now destruct (validateTransaction req).
    + destruct (validateTransaction req); [|assumption]. simpl.
      now destruct (Mongo.findOne _ xs).
    + simpl. now destruct (Mongo.findOne _ xs).
Qed.

(** X4: in every store that requests to the writing routes (budget
    create, update, delete and refresh, expense and income create, update
    and delete, by any users in any order) can reach from the empty store,
    no two budgets share a key (owner, category, month, year), budget ids
    are distinct, every budget passes the schema's validators of category,
    amount, month and year, and every expense amount is positive. *)
Theorem reachable_store_keeps_invariants
  (calls : list (ObjectId * Server.request)) :
  Reconcile.keysUnique (budgetDocs (Server.run calls)) = true
  /\ distinct (map Budget._id (budgetDocs (Server.run calls))) = true
  /\ forallb Budget.validFields (budgetDocs (Server.run calls)) = true
  /\ forallb (fun e => 0 <? Transaction.amount e)
       (expenseDocs (Server.run calls)) = true.
Proof.
  assert (Server.invariant (Server.run calls) = true
          /\ Reconcile.keysUnique (budgetDocs (Server.run calls)) = true)
    as [Hinv Hk].
  { unfold Server.run.
    assert (Server.invariant Server.empty = true
            /\ Reconcile.keysUnique (budgetDocs Server.empty) = true) as H0
      by (split; reflexivity).
    revert H0. generalize Server.empty.
    induction calls as [|c calls IH]; simpl; intros db [Hi Hk]; [auto|].
    apply IH. split; [now apply step_invariant|now apply step_keysUnique]. }
  split; [assumption|].
  destruct (Server.run calls) as [xs es bs n].
  apply invariant_iff in Hinv as (Hd & Hv & Hes & _). auto.
Qed.

End UniqueKeys.

(** ** What a request does to other users' documents *)

Section Isolation.

Lemma filter_updateOne_other {A : Type} (p q : A -> bool) (u : A -> A)
  (l : list A) :
  (forall x, In x l -> q x = true -> p x = false /\ p (u x) = false) ->
  filter p (Mongo.updateOne q u l) = filter p l.
Proof.
  induction l as [|a l IH]; simpl; intros H; [reflexivity|].
  destruct (q a) eqn:E; simpl.
  - destruct (H a (or_introl eq_refl) E) as [H1 H2]. now rewrite H1, H2.
  - rewrite IH by (intros x Hx; apply H; now right). reflexivity.
Qed.

Lemma filter_deleteOne_other {A : Type} (p q : A -> bool) (l : list A) :
  (forall x, In x l -> q x = true -> p x = false) ->
  filter p (Mongo.deleteOne q l) = filter p l.
Proof.
  induction l as [|a l IH]; simpl; intros H; [reflexivity|].
  destruct (q a) eqn:E; simpl.
  - now rewrite (H a (or_introl eq_refl) E).
  - rewrite IH by (intros x Hx; apply H; now right). reflexivity.
Qed.

Variables uid v : ObjectId.
Hypothesis other : v <> uid.

Lemma not_owned_budget (b : Budget.t) :
  Budget.userId b = uid -> Budget.ownedBy v b = false.
Proof. intros H. unfold Budget.ownedBy. apply Nat.eqb_neq. congruence. Qed.

Lemma not_owned_transaction (x : Transaction.t) :
  Transaction.userId x = uid -> Transaction.ownedBy v x = false.
Proof. intros H. unfold Transaction.ownedBy. apply Nat.eqb_neq. congruence. Qed.

Lemma incBudget_other (c m : string) (y delta : Z) (bs : list Budget.t) :
  filter (Budget.ownedBy v) (ExpenseRoutes.incBudget uid c m y delta bs)
  = filter (Budget.ownedBy v) bs.
Proof.
  apply filter_updateOne_other. intros x _ Hx.
  destruct (sameKey_fields _ _ _ _ _ Hx) as (Hu & _).
  split; now apply not_owned_budget.
Qed.

Lemma isOwn_other (id : ObjectId) (x : Transaction.t) :
  Transaction.isOwn id uid x = true -> Transaction.ownedBy v x = false.
Proof.
  unfold Transaction.isOwn. intros H. apply andb_true_iff in H as [_ H].
  apply Nat.eqb_eq in H. now apply not_owned_transaction.
Qed.

Lemma own_other (id : ObjectId) (b : Budget.t) :
  Budget.hasId id b && Budget.ownedBy uid b = true ->
  Budget.ownedBy v b = false.
Proof.
  intros H. apply andb_true_iff in H as [_ H]. apply Nat.eqb_eq in H.
  now apply not_owned_budget.
Qed.

Lemma save_other (b : Budget.t) (bs bs' : list Budget.t) :
  (forall x, In x bs -> Budget._id x = Budget._id b -> Budget.userId x = uid) ->
  BudgetRoutes.save b bs = inr bs' ->
  filter (Budget.ownedBy v) bs' = filter (Budget.ownedBy v) bs.
Proof.
  intros Hown. unfold BudgetRoutes.save.
  destruct (Budget.validate b); [|discriminate]. simpl.
  intros H. injection H as <-. apply filter_updateOne_other.
  intros x Hx Hid. apply Nat.eqb_eq in Hid.
  split; apply not_owned_budget; simpl; auto.
Qed.

Lemma refreshLoop_other (es : list Transaction.t) (found bs : list Budget.t) :
  (forall f x, In f found -> In x bs -> Budget._id x = Budget._id f ->
     Budget.userId x = uid) ->
  filter (Budget.ownedBy v) (snd (BudgetRoutes.refreshLoop uid es found bs))
  = filter (Budget.ownedBy v) bs.
Proof.
  revert bs. induction found as [|f rest IH]; intros bs Hown; simpl;
    [reflexivity|].
  destruct (BudgetRoutes.save _ bs) as [e|bs'] eqn:E; simpl; [reflexivity|].
  rewrite IH.
  - apply (save_other (BudgetRoutes.recompute uid es f) bs bs'); [|exact E].
    intros x Hx Hid. apply (Hown f x); auto; now left.
  - intros f' x' Hf' Hx' Hid.
    unfold BudgetRoutes.save in E.
    destruct (Budget.validate _); [|discriminate]. simpl in E.
    injection E as <-.
    apply in_updateOne in Hx' as [Hx'|(x & Hx & _ & ->)].
    + apply (Hown f' x'); auto; now right.
    + simpl in *. apply (Hown f' x); auto; now right.
Qed.

(** X5: a request of one user leaves every document of every other user
    as it was: whatever writing route [uid] calls, and whether it
    succeeds or not, the budgets, expenses and incomes owned by another
    user [v] are the same before and after. *)
Theorem other_users_documents_untouched (db : Db) (r : Server.request) :
  distinct (map Budget._id (budgetDocs db)) = true ->
  filter (Budget.ownedBy v) (budgetDocs (Server.step db (uid, r)))
  = filter (Budget.ownedBy v) (budgetDocs db)
  /\ filter (Transaction.ownedBy v) (expenseDocs (Server.step db (uid, r)))
     = filter (Transaction.ownedBy v) (expenseDocs db)
  /\ filter (Transaction.ownedBy v) (incomeDocs (Server.step db (uid, r)))
     = filter (Transaction.ownedBy v) (incomeDocs db).
Proof.
  intros Hd. destruct db as [xs es bs n]. simpl in Hd.
  destruct r as [req|id req|id| |e|i]; simpl.
  - unfold BudgetRoutes.postBudget, handleValidationErrors.
    destruct (validateBudget req); [|auto]. simpl.
    destruct (Mongo.findOne _ bs); [auto|].
    unfold BudgetRoutes.insert.
    destruct (Budget.validate _); simpl; [|auto].
    destruct (existsb _ bs); simpl; [auto|].
    repeat split. rewrite filter_app. simpl.
    rewrite not_owned_budget by reflexivity. apply app_nil_r.
  - unfold BudgetRoutes.putBudget, handleValidationErrors.
    destruct (validateBudget req); [|auto]. simpl.
    destruct (Mongo.findOne _ bs) as [found|] eqn:Hf; [|auto].
    apply find_some in Hf as [Hin Hown].
    destruct (Budget.validFields _); simpl; [|auto].
    destruct (existsb _ bs); simpl; [auto|].
    set (own := fun b : Budget.t => Budget.hasId id b && Budget.ownedBy uid b)
      in *.
    set (set_ := Budget.setFields (reqCategory req) (reqBudgetAmount req)
                   (reqMonth req) (reqYear req)).
    assert (filter (Budget.ownedBy v) (Mongo.updateOne own set_ bs)
            = filter (Budget.ownedBy v) bs) as H1.
    { apply filter_updateOne_other. intros x _ Hx.
      split; [now apply (own_other id)|].
      change (Budget.ownedBy v (set_ x)) with (Budget.ownedBy v x).
      now apply (own_other id). }
    destruct (BudgetRoutes.save _ _) as [e|bs'] eqn:E.
    + destruct e; simpl; auto.
    + simpl. repeat split. rewrite <- H1.
      apply (fun H => save_other _ _ _ H E). simpl.
      intros x Hx Hid.
      assert (Budget.userId found = uid) as Hu.
      { unfold own in Hown. apply andb_true_iff in Hown as [_ Hu].
        now apply Nat.eqb_eq in Hu. }
      apply in_updateOne in Hx as [Hx|(x0 & Hx0 & Hq & ->)].
      * now rewrite (distinct_unique bs x found Hd Hx Hin Hid).
      * simpl. unfold own in Hq. apply andb_true_iff in Hq as [_ Hq].
        now apply Nat.eqb_eq in Hq.
  - unfold BudgetRoutes.deleteBudget. simpl.
    destruct (Mongo.findOne _ bs); [|auto]. simpl. repeat split.
    apply filter_deleteOne_other. intros x _. apply (own_other id).
  - unfold BudgetRoutes.postRefresh. simpl.
    pose proof (refreshLoop_other es (Mongo.find (Budget.ownedBy uid) bs) bs)
      as H.
    destruct (BudgetRoutes.refreshLoop uid es _ bs) as [err bs'].
    simpl in H.
    assert (filter (Budget.ownedBy v) bs' = filter (Budget.ownedBy v) bs) as H'.
    { apply H. intros f x Hf Hx Hid. apply filter_In in Hf as [Hf Hu].
      rewrite (distinct_unique bs x f Hd Hx Hf Hid).
      now apply Nat.eqb_eq in Hu. }
    destruct err; simpl; auto.
  - destruct e as [req|id req|id]; simpl.
    + unfold ExpenseRoutes.postExpense, handleValidationErrors.
      destruct (validateTransaction req); [|auto]. simpl.
      split; [apply incBudget_other|]. split; [|reflexivity].
      rewrite filter_app. simpl.
      rewrite not_owned_transaction by reflexivity. apply app_nil_r.
    + unfold ExpenseRoutes.putExpense, handleValidationErrors.
      destruct (validateTransaction req); [|auto]. simpl.
      destruct (Mongo.findOne _ es); [|auto].
      assert (forall u_,
                (forall x, Transaction.userId (u_ x) = Transaction.userId x) ->
                filter (Transaction.ownedBy v)
                  (Mongo.updateOne (Transaction.isOwn id uid) u_ es)
                = filter (Transaction.ownedBy v) es) as Hes.
      { intros u_ Hu. apply filter_updateOne_other. intros x _ Hx.
        split; [now apply (isOwn_other id)|].
        unfold Transaction.ownedBy. rewrite Hu.
        now apply (isOwn_other id). }
      destruct (_ =? _)%string; simpl.
      * split; [apply incBudget_other|]. split; [|reflexivity].
        now apply Hes.
      * split; [now rewrite !incBudget_other|]. split; [|reflexivity].
        now apply Hes.
    + unfold ExpenseRoutes.deleteExpense. simpl.
      destruct (Mongo.findOne _ es); [|auto]. simpl.
      split; [apply incBudget_other|]. split; [|reflexivity].
      apply filter_deleteOne_other. intros x _. apply (isOwn_other id).
  - destruct i as [req|id req|id]; simpl;
      unfold IncomeRoutes.postIncome, IncomeRoutes.putIncome,
        IncomeRoutes.deleteIncome, handleValidationErrors.
    + destruct (validateTransaction req); [|auto]. simpl.
      repeat split. rewrite filter_app. simpl.
      rewrite not_owned_transaction by reflexivity. apply app_nil_r.
    + destruct (validateTransaction req); [|auto]. simpl.
      destruct (Mongo.findOne _ xs); [|auto]. simpl. repeat split.
      apply filter_updateOne_other. intros x _ Hx.
      split; [now apply (isOwn_other id)|].
      now apply (isOwn_other id).
    + simpl. destruct (Mongo.findOne _ xs); [|auto]. simpl. repeat split.
      apply filter_deleteOne_other. intros x _. apply (isOwn_other id).
Qed.

End Isolation.

Lemma other_users_documents_untouched_witness :
  filter (Budget.ownedBy Sample.other)
    (budgetDocs
       (Server.step Sample.drifted (Sample.owner, Server.DeleteBudget 13)))
  = filter (Budget.ownedBy Sample.other) (budgetDocs Sample.drifted)
  /\ filter (Transaction.ownedBy Sample.other)
       (expenseDocs
          (Server.step Sample.drifted (Sample.owner, Server.DeleteBudget 13)))
     = filter (Transaction.ownedBy Sample.other) (expenseDocs Sample.drifted)
  /\ filter (Transaction.ownedBy Sample.other)
       (incomeDocs
          (Server.step Sample.drifted (Sample.owner, Server.DeleteBudget 13)))
     = filter (Transaction.ownedBy Sample.other) (incomeDocs Sample.drifted).
Proof.
  apply (other_users_documents_untouched Sample.owner Sample.other).
  - vm_compute. discriminate.
  - vm_compute. reflexivity.
Defined.

(** ** Outcomes of budget create and update *)

Section BudgetOutcomes.

(** X6: what a budget create does to the store.  It answers 201 only
    when the request passes field validation and no budget of the user
    holds the key; it then appends, and returns, one budget with the next
    id, the request's fields and [spentAmount] 0, whatever the ledger
    holds for that bucket, and changes nothing else.  With any other
    answer the store is unchanged. *)
Theorem postBudget_outcomes (uid : ObjectId) (req : BudgetReq) (db : Db) :
  (status (fst (BudgetRoutes.postBudget uid req db)) = 201 ->
   validateBudget req = []
   /\ existsb
        (Budget.sameKey uid (reqCategory req) (reqMonth req) (reqYear req))
        (budgetDocs db) = false
   /\ BudgetRoutes.postBudget uid req db
      = (json 201
           (Budget.mk (nextId db) uid (reqCategory req) (reqBudgetAmount req)
              0 (reqMonth req) (reqYear req)),
         tick
           (withBudgets
              (budgetDocs db
               ++ [Budget.mk (nextId db) uid (reqCategory req)
                     (reqBudgetAmount req) 0 (reqMonth req) (reqYear req)])
              db)))
  /\ (status (fst (BudgetRoutes.postBudget uid req db)) <> 201 ->
      snd (BudgetRoutes.postBudget uid req db) = db).
Proof.
  unfold BudgetRoutes.postBudget, handleValidationErrors.
  destruct (validateBudget req) as [|e0 errs] eqn:Hreq;
    [|split; [discriminate|reflexivity]].
  destruct (Mongo.findOne _ (budgetDocs db)) as [existing|] eqn:Hf;
    [split; [discriminate|reflexivity]|].
  rewrite spentAmount_zero. unfold BudgetRoutes.insert.
  cbn [Budget.userId Budget.category Budget.month Budget.year].
  destruct (Budget.validate _); cbn [negb];
    [|split; [discriminate|reflexivity]].
  rewrite (find_none_existsb _ _ Hf).
  split; [|intros H; now contradiction H].
  intros _. repeat split; reflexivity.
Qed.


End BudgetOutcomes.

(** ** Listings *)

Section SortFacts.
Context {A : Type} (before : A -> A -> bool).

Lemma insertSorted_perm (x : A) (l : list A) :
  Permutation (Query.insertSorted before x l) (x :: l).
Proof.
  induction l as [|y l IH]; simpl; [apply Permutation_refl|].
  destruct (before x y); [apply Permutation_refl|].
  apply perm_trans with (y :: x :: l); [now apply perm_skip|apply perm_swap].
Qed.

Lemma sort_perm (l : list A) : Permutation (Query.sort before l) l.
Proof.
  induction l as [|x l IH]; simpl; [apply perm_nil|].
  apply perm_trans with (x :: Query.sort before l);
    [apply insertSorted_perm|now apply perm_skip].
Qed.

Hypothesis total : forall a b, before a b = false -> before b a = true.

Lemma insertSorted_sorted (x : A) (l : list A) :
  Sorted (fun a b => before a b = true) l ->
  Sorted (fun a b => before a b = true) (Query.insertSorted before x l).
Proof.
  induction l as [|y l IH]; simpl; intros Hs.
  - repeat constructor.
  - destruct (before x y) eqn:E.
    + constructor; [assumption|]. now constructor.
    + apply Sorted_inv in Hs as [Hs Hhd].
      constructor; [now apply IH|].
      destruct l as [|z l]; simpl.
      * constructor. now apply total.
      * destruct (before x z); constructor; [now apply total|].
        now apply HdRel_inv in Hhd.
Qed.

Lemma sort_sorted (l : list A) :
  Sorted (fun a b => before a b = true) (Query.sort before l).
Proof.
  induction l as [|x l IH]; simpl; [constructor|].
  now apply insertSorted_sorted.
Qed.

End SortFacts.

Lemma Sorted_weaken {A : Type} (R S : A -> A -> Prop) (l : list A) :
  (forall a b, R a b -> S a b) -> Sorted R l -> Sorted S l.
Proof.
  intros H. induction 1 as [|a l Hs IH Hhd]; constructor; [assumption|].
  destruct Hhd; constructor. auto.
Qed.

Lemma date_leb_total (a b : Date.t) :
  Date.leb a b = false -> Date.leb b a = true.
Proof.
  intros H. apply leb_iff.
  destruct (Date.leb a b) eqn:E; [discriminate|].
  assert (~ (Date.leb a b = true)) as Hn by congruence.
  rewrite leb_iff in Hn. lia.
Qed.

(** X8: the budget list returns exactly the budgets of the user, each
    once, ordered by year from the latest down and, within a year, by
    month name in string order; the store is not touched. *)
Theorem getBudgets_own_budgets_in_order (uid : ObjectId) (db : Db) :
  exists l : list Budget.t,
    BudgetReads.getBudgets uid db = (json 200 l, db)
    /\ Permutation l (filter (Budget.ownedBy uid) (budgetDocs db))
    /\ (forall b, In b l <-> In b (budgetDocs db) /\ Budget.userId b = uid)
    /\ Sorted
         (fun a b =>
            Budget.year b < Budget.year a
            \/ (Budget.year a = Budget.year b
                /\ String.leb (Budget.month a) (Budget.month b) = true)) l.
Proof.
  eexists. split; [reflexivity|].
  pose proof (sort_perm BudgetReads.before
                (Mongo.find (Budget.ownedBy uid) (budgetDocs db))) as Hp.
  split; [exact Hp|]. split.
  - intros b. split.
    + intros Hb. apply (Permutation_in _ Hp) in Hb.
      apply filter_In in Hb as [Hb Hu]. split; [assumption|].
      now apply Nat.eqb_eq in Hu.
    + intros [Hb Hu]. apply (Permutation_in _ (Permutation_sym Hp)).
      apply filter_In. split; [assumption|]. now apply Nat.eqb_eq.
  - apply (Sorted_weaken (fun a b => BudgetReads.before a b = true)).
    + intros a b. unfold BudgetReads.before. intros H.
      apply orb_true_iff in H as [H|H]; [left; now apply Z.ltb_lt|].
      apply andb_true_iff in H as [Hy Hm]. apply Z.eqb_eq in Hy. auto.
    + apply sort_sorted. intros a b. unfold BudgetReads.before. intros H.
      apply orb_false_iff in H as [H1 H2]. apply Z.ltb_ge in H1.
      destruct (Z.ltb_spec (Budget.year a) (Budget.year b)) as [|Hge];
        [reflexivity|]. simpl.
      assert (Budget.year a = Budget.year b) as Hy by lia.
      rewrite Hy, Z.eqb_refl in H2 |- *. simpl in H2 |- *.
      destruct (String.leb_total (Budget.month a) (Budget.month b)); congruence.
Qed.

(** X9: the expense list and the income list return exactly the user's
    documents of the collection, each once, latest date first; the store
    is not touched. *)
Theorem transaction_lists_own_latest_first (uid : ObjectId) (db : Db) :
  (exists l : list Transaction.t,
      TransactionReads.getExpenses uid db = (json 200 l, db)
      /\ Permutation l (filter (Transaction.ownedBy uid) (expenseDocs db))
      /\ Sorted
           (fun a b =>
              Date.leb (Transaction.date b) (Transaction.date a) = true) l)
  /\ (exists l : list Transaction.t,
        TransactionReads.getIncomes uid db = (json 200 l, db)
        /\ Permutation l (filter (Transaction.ownedBy uid) (incomeDocs db))
        /\ Sorted
             (fun a b =>
                Date.leb (Transaction.date b) (Transaction.date a) = true) l).
Proof.
  assert (Htotal : forall a b,
             TransactionReads.before a b = false ->
             TransactionReads.before b a = true)
    by (intros a b; apply date_leb_total).
  split; eexists; (split; [reflexivity|]); split;
    try apply sort_perm; now apply sort_sorted.
Qed.

(** X10: a read by id, on the [:id] parameter as it arrives.  A
    malformed id is answered 500.  A well-formed one is answered 200 with
    a document that the collection holds under that id for the signed-in
    user, or 404 when it holds none, and so for every document of another
    user.  This holds for budgets, expenses and incomes alike, and the
    store is not touched. *)
Theorem reads_by_id_only_own (uid : ObjectId) (id : Route.Param) (db : Db) :
  (snd (BudgetReads.getBudget uid id db) = db
   /\ snd (TransactionReads.getExpense uid id db) = db
   /\ snd (TransactionReads.getIncome uid id db) = db)
  /\ (id = Route.Malformed ->
      fst (BudgetReads.getBudget uid id db)
      = message 500 "Failed to fetch budget"
      /\ fst (TransactionReads.getExpense uid id db)
         = message 500 "Failed to fetch expense"
      /\ fst (TransactionReads.getIncome uid id db)
         = message 500 "Failed to fetch income")
  /\ (forall i : ObjectId,
        id = Route.Spells i ->
        ((exists b, fst (BudgetReads.getBudget uid id db) = json 200 b
                    /\ In b (budgetDocs db)
                    /\ Budget._id b = i /\ Budget.userId b = uid)
         \/ (fst (BudgetReads.getBudget uid id db)
             = message 404 "Budget not found"
             /\ forall b, In b (budgetDocs db) ->
                          Budget._id b = i -> Budget.userId b <> uid))
        /\ ((exists e, fst (TransactionReads.getExpense uid id db) = json 200 e
                       /\ In e (expenseDocs db)
                       /\ Transaction._id e = i /\ Transaction.userId e = uid)
            \/ (fst (TransactionReads.getExpense uid id db)
                = message 404 "Expense not found"
                /\ forall e, In e (expenseDocs db) ->
                             Transaction._id e = i ->
                             Transaction.userId e <> uid))
        /\ ((exists e, fst (TransactionReads.getIncome uid id db) = json 200 e
                       /\ In e (incomeDocs db)
                       /\ Transaction._id e = i /\ Transaction.userId e = uid)
            \/ (fst (TransactionReads.getIncome uid id db)
                = message 404 "Income not found"
                /\ forall e, In e (incomeDocs db) ->
                             Transaction._id e = i ->
                             Transaction.userId e <> uid))).
Proof.
  split; [|split].
  - unfold BudgetReads.getBudget, TransactionReads.getExpense,
      TransactionReads.getIncome.
    destruct id as [i|]; [|auto].
    repeat split; destruct (Mongo.findOne _ _); reflexivity.
  - intros ->. auto.
  - intros i ->.
    assert (Htx : forall es e,
               Mongo.findOne (Transaction.isOwn i uid) es = None ->
               In e es -> Transaction._id e = i -> Transaction.userId e <> uid).
    { intros es e Hf He Hid Hu. pose proof (find_none _ _ Hf e He) as H.
      unfold Transaction.isOwn in H. now rewrite Hid, Hu, !Nat.eqb_refl in H. }
    split; [|split].
    + unfold BudgetReads.getBudget.
      destruct (Mongo.findOne _ (budgetDocs db)) as [b|] eqn:Hf.
      * left. exists b. apply find_some in Hf as [Hin H].
        apply andb_true_iff in H as [Hi Hu].
        apply Nat.eqb_eq in Hi. apply Nat.eqb_eq in Hu. auto.
      * right. split; [reflexivity|]. intros b Hb Hid Hu.
        pose proof (find_none _ _ Hf b Hb) as H. simpl in H.
        unfold Budget.hasId, Budget.ownedBy in H.
        now rewrite Hid, Hu, !Nat.eqb_refl in H.
    + unfold TransactionReads.getExpense.
      destruct (Mongo.findOne _ (expenseDocs db)) as [e|] eqn:Hf.
      * left. exists e. destruct (isOwn_fields _ _ _ _ Hf) as (? & ? & ?). auto.
      * right. split; [reflexivity|]. intros e. now apply Htx.
    + unfold TransactionReads.getIncome.
      destruct (Mongo.findOne _ (incomeDocs db)) as [e|] eqn:Hf.
      * left. exists e. destruct (isOwn_fields _ _ _ _ Hf) as (? & ? & ?). auto.
      * right. split; [reflexivity|]. intros e. now apply Htx.
Qed.

(** ** Category breakdowns *)

Section Breakdown.

Lemma addToGroup_count (c : string) (a : Z) (gs : list Aggregate.CategoryStat) :
  Totals.countOfStats (Aggregate.addToGroup c a gs)
  = Totals.countOfStats gs + 1.
Proof.
  induction gs as [|g gs IH]; simpl; [lia|].
  destruct (Aggregate.name g =? c)%string; simpl; lia.
Qed.

Lemma addToGroup_names (c : string) (a : Z) (gs : list Aggregate.CategoryStat)
  (x : string) :
  In x (map Aggregate.name (Aggregate.addToGroup c a gs))
  <-> x = c \/ In x (map Aggregate.name gs).
Proof.
  induction gs as [|g gs IH]; simpl; [intuition|].
  destruct (String.eqb_spec (Aggregate.name g) c) as [E|E]; simpl.
  - rewrite E. intuition.
  - rewrite IH. intuition.
Qed.

Lemma addToGroup_NoDup (c : string) (a : Z) (gs : list Aggregate.CategoryStat) :
  NoDup (map Aggregate.name gs) ->
  NoDup (map Aggregate.name (Aggregate.addToGroup c a gs)).
Proof.
  induction gs as [|g gs IH]; simpl; intros H.
  - constructor; [auto|constructor].
  - apply NoDup_cons_iff in H as [Hg H].
    destruct (String.eqb_spec (Aggregate.name g) c) as [E|E]; simpl.
    + constructor; [now rewrite <- E|assumption].
    + constructor; [|auto]. rewrite addToGroup_names. intuition.
Qed.

(** Grouping keeps the number of the documents and yields one group a
    category. *)
Lemma groupByCategory_facts (docs : list Transaction.t) :
  Totals.countOfStats (Aggregate.groupByCategory docs)
  = Z.of_nat (List.length docs)
  /\ NoDup (map Aggregate.name (Aggregate.groupByCategory docs)).
Proof.
  unfold Aggregate.groupByCategory.
  assert (forall acc,
    let gs := fold_left
                (fun gs e =>
                   Aggregate.addToGroup (Transaction.category e)
                     (Transaction.amount e) gs) docs acc in
    Totals.countOfStats gs
    = Totals.countOfStats acc + Z.of_nat (List.length docs)
    /\ (NoDup (map Aggregate.name acc) -> NoDup (map Aggregate.name gs)))
    as H.
  { induction docs as [|e docs IH]; intros acc; simpl.
    - split; [lia|auto].
    - specialize (IH (Aggregate.addToGroup (Transaction.category e)
                        (Transaction.amount e) acc)).
      simpl in IH. destruct IH as (H2 & H3). split.
      + rewrite H2, addToGroup_count. lia.
      + intros Hn. apply H3. now apply addToGroup_NoDup. }
  specialize (H []). simpl in H. destruct H as (H2 & H3).
  split; [assumption|]. apply H3. constructor.
Qed.

Lemma insertDesc_perm (g : Aggregate.CategoryStat)
  (l : list Aggregate.CategoryStat) :
  Permutation (Aggregate.insertDesc g l) (g :: l).
Proof.
  induction l as [|h l IH]; simpl; [apply Permutation_refl|].
  destruct (Aggregate.total h <? Aggregate.total g); [apply Permutation_refl|].
  apply perm_trans with (h :: g :: l); [now apply perm_skip|apply perm_swap].
Qed.

Lemma sortDesc_perm (gs : list Aggregate.CategoryStat) :
  Permutation (Aggregate.sortDesc gs) gs.
Proof.
  unfold Aggregate.sortDesc.
  induction gs as [|g gs IH]; simpl; [apply perm_nil|].
  apply perm_trans with (g :: fold_right Aggregate.insertDesc [] gs);
    [apply insertDesc_perm|now apply perm_skip].
Qed.

Lemma insertDesc_sorted (g : Aggregate.CategoryStat)
  (l : list Aggregate.CategoryStat) :
  Sorted (fun a b => Aggregate.total b <= Aggregate.total a) l ->
  Sorted (fun a b => Aggregate.total b <= Aggregate.total a)
    (Aggregate.insertDesc g l).
Proof.
  induction l as [|h l IH]; simpl; intros Hs.
  - repeat constructor.
  - destruct (Z.ltb_spec (Aggregate.total h) (Aggregate.total g)) as [Hlt|Hge].
    + constructor; [assumption|]. constructor. lia.
    + apply Sorted_inv in Hs as [Hs Hhd].
      constructor; [now apply IH|].
      destruct l as [|z l]; simpl.
      * now constructor.
      * destruct (Aggregate.total z <? Aggregate.total g); constructor;
          [assumption|]. now apply HdRel_inv in Hhd.
Qed.

Lemma sortDesc_sorted (gs : list Aggregate.CategoryStat) :
  Sorted (fun a b => Aggregate.total b <= Aggregate.total a)
    (Aggregate.sortDesc gs).
Proof.
  unfold Aggregate.sortDesc.
  induction gs as [|g gs IH]; simpl; [constructor|].
  now apply insertDesc_sorted.
Qed.

Lemma countOfStats_perm (l l' : list Aggregate.CategoryStat) :
  Permutation l l' -> Totals.countOfStats l = Totals.countOfStats l'.
Proof.
  induction 1 as [|x l l' Hp IH|x y l|l l' l'' _ IH1 _ IH2]; simpl; lia.
Qed.

(** What every sorted category breakdown of a list of matched documents
    satisfies. *)
Lemma breakdown_facts (matched : list Transaction.t) :
  let gs := Aggregate.sortDesc (Aggregate.groupByCategory matched) in
  Totals.countOfStats gs = Z.of_nat (List.length matched)
  /\ NoDup (map Aggregate.name gs)
  /\ Sorted (fun a b => Aggregate.total b <= Aggregate.total a) gs.
Proof.
  intros gs.
  destruct (groupByCategory_facts matched) as (H2 & H3).
  pose proof (sortDesc_perm (Aggregate.groupByCategory matched)) as Hp.
  repeat split.
  - unfold gs. now rewrite (countOfStats_perm _ _ Hp).
  - apply (Permutation_NoDup (Permutation_sym (Permutation_map _ Hp)) H3).
  - apply sortDesc_sorted.
Qed.

Lemma addToGroup_counts (c : string) (a : Z) (gs : list Aggregate.CategoryStat) :
  Forall (fun g => 1 <= Aggregate.count g) gs ->
  Forall (fun g => 1 <= Aggregate.count g) (Aggregate.addToGroup c a gs).
Proof.
  induction 1 as [|g gs Hg Hgs IH]; simpl.
  - constructor; [simpl; lia|constructor].
  - destruct (Aggregate.name g =? c)%string; constructor; simpl; auto; lia.
Qed.

(** Every group counts at least one document, and the groups are the
    categories of the documents. *)
Lemma groupByCategory_groups (docs : list Transaction.t) :
  Forall (fun g => 1 <= Aggregate.count g) (Aggregate.groupByCategory docs)
  /\ (forall c, In c (map Aggregate.name (Aggregate.groupByCategory docs))
                <-> In c (map Transaction.category docs)).
Proof.
  unfold Aggregate.groupByCategory.
  assert (forall acc,
    let gs := fold_left
                (fun gs e =>
                   Aggregate.addToGroup (Transaction.category e)
                     (Transaction.amount e) gs) docs acc in
    (Forall (fun g => 1 <= Aggregate.count g) acc ->
     Forall (fun g => 1 <= Aggregate.count g) gs)
    /\ (forall c, In c (map Aggregate.name gs)
                  <-> In c (map Aggregate.name acc)
                      \/ In c (map Transaction.category docs))) as H.
  { induction docs as [|e docs IH]; intros acc; simpl.
    - split; [auto|]. intros c. tauto.
    - specialize (IH (Aggregate.addToGroup (Transaction.category e)
                        (Transaction.amount e) acc)).
      simpl in IH. destruct IH as [H1 H2]. split.
      + intros Hacc. apply H1. now apply addToGroup_counts.
      + intros c. rewrite H2, addToGroup_names. intuition. }
  specialize (H []). simpl in H. destruct H as [H1 H2].
  split; [apply H1; constructor|]. intros c. rewrite H2. tauto.
Qed.

(** X11: the income and the expense statistics match no document.  The
    [$match] of both handlers starts from [{ userId: req.userId }], the
    session's string, which equals no stored [ObjectId] in a pipeline; so
    whatever the user holds and whatever dates are asked for, the answer
    is 200 with the zeroed summary and no category, and the store is not
    touched. *)
Theorem statistics_match_no_document (uid : ObjectId)
  (startDate endDate : option Date.t) (db : Db) :
  ExpenseStats.getStatsSummary uid startDate endDate db
  = (json 200 (ExpenseStats.mkStats (ExpenseStats.mkSummary 0 0 (0, 1)) []),
     db)
  /\ IncomeStats.getStatsSummary uid startDate endDate db
     = (json 200 (IncomeStats.mkStats (IncomeStats.mkSummary 0 0 (0, 1)) []),
        db).
Proof.
  assert (forall docs : list Transaction.t,
             Mongo.find
               (ExpenseStats.matchStage (Filter.Str uid) startDate endDate) docs
             = []) as Hnone.
  { intros docs. unfold Mongo.find.
    induction docs as [|x docs IH]; [reflexivity|exact IH]. }
  unfold ExpenseStats.getStatsSummary, IncomeStats.getStatsSummary.
  now rewrite !Hnone.
Qed.

End Breakdown.

Section TopTen.

Lemma firstn_sorted {A : Type} (R : A -> A -> Prop) (n : nat) (l : list A) :
  Sorted R l -> Sorted R (firstn n l).
Proof.
  intros H. revert n. induction H as [|a l Hs IH Hhd]; intros n.
  - rewrite firstn_nil. constructor.
  - destruct n as [|n]; simpl; [constructor|].
    constructor; [apply IH|].
    destruct Hhd; [rewrite firstn_nil; constructor|].
    destruct n; simpl; constructor. assumption.
Qed.

Lemma firstn_NoDup {A : Type} (n : nat) (l : list A) :
  NoDup l -> NoDup (firstn n l).
Proof.
  intros H. revert n. induction H as [|a l Hin Hn IH]; intros n.
  - rewrite firstn_nil. constructor.
  - destruct n as [|n]; simpl; constructor; [|apply IH].
    intros Hf. apply Hin. rewrite <- (firstn_skipn n l).
    apply in_or_app. now left.
Qed.

Lemma totalIn_sum (uid : ObjectId) (lo hi : Date.t) (docs : list Transaction.t) :
  Aggregate.totalIn uid lo hi docs
  = Ledger.sumOfAmounts (filter (Aggregate.inRange uid lo hi) docs).
Proof. unfold Aggregate.totalIn. apply totalOrZero_groupTotal. Qed.

Lemma firstn_count_le (n : nat) (gs : list Aggregate.CategoryStat) :
  Forall (fun g => 1 <= Aggregate.count g) gs ->
  Totals.countOfStats (firstn n gs) <= Totals.countOfStats gs.
Proof.
  intros H. revert n. induction H as [|g gs Hg Hgs IH]; intros n.
  - now rewrite firstn_nil.
  - destruct n as [|n]; simpl.
    + assert (0 <= Totals.countOfStats gs)
        by (specialize (IH 0%nat); simpl in IH; lia).
      lia.
    + specialize (IH n). lia.
Qed.

(** X12: the dashboard's category breakdown.  It holds at most ten
    groups, one a category name, largest amount first; every group is the
    category of an expense of the user dated within the period's range
    and counts at least one; the counts sum to no more than the number of
    those expenses, and when they have at most ten categories every
    category has its group and the counts sum to exactly that number.
    The balance is the total income minus the total expenses. *)
Theorem dashboard_category_data_capped (uid : ObjectId) (period : string)
  (clock : Date.t) (db : Db) :
  exists data : Dashboard.Data,
    Dashboard.getDashboard uid period clock db = (json 200 data, db)
    /\ let matched :=
         filter
           (Aggregate.inRange uid (fst (Dashboard.dateRange data))
              (snd (Dashboard.dateRange data))) (expenseDocs db) in
       (List.length (Dashboard.categoryData data) <= 10)%nat
       /\ NoDup (map Aggregate.name (Dashboard.categoryData data))
       /\ Sorted (fun a b => Aggregate.total b <= Aggregate.total a)
            (Dashboard.categoryData data)
       /\ Forall
            (fun g =>
               1 <= Aggregate.count g
               /\ In (Aggregate.name g) (map Transaction.category matched))
            (Dashboard.categoryData data)
       /\ Totals.countOfStats (Dashboard.categoryData data)
          <= Z.of_nat (List.length matched)
       /\ ((List.length (Aggregate.groupByCategory matched) <= 10)%nat ->
           Totals.countOfStats (Dashboard.categoryData data)
           = Z.of_nat (List.length matched)
           /\ forall c, In c (map Transaction.category matched) ->
                        In c (map Aggregate.name (Dashboard.categoryData data)))
       /\ Dashboard.balance data
          = Dashboard.totalIncome data - Dashboard.totalExpenses data.
Proof.
  unfold Dashboard.getDashboard.
  destruct (Dashboard.periodRange period clock) as [now [s e]].
  eexists. split; [reflexivity|].
  cbn [Dashboard.categoryData Dashboard.totalExpenses Dashboard.totalIncome
       Dashboard.balance Dashboard.dateRange fst snd].
  unfold Mongo.find.
  set (matched := filter (Aggregate.inRange uid s e) (expenseDocs db)).
  cbv zeta.
  destruct (breakdown_facts matched) as (B2 & B3 & B4).
  destruct (groupByCategory_groups matched) as [G1 G2].
  pose proof (sortDesc_perm (Aggregate.groupByCategory matched)) as Hp.
  set (sorted := Aggregate.sortDesc (Aggregate.groupByCategory matched)) in *.
  assert (Forall (fun g => 1 <= Aggregate.count g) sorted) as Hone
    by exact (Permutation_Forall (Permutation_sym Hp) G1).
  assert (forall c, In c (map Aggregate.name sorted)
                    <-> In c (map Transaction.category matched)) as Hnames.
  { intros c. rewrite <- G2. split; apply Permutation_in.
    - apply Permutation_map, Hp.
    - apply Permutation_sym, Permutation_map, Hp. }
  split; [apply firstn_le_length|].
  split; [rewrite <- firstn_map; now apply firstn_NoDup|].
  split; [now apply firstn_sorted|].
  split; [|split; [|split; [|reflexivity]]].
  - apply Forall_forall. intros g Hg.
    assert (In g sorted) as Hin.
    { rewrite <- (firstn_skipn 10 sorted). apply in_or_app. now left. }
    split; [exact (proj1 (Forall_forall _ _) Hone g Hin)|].
    apply Hnames. now apply in_map.
  - rewrite <- B2. now apply firstn_count_le.
  - intros Hlen.
    assert (firstn 10 sorted = sorted) as ->.
    { apply firstn_all2. now rewrite (Permutation_length Hp). }
    split; [exact B2|]. intros c Hc. now apply Hnames.
Qed.

End TopTen.

(** ** The months of the monthly series *)

Section Windows.

(** Day 0 of the month after month [k], for any integer [k], is the last
    day of month [k] brought into the calendar. *)
Lemma make_day0_any (y k tod : Z) :
  Date.make y (k + 1) 0 tod
  = Date.mk (y + k / 12) (k mod 12)
      (Date.daysInMonth (y + k / 12) (k mod 12)) tod.
Proof.
  unfold Date.make. simpl.
  assert (y + (k + 1) / 12 + ((k + 1) mod 12 - 1) / 12 = y + k / 12) as ->
    by (Z.to_euclidean_division_equations; lia).
  assert (((k + 1) mod 12 - 1) mod 12 = k mod 12) as ->
    by (Z.to_euclidean_division_equations; lia).
  now rewrite Z.add_0_r.
Qed.

Lemma monthTotals_start (uid : ObjectId) (db : Db) (now : Date.t) (i : Z) :
  let k := Date.getMonth now - i in
  fst (fst (Aggregate.monthTotals uid db now i))
  = Date.mk (Date.getFullYear now + k / 12) (k mod 12) 1 0.
Proof. reflexivity. Qed.

Lemma monthTotals_number (uid : ObjectId) (db : Db) (now : Date.t) (i : Z) :
  Totals.monthNumber (fst (fst (Aggregate.monthTotals uid db now i)))
  = Totals.monthNumber now - i.
Proof.
  rewrite monthTotals_start. unfold Totals.monthNumber.
  cbn [Date.getFullYear Date.getMonth].
  pose proof (Z.div_mod (Date.getMonth now - i) 12 ltac:(lia)). lia.
Qed.

(** X13: the monthly series of the dashboard, the reports and the trend
    is dense and chronological.  For every [now] and length [n] the loop
    yields [n] tuples; each starts on day 1 at 00:00 of a month with index
    in 0..11; each tuple's month is the calendar month right after the one
    before it; and the last tuple is the month of [now] (December is
    followed by January of the next year, whatever [n] is). *)
Theorem monthly_series_is_dense (uid : ObjectId) (db : Db) (now : Date.t)
  (n : nat) :
  List.length (Aggregate.monthlyLoop uid db now n) = n
  /\ Forall
       (fun r =>
          Date.getDate (fst (fst r)) = 1
          /\ Date.timeOfDay (fst (fst r)) = 0
          /\ 0 <= Date.getMonth (fst (fst r)) < 12)
       (Aggregate.monthlyLoop uid db now n)
  /\ Sorted
       (fun a b =>
          Totals.monthNumber (fst (fst b))
          = Totals.monthNumber (fst (fst a)) + 1)
       (Aggregate.monthlyLoop uid db now n)
  /\ (forall r,
        nth_error (Aggregate.monthlyLoop uid db now n) (n - 1) = Some r ->
        Totals.monthNumber (fst (fst r)) = Totals.monthNumber now)
  /\ (forall r,
        hd_error (Aggregate.monthlyLoop uid db now n) = Some r ->
        Totals.monthNumber (fst (fst r))
        = Totals.monthNumber now - Z.of_nat (n - 1)).
Proof.
  split; [apply monthlyLoop_length|]. split; [|split; [|split]].
  - induction n as [|n IH]; simpl; constructor; [|assumption].
    rewrite monthTotals_start. simpl.
    repeat split; try reflexivity; apply Z.mod_pos_bound; lia.
  - induction n as [|n IH]; simpl; constructor; [assumption|].
    destruct n as [|n]; simpl; constructor.
    rewrite !monthTotals_number. lia.
  - induction n as [|n IH]; intros r; simpl.
    + discriminate.
    + destruct n as [|n].
      * simpl. intros H. injection H as <-. rewrite monthTotals_number. lia.
      * replace (S (S n) - 1)%nat with (S n) by lia. simpl.
        intros H. apply IH. now replace (S n - 1)%nat with n by lia.
  - destruct n as [|n]; simpl; intros r H; [discriminate|].
    injection H as <-. rewrite monthTotals_number. lia.
Qed.

Lemma validDate_fields (d : Date.t) :
  Reconcile.validDate d = true ->
  0 <= Date.getMonth d < 12
  /\ 1 <= Date.getDate d
        <= Date.daysInMonth (Date.getFullYear d) (Date.getMonth d)
  /\ 0 <= Date.timeOfDay d < 86400000.
Proof.
  unfold Reconcile.validDate. rewrite !andb_true_iff.
  rewrite !Z.leb_le, !Z.ltb_lt. lia.
Qed.

(** The window of one tuple: the dates between its first instant and
    23:59:59.000 of its last day. *)
Lemma month_window (uid : ObjectId) (db : Db) (now : Date.t) (i : Z)
  (d : Date.t) :
  let start := fst (fst (Aggregate.monthTotals uid db now i)) in
  let monthEnd :=
    Date.make (Date.getFullYear now) (Date.getMonth now - i + 1) 0
      (Date.hms 23 59 59 0) in
  Reconcile.validDate d = true ->
  (Date.between start monthEnd d = true
   <-> Date.getFullYear d = Date.getFullYear start
       /\ Date.getMonth d = Date.getMonth start
       /\ (Date.getDate d
           < Date.daysInMonth (Date.getFullYear start) (Date.getMonth start)
           \/ Date.timeOfDay d <= 86399000)).
Proof.
  intros start monthEnd Hv. unfold start, monthEnd.
  rewrite monthTotals_start, make_day0_any.
  destruct (validDate_fields d Hv) as (Hm & Hd & Ht).
  unfold Date.between. rewrite andb_true_iff, !leb_iff.
  cbn [Date.getFullYear Date.getMonth Date.getDate Date.timeOfDay].
  change (Date.hms 23 59 59 0) with 86399000.
  split.
  - intros [H1 H2].
    assert (Date.getFullYear d
            = Date.getFullYear now + (Date.getMonth now - i) / 12
            /\ Date.getMonth d = (Date.getMonth now - i) mod 12) as [Hy Hmo]
      by lia.
    rewrite <- Hy, <- Hmo in *. lia.
  - intros (Hy & Hmo & Hlast). rewrite <- Hy, <- Hmo in Hlast |- *. lia.
Qed.

(** X14: what a tuple of the monthly series counts.  Its income and
    expenses are the sums of the user's documents dated between the
    tuple's first instant and 23:59:59.000 of the month's last day; so a
    calendar date is counted in the tuple exactly when it lies in the
    tuple's month and year and not in the last 999 milliseconds of the
    month, and no date is counted in two tuples of a series. *)
Theorem monthly_tuple_window (uid : ObjectId) (db : Db) (now : Date.t) (i : Z) :
  exists monthEnd : Date.t,
    let start := fst (fst (Aggregate.monthTotals uid db now i)) in
    Aggregate.monthTotals uid db now i
    = (start,
       Ledger.sumOfAmounts
         (filter (Aggregate.inRange uid start monthEnd) (incomeDocs db)),
       Ledger.sumOfAmounts
         (filter (Aggregate.inRange uid start monthEnd) (expenseDocs db)))
    /\ (forall d, Reconcile.validDate d = true ->
          (Date.between start monthEnd d = true
           <-> Date.getFullYear d = Date.getFullYear start
               /\ Date.getMonth d = Date.getMonth start
               /\ (Date.getDate d
                   < Date.daysInMonth (Date.getFullYear start)
                       (Date.getMonth start)
                   \/ Date.timeOfDay d <= 86399000)))
    /\ (forall (j : Z) (d : Date.t),
          i <> j ->
          Date.between start monthEnd d = true ->
          Date.between (fst (fst (Aggregate.monthTotals uid db now j)))
            (Date.make (Date.getFullYear now) (Date.getMonth now - j + 1) 0
               (Date.hms 23 59 59 0)) d = false).
Proof.
  exists (Date.make (Date.getFullYear now) (Date.getMonth now - i + 1) 0
            (Date.hms 23 59 59 0)).
  cbv zeta. split; [|split].
  - unfold Aggregate.monthTotals. cbn [fst]. now rewrite !totalIn_sum.
  - intros d Hv. now apply month_window.
  - intros j d Hij Hb.
    destruct (Date.between (fst (fst (Aggregate.monthTotals uid db now j))) _ d)
      eqn:Hb'; [|reflexivity].
    exfalso. revert Hb Hb'.
    rewrite !monthTotals_start, !make_day0_any.
    unfold Date.between. rewrite !andb_true_iff, !leb_iff.
    cbn [Date.getFullYear Date.getMonth Date.getDate Date.timeOfDay].
    intros [H1 H2] [H3 H4].
    assert (Date.getFullYear d
            = Date.getFullYear now + (Date.getMonth now - i) / 12
            /\ Date.getMonth d = (Date.getMonth now - i) mod 12) as [Hy Hmo]
      by lia.
    assert (Date.getFullYear d
            = Date.getFullYear now + (Date.getMonth now - j) / 12
            /\ Date.getMonth d = (Date.getMonth now - j) mod 12) as [Hy' Hmo']
      by lia.
    apply Hij.
    assert ((Date.getMonth now - i) / 12 = (Date.getMonth now - j) / 12)
      as Hq by lia.
    assert ((Date.getMonth now - i) mod 12 = (Date.getMonth now - j) mod 12)
      as Hr by lia.
    pose proof (Z.div_mod (Date.getMonth now - i) 12 ltac:(lia)).
    pose proof (Z.div_mod (Date.getMonth now - j) 12 ltac:(lia)).
    lia.
Qed.

End Windows.

(** ** The trend and the monthly summary against the monthly series *)

Section Series.


(** X16: the monthly summary agrees with the dashboard of the same
    instant.  For a period other than [week], the last two tuples of the
    dashboard's monthly series carry the income and expenses that
    [GET /summary] reports for the previous and the current month, and
    for a period that is not [year] either (the month view) the
    dashboard's totals and balance are the summary's current month. *)
Theorem summary_agrees_with_dashboard (uid : ObjectId) (period : string)
  (clock : Date.t) (db : Db) :
  period <> "week" ->
  exists (data : Dashboard.Data) (s : DashboardSummary.Data),
    Dashboard.getDashboard uid period clock db = (json 200 data, db)
    /\ DashboardSummary.getSummary uid clock db = (json 200 s, db)
    /\ map (fun t => (Dashboard.income t, Dashboard.expenses t))
         (skipn 4 (Dashboard.monthlyData data))
       = [ (DashboardSummary.income (DashboardSummary.previousMonth s),
            DashboardSummary.expenses (DashboardSummary.previousMonth s));
           (DashboardSummary.income (DashboardSummary.currentMonth s),
            DashboardSummary.expenses (DashboardSummary.currentMonth s)) ]
    /\ DashboardSummary.balance (DashboardSummary.currentMonth s)
       = DashboardSummary.income (DashboardSummary.currentMonth s)
         - DashboardSummary.expenses (DashboardSummary.currentMonth s)
    /\ DashboardSummary.balance (DashboardSummary.previousMonth s)
       = DashboardSummary.income (DashboardSummary.previousMonth s)
         - DashboardSummary.expenses (DashboardSummary.previousMonth s)
    /\ (period <> "year" ->
        Dashboard.totalIncome data
        = DashboardSummary.income (DashboardSummary.currentMonth s)
        /\ Dashboard.totalExpenses data
           = DashboardSummary.expenses (DashboardSummary.currentMonth s)
        /\ Dashboard.balance data
           = DashboardSummary.balance (DashboardSummary.currentMonth s)).
Proof.
  intros Hweek.
  assert (map (fun t => (Dashboard.income t, Dashboard.expenses t))
              (skipn 4
                 (map Dashboard.tuple (Aggregate.monthlyLoop uid db clock 6)))
            = [ (Aggregate.totalIn uid
                   (Date.make (Date.getFullYear clock)
                      (Date.getMonth clock - 1) 1 0)
                   (Date.make (Date.getFullYear clock) (Date.getMonth clock) 0
                      (Date.hms 23 59 59 0)) (incomeDocs db),
                 Aggregate.totalIn uid
                   (Date.make (Date.getFullYear clock)
                      (Date.getMonth clock - 1) 1 0)
                   (Date.make (Date.getFullYear clock) (Date.getMonth clock) 0
                      (Date.hms 23 59 59 0)) (expenseDocs db));
                (Aggregate.totalIn uid
                   (Date.make (Date.getFullYear clock) (Date.getMonth clock)
                      1 0)
                   (Date.make (Date.getFullYear clock)
                      (Date.getMonth clock + 1) 0 (Date.hms 23 59 59 0))
                   (incomeDocs db),
                 Aggregate.totalIn uid
                   (Date.make (Date.getFullYear clock) (Date.getMonth clock)
                      1 0)
                   (Date.make (Date.getFullYear clock)
                      (Date.getMonth clock + 1) 0 (Date.hms 23 59 59 0))
                   (expenseDocs db)) ]) as Hlast.
  { cbn [Aggregate.monthlyLoop map skipn].
    unfold Aggregate.monthTotals, Dashboard.tuple.
    cbn [Dashboard.income Dashboard.expenses].
    change (Z.of_nat 1) with 1. change (Z.of_nat 0) with 0.
    replace (Date.getMonth clock - 1 + 1) with (Date.getMonth clock) by lia.
    replace (Date.getMonth clock - 0) with (Date.getMonth clock) by lia.
    reflexivity. }
  unfold Dashboard.getDashboard, Dashboard.periodRange,
    DashboardSummary.getSummary, DashboardSummary.monthOf.
  destruct (String.eqb_spec period "week") as [E|_]; [contradiction|].
  destruct (String.eqb_spec period "year") as [E|E].
  - eexists. eexists. split; [reflexivity|]. split; [reflexivity|].
    cbn [Dashboard.monthlyData DashboardSummary.previousMonth
         DashboardSummary.currentMonth DashboardSummary.income
         DashboardSummary.expenses DashboardSummary.balance].
    split; [exact Hlast|]. split; [reflexivity|]. split; [reflexivity|].
    intros Hy. contradiction.
  - eexists. eexists. split; [reflexivity|]. split; [reflexivity|].
    cbn [Dashboard.monthlyData DashboardSummary.previousMonth
         DashboardSummary.currentMonth DashboardSummary.income
         DashboardSummary.expenses DashboardSummary.balance
         Dashboard.totalIncome Dashboard.totalExpenses Dashboard.balance].
    split; [exact Hlast|]. repeat split; reflexivity.
Qed.

End Series.

Lemma summary_agrees_with_dashboard_witness :
  exists (data : Dashboard.Data) (s : DashboardSummary.Data),
    Dashboard.getDashboard Sample.owner "month"
      (Sample.at_ 2024 3 20 Sample.noon) Sample.drifted = (json 200 data, Sample.drifted)
    /\ DashboardSummary.getSummary Sample.owner
         (Sample.at_ 2024 3 20 Sample.noon) Sample.drifted
       = (json 200 s, Sample.drifted)
    /\ Dashboard.totalExpenses data
       = DashboardSummary.expenses (DashboardSummary.currentMonth s).
Proof.
  destruct (summary_agrees_with_dashboard Sample.owner "month"
              (Sample.at_ 2024 3 20 Sample.noon) Sample.drifted)
    as (data & s & H1 & H2 & _ & _ & _ & H6); [discriminate|].
  exists data, s. split; [exact H1|]. split; [exact H2|].
  apply H6. discriminate.
Defined.

(** ** Category performance *)

Section PerformanceFacts.

Lemma sum_perm (A : Type) (f : A -> Z) (l l' : list A) :
  Permutation l l' ->
  fold_right Z.add 0 (map f l) = fold_right Z.add 0 (map f l').
Proof.
  induction 1 as [|x l l' _ IH|x y l|l l' l'' _ IH1 _ IH2]; simpl; lia.
Qed.

Lemma perf_addToGroup_count (c : string) (a : Z)
  (gs : list Performance.Category) :
  fold_right Z.add 0 (map Performance.count (Performance.addToGroup c a gs))
  = fold_right Z.add 0 (map Performance.count gs) + 1.
Proof.
  induction gs as [|g gs IH]; simpl; [lia|].
  destruct (Performance.category g =? c)%string; simpl; lia.
Qed.

Lemma perf_addToGroup_names (c : string) (a : Z)
  (gs : list Performance.Category) (x : string) :
  In x (map Performance.category (Performance.addToGroup c a gs))
  <-> x = c \/ In x (map Performance.category gs).
Proof.
  induction gs as [|g gs IH]; simpl; [intuition|].
  destruct (String.eqb_spec (Performance.category g) c) as [E|E]; simpl.
  - rewrite E. intuition.
  - rewrite IH. intuition.
Qed.

Lemma perf_addToGroup_NoDup (c : string) (a : Z)
  (gs : list Performance.Category) :
  NoDup (map Performance.category gs) ->
  NoDup (map Performance.category (Performance.addToGroup c a gs)).
Proof.
  induction gs as [|g gs IH]; simpl; intros H.
  - constructor; [auto|constructor].
  - apply NoDup_cons_iff in H as [Hg H].
    destruct (String.eqb_spec (Performance.category g) c) as [E|E]; simpl.
    + constructor; [now rewrite <- E|assumption].
    + constructor; [|auto]. rewrite perf_addToGroup_names. intuition.
Qed.

(** A group keeps its extremes when a document of another category
    comes in. *)
Lemma extremesOf_other (docs : list Transaction.t) (e : Transaction.t)
  (g : Performance.Category) :
  Transaction.category e <> Performance.category g ->
  Totals.extremesOf docs g -> Totals.extremesOf (docs ++ [e]) g.
Proof.
  intros Hne (H1 & (x & Hx & Hxc & Hxa) & (y & Hy & Hyc & Hya) & H4).
  split; [assumption|]. split; [|split].
  - exists x. split; [apply in_or_app; now left|auto].
  - exists y. split; [apply in_or_app; now left|auto].
  - intros z Hz Hzc. apply in_app_or in Hz as [Hz|[<-|[]]]; [auto|].
    contradiction.
Qed.

(** One document more: the groups keep their extremes, and the group of
    the document's category takes the document in. *)
Lemma perf_addToGroup_extremes (docs : list Transaction.t) (e : Transaction.t)
  (gs : list Performance.Category) :
  NoDup (map Performance.category gs) ->
  (forall x, In x docs -> Transaction.category x = Transaction.category e ->
             In (Transaction.category e) (map Performance.category gs)) ->
  Forall (Totals.extremesOf docs) gs ->
  Forall (Totals.extremesOf (docs ++ [e]))
    (Performance.addToGroup (Transaction.category e) (Transaction.amount e) gs).
Proof.
  induction gs as [|g gs IH]; intros Hnd Hcov Hall; simpl.
  - constructor; [|constructor].
    assert (In e (docs ++ [e])) as He by (apply in_or_app; right; now left).
    split; [simpl; lia|]. split; [|split].
    + exists e. auto.
    + exists e. auto.
    + simpl. intros z Hz Hzc. apply in_app_or in Hz as [Hz|[<-|[]]]; [|lia].
      destruct (Hcov z Hz Hzc).
  - apply NoDup_cons_iff in Hnd as [Hg Hnd].
    apply Forall_cons_iff in Hall as [Hhead Hrest].
    destruct (String.eqb_spec (Performance.category g) (Transaction.category e))
      as [E|E].
    + constructor.
      * destruct Hhead as (H1 & (x & Hx & Hxc & Hxa) & (y & Hy & Hyc & Hya) & H4).
        assert (In e (docs ++ [e])) as He by (apply in_or_app; right; now left).
        split; [simpl; lia|]. simpl. split; [|split].
        -- destruct (Z.min_spec (Performance.minAmount g) (Transaction.amount e))
             as [[_ ->]|[_ ->]].
           ++ exists x. split; [apply in_or_app; now left|].
              split; [congruence|assumption].
           ++ exists e. auto.
        -- destruct (Z.max_spec (Performance.maxAmount g) (Transaction.amount e))
             as [[_ ->]|[_ ->]].
           ++ exists e. auto.
           ++ exists y. split; [apply in_or_app; now left|].
              split; [congruence|assumption].
        -- intros z Hz Hzc. apply in_app_or in Hz as [Hz|[<-|[]]]; [|lia].
           assert (Performance.minAmount g <= Transaction.amount z
                   <= Performance.maxAmount g) by (apply H4; congruence).
           lia.
      * apply Forall_forall. intros g2 Hg2.
        apply extremesOf_other;
          [|exact (proj1 (Forall_forall _ _) Hrest g2 Hg2)].
        intros Heq. apply Hg. rewrite E, Heq. now apply in_map.
    + constructor.
      * apply extremesOf_other; [congruence|assumption].
      * apply IH; [assumption| |assumption].
        intros x Hx Hxc. destruct (Hcov x Hx Hxc) as [H|H]; [|assumption].
        contradiction.
Qed.

Lemma perf_groupByCategory_snoc (docs : list Transaction.t) (e : Transaction.t) :
  Performance.groupByCategory (docs ++ [e])
  = Performance.addToGroup (Transaction.category e) (Transaction.amount e)
      (Performance.groupByCategory docs).
Proof. unfold Performance.groupByCategory. now rewrite fold_left_app. Qed.

Lemma perf_groupByCategory_facts (docs : list Transaction.t) :
  let gs := Performance.groupByCategory docs in
  fold_right Z.add 0 (map Performance.count gs) = Z.of_nat (List.length docs)
  /\ NoDup (map Performance.category gs)
  /\ (forall x, In x (map Performance.category gs)
                <-> In x (map Transaction.category docs))
  /\ Forall (Totals.extremesOf docs) gs.
Proof.
  induction docs as [|e docs IH] using rev_ind.
  - simpl. repeat split; try constructor; tauto.
  - destruct IH as (H1 & H2 & H3 & H4). cbv zeta.
    rewrite perf_groupByCategory_snoc. split; [|split; [|split]].
    + rewrite perf_addToGroup_count, H1, length_app. simpl. lia.
    + now apply perf_addToGroup_NoDup.
    + intros x. rewrite perf_addToGroup_names, H3, map_app, in_app_iff.
      simpl. intuition.
    + apply perf_addToGroup_extremes; [assumption| |assumption].
      intros x Hx Hxc. apply H3. rewrite <- Hxc. now apply in_map.
Qed.

(** X17: [GET /categories/:type].  A type other than [income] and
    [expense] is answered 400 and nothing is read.  Otherwise the reply
    is 200 and, over the documents of the chosen collection that belong
    to the user and are dated within the reported period: the counts of
    the groups add up to their number; there is one group for each of
    their categories and no other; the groups come largest total first;
    and every group counts at least one document, its [minAmount] and
    [maxAmount] are amounts of documents of its category, and every
    document of its category lies between the two.  The store is left as
    it was. *)
Theorem category_performance_groups (uid : ObjectId) (type_ : string)
  (startDate endDate : option Date.t) (clock : Date.t) (db : Db) :
  (type_ <> "income" -> type_ <> "expense" ->
   Performance.getCategoryPerformance uid type_ startDate endDate clock db
   = (message 400 "Invalid type. Use income or expense.", db))
  /\ (type_ = "income" \/ type_ = "expense" ->
      exists data : Performance.Data,
        Performance.getCategoryPerformance uid type_ startDate endDate clock db
        = (json 200 data, db)
        /\ Performance.type data = type_
        /\ let matched :=
             filter
               (Aggregate.inRange uid (fst (Performance.period data))
                  (snd (Performance.period data)))
               (if (type_ =? "income")%string then incomeDocs db
                else expenseDocs db) in
           fold_right Z.add 0
             (map Performance.count (Performance.categories data))
           = Z.of_nat (List.length matched)
           /\ NoDup (map Performance.category (Performance.categories data))
           /\ (forall c,
                 In c (map Performance.category (Performance.categories data))
                 <-> In c (map Transaction.category matched))
           /\ Sorted
                (fun a b => Performance.total b <= Performance.total a)
                (Performance.categories data)
           /\ Forall
                (fun g =>
                   1 <= Performance.count g
                   /\ (exists e, In e matched
                                 /\ Transaction.category e
                                    = Performance.category g
                                 /\ Transaction.amount e
                                    = Performance.minAmount g)
                   /\ (exists e, In e matched
                                 /\ Transaction.category e
                                    = Performance.category g
                                 /\ Transaction.amount e
                                    = Performance.maxAmount g)
                   /\ (forall e, In e matched ->
                                 Transaction.category e
                                 = Performance.category g ->
                                 Performance.minAmount g
                                 <= Transaction.amount e
                                 <= Performance.maxAmount g))
                (Performance.categories data)).
Proof.
  unfold Performance.getCategoryPerformance. split.
  - intros Hi He. simpl.
    destruct (String.eqb_spec type_ "income") as [E|_]; [contradiction|].
    destruct (String.eqb_spec type_ "expense") as [E|_]; [contradiction|].
    reflexivity.
  - intros Hty.
    assert (existsb (String.eqb type_) ["income"; "expense"] = true) as ->.
    { simpl. destruct Hty as [-> | ->]; reflexivity. }
    cbn [negb]. eexists. split; [reflexivity|].
    cbn [Performance.type Performance.period Performance.totalAmount
         Performance.categories fst snd].
    split; [reflexivity|]. unfold Mongo.find.
    set (matched := filter _ (if (type_ =? "income")%string then _ else _)).
    destruct (perf_groupByCategory_facts matched) as (G2 & G3 & G5 & G4).
    pose proof (sort_perm
                  (fun a b => Performance.total b <=? Performance.total a)
                  (Performance.groupByCategory matched)) as Hp.
    fold (Performance.sortDesc (Performance.groupByCategory matched)) in Hp.
    cbv zeta. split; [|split; [|split; [|split]]].
    + now rewrite (sum_perm _ _ _ _ Hp).
    + apply (Permutation_NoDup (Permutation_sym (Permutation_map _ Hp)) G3).
    + intros c. rewrite <- G5. split; apply Permutation_in.
      * apply Permutation_map, Hp.
      * apply Permutation_sym, Permutation_map, Hp.
    + unfold Performance.sortDesc.
      eapply Sorted_weaken;
        [|apply sort_sorted; intros a b H; apply Z.leb_gt in H;
          apply Z.leb_le; lia].
      intros a b H. apply Z.leb_le in H. exact H.
    + apply Forall_forall. intros g Hg.
      apply (Permutation_in _ Hp) in Hg.
      exact (proj1 (Forall_forall _ _) G4 g Hg).
Qed.

End PerformanceFacts.

(** ** Categories by type *)

Section CategoryFacts.

(** The [forEach] appends, in order, the defaults that no category of
    the user overrides, each flagged as a default. *)
Lemma pushDefaults_filter (userCategories defaults acc : list Category.t) :
  Category.pushDefaults userCategories defaults acc
  = acc
    ++ map Category.asDefault
         (filter
            (fun d =>
               negb (existsb
                       (fun u => (Category.name u =? Category.name d)%string)
                       userCategories))
            defaults).
Proof.
  revert acc. induction defaults as [|d ds IH]; intros acc; simpl.
  - now rewrite app_nil_r.
  - rewrite IH. destruct (existsb _ userCategories); simpl; [reflexivity|].
    now rewrite <- app_assoc.
Qed.

Lemma byName_total (a b : Category.t) :
  Category.byName a b = false -> Category.byName b a = true.
Proof.
  unfold Category.byName. intros H.
  destruct (String.leb_total (Category.name a) (Category.name b)) as [E|E];
    congruence.
Qed.

(** X18: [GET /type/:type] of the category routes.  A type other than
    [income] and [expense] is answered 400.  Otherwise the reply is 200
    with the user's categories of the type, every one of them, sorted by
    name, followed by defaults flagged [isDefault]; a default category of
    the type is listed exactly when no category of the user of that type
    has its name; and every listed category has the requested type and
    belongs to the user or to nobody. *)
Theorem categories_by_type (uid : ObjectId) (type_ : string)
  (categories : list Category.t) :
  (type_ <> "income" -> type_ <> "expense" ->
   Category.getByType uid type_ categories
   = message 400 "Invalid category type")
  /\ (type_ = "income" \/ type_ = "expense" ->
      exists own defaults : list Category.t,
        Category.getByType uid type_ categories
        = json 200 (own ++ map Category.asDefault defaults)
        /\ Permutation own (filter (Category.ofUser uid type_) categories)
        /\ Sorted
             (fun a b => String.leb (Category.name a) (Category.name b) = true)
             own
        /\ (forall d,
              In d defaults
              <-> In d categories
                  /\ Category.userId d = None
                  /\ Category.type d = type_
                  /\ ~ In (Category.name d) (map Category.name own))
        /\ Forall
             (fun c =>
                Category.type c = type_
                /\ (Category.userId c = Some uid
                    \/ (Category.userId c = None
                        /\ Category.isDefault c = true)))
             (own ++ map Category.asDefault defaults)).
Proof.
  unfold Category.getByType. split.
  - intros Hi He. simpl.
    destruct (String.eqb_spec type_ "income") as [E|_]; [contradiction|].
    destruct (String.eqb_spec type_ "expense") as [E|_]; [contradiction|].
    reflexivity.
  - intros Hty.
    assert (existsb (String.eqb type_) ["income"; "expense"] = true) as ->.
    { simpl. destruct Hty as [-> | ->]; reflexivity. }
    cbn [negb]. unfold Mongo.find. rewrite pushDefaults_filter.
    set (own := Query.sort Category.byName
                  (filter (Category.ofUser uid type_) categories)).
    set (shared := Query.sort Category.byName
                     (filter (Category.isShared type_) categories)).
    assert (Permutation own (filter (Category.ofUser uid type_) categories))
      as Hown by apply sort_perm.
    assert (Permutation shared (filter (Category.isShared type_) categories))
      as Hshared by apply sort_perm.
    assert (forall d,
              In d (filter
                      (fun d =>
                         negb (existsb
                                 (fun u =>
                                    (Category.name u =? Category.name d)%string)
                                 own)) shared)
              <-> In d categories
                  /\ Category.userId d = None
                  /\ Category.type d = type_
                  /\ ~ In (Category.name d) (map Category.name own)) as Hdef.
    { intros d. rewrite filter_In, negb_true_iff.
      assert (In d shared <-> In d categories /\ Category.userId d = None
                              /\ Category.type d = type_) as ->.
      { split.
        - intros H. apply (Permutation_in _ Hshared) in H.
          apply filter_In in H as [H1 H2]. unfold Category.isShared in H2.
          destruct (Category.userId d); [discriminate|].
          apply String.eqb_eq in H2. auto.
        - intros (H1 & H2 & H3).
          apply (Permutation_in _ (Permutation_sym Hshared)).
          apply filter_In. split; [assumption|]. unfold Category.isShared.
          rewrite H2. now apply String.eqb_eq. }
      assert (existsb
                (fun u => (Category.name u =? Category.name d)%string) own
              = false
              <-> ~ In (Category.name d) (map Category.name own)) as ->.
      { rewrite <- not_true_iff_false, existsb_exists, in_map_iff.
        split; intros H [u Hu]; apply H; exists u.
        - destruct Hu as [Hn Hin]. split; [assumption|].
          now apply String.eqb_eq.
        - destruct Hu as [Hin Hn]. apply String.eqb_eq in Hn. auto. }
      tauto. }
    exists own,
      (filter
         (fun d =>
            negb (existsb
                    (fun u => (Category.name u =? Category.name d)%string) own))
         shared).
    split; [reflexivity|]. split; [exact Hown|].
    split; [apply (sort_sorted Category.byName byName_total)|].
    split; [exact Hdef|].
    apply Forall_app. split; apply Forall_forall.
    + intros c Hc. apply (Permutation_in _ Hown) in Hc.
      apply filter_In in Hc as [_ Hc]. unfold Category.ofUser in Hc.
      destruct (Category.userId c) as [u|]; [|discriminate].
      apply andb_true_iff in Hc as [Hu Ht].
      apply Nat.eqb_eq in Hu. apply String.eqb_eq in Ht.
      subst u. auto.
    + intros c Hc. apply in_map_iff in Hc as [d [<- Hd]].
      apply Hdef in Hd as (_ & Hu & Ht & _). simpl. auto.
Qed.

End CategoryFacts.

(** ** The dates of the scan range *)

Section Scan.



End Scan.


(** ** Creating an expense and deleting it again *)

Section RoundTrip.

Lemma fresh_not_own (n uid : ObjectId) (es : list Transaction.t) :
  forallb (fun e => (Transaction._id e <? n)%nat) es = true ->
  forallb (fun e => negb (Transaction.isOwn n uid e)) es = true.
Proof.
  intros H. rewrite forallb_forall in *. intros e He.
  specialize (H e He). apply Nat.ltb_lt in H. unfold Transaction.isOwn.
  destruct (Nat.eqb_spec (Transaction._id e) n); [lia|reflexivity].
Qed.

Lemma findOne_snoc (A : Type) (q : A -> bool) (l : list A) (x : A) :
  forallb (fun e => negb (q e)) l = true -> q x = true ->
  Mongo.findOne q (l ++ [x]) = Some x /\ Mongo.deleteOne q (l ++ [x]) = l.
Proof.
  intros Hl Hx. unfold Mongo.findOne.
  induction l as [|y l IH]; simpl in *.
  - now rewrite Hx.
  - apply andb_true_iff in Hl as [Hy Hl]. apply negb_true_iff in Hy.
    rewrite Hy. destruct (IH Hl) as [-> ->]. auto.
Qed.

Lemma updateOne_keeps_others (A : Type) (q : A -> bool) (u : A -> A)
  (l : list A) (x : A) :
  In x l -> q x = false -> In x (Mongo.updateOne q u l).
Proof.
  intros Hin Hq. induction l as [|y l IH]; simpl in *; [contradiction|].
  destruct Hin as [->|Hin].
  - rewrite Hq. now left.
  - destruct (q y); right; auto.
Qed.

(** X20: deleting an expense right after creating it restores the
    ledger.  When [POST /] answers 201 and the id the store hands out is
    new to the expenses, the reply carries the expense under that id, and
    [DELETE /:id] on it answers 200 and leaves the expenses and the
    incomes exactly as they were before the create.
    Of the budgets nothing but a cached [spentAmount] can differ: every
    budget keeps its place, id, owner, category, amount, month and year,
    and a budget that does not hold the key of the expense's bucket is
    the same document as before. *)
Theorem delete_undoes_create (uid : ObjectId) (req : TransactionReq) (db : Db) :
  status (fst (ExpenseRoutes.postExpense uid req db)) = 201 ->
  forallb (fun e => (Transaction._id e <? nextId db)%nat) (expenseDocs db)
  = true ->
  exists e : Transaction.t,
    fst (ExpenseRoutes.postExpense uid req db) = json 201 e
    /\ Transaction._id e = nextId db
    /\ Transaction.userId e = uid
    /\ Transaction.amount e = reqAmount req
    /\ expenseDocs (snd (ExpenseRoutes.postExpense uid req db))
       = (expenseDocs db ++ [e])%list
    /\ let after :=
         ExpenseRoutes.deleteExpense uid (nextId db)
           (snd (ExpenseRoutes.postExpense uid req db)) in
       fst after = message 200 "Expense deleted successfully"
       /\ expenseDocs (snd after) = expenseDocs db
       /\ incomeDocs (snd after) = incomeDocs db
       /\ map (Budget.setSpentAmount 0) (budgetDocs (snd after))
          = map (Budget.setSpentAmount 0) (budgetDocs db)
       /\ forall b : Budget.t,
            In b (budgetDocs db) ->
            Budget.sameKey uid (reqTxCategory req)
              (Date.monthLong (reqDate req)) (Date.getFullYear (reqDate req)) b
            = false ->
            In b (budgetDocs (snd after)).
Proof.
  intros Hcreated Hfresh.
  assert (validateTransaction req = []) as Hv.
  { revert Hcreated. unfold ExpenseRoutes.postExpense, handleValidationErrors.
    destruct (validateTransaction req); [reflexivity|discriminate]. }
  clear Hcreated.
  unfold ExpenseRoutes.postExpense, handleValidationErrors. rewrite Hv.
  eexists. split; [reflexivity|].
  cbn [fst snd Transaction._id Transaction.userId Transaction.amount].
  split; [reflexivity|]. split; [reflexivity|]. split; [reflexivity|].
  split; [reflexivity|].
  unfold ExpenseRoutes.deleteExpense.
  cbn [expenseDocs withBudgets withExpenses tick budgetDocs incomeDocs nextId].
  set (e := Transaction.mk (nextId db) uid (reqDescription req) (reqAmount req)
              (reqTxCategory req) (reqDate req)).
  destruct (findOne_snoc _ (Transaction.isOwn (nextId db) uid)
              (expenseDocs db) e) as [Hf Hd].
  { now apply fresh_not_own. }
  { unfold Transaction.isOwn, e. simpl. now rewrite !Nat.eqb_refl. }
  rewrite Hf, Hd.
  cbn [fst snd expenseDocs withBudgets withExpenses tick budgetDocs incomeDocs
       nextId e Transaction.category Transaction.date Transaction.amount].
  unfold ExpenseRoutes.incBudget.
  split; [reflexivity|]. split; [reflexivity|]. split; [reflexivity|]. split.
  - rewrite !map_updateOne; [reflexivity| |]; intros x; reflexivity.
  - intros b Hb Hkey. apply updateOne_keeps_others; [|assumption].
    now apply updateOne_keeps_others.
Qed.

End RoundTrip.

Lemma delete_undoes_create_witness :
  exists e : Transaction.t,
    fst (ExpenseRoutes.postExpense Sample.owner
           (Sample.spend 1500 "Food" (Sample.at_ 2024 3 20 Sample.noon))
           Fixture.settled) = json 201 e
    /\ expenseDocs
         (snd (ExpenseRoutes.deleteExpense Sample.owner (nextId Fixture.settled)
                 (snd (ExpenseRoutes.postExpense Sample.owner
                         (Sample.spend 1500 "Food"
                            (Sample.at_ 2024 3 20 Sample.noon))
                         Fixture.settled))))
       = expenseDocs Fixture.settled.
Proof.
  destruct (delete_undoes_create Sample.owner
              (Sample.spend 1500 "Food" (Sample.at_ 2024 3 20 Sample.noon))
              Fixture.settled) as (e & H1 & _ & _ & _ & _ & _ & H7 & _);
    [reflexivity|reflexivity|].
  exists e. split; [exact H1|exact H7].
Defined.

(** ** The report's summary *)

Section ReportFacts.


End ReportFacts.
